(** * Booking, cart, checkout and settlement core of the consultation backend

    A shallow embedding of
    - [consultations/models.py]      (ConsultationCategory, Appointment),
    - [consultations/serializers.py] (AppointmentSerializer,
                                      CreateAppointmentSerializer),
    - [consultations/views.py]       (AppointmentHistoryView, AppointmentCreateView,
                                      AppointmentDetailView, SlotAvailabilityView),
    - [orders/models.py]             (Cart, CartItem, Order, OrderItem),
    - [orders/serializers.py]        (AddToCartSerializer, UpdateCartItemSerializer),
    - [orders/views.py]              (CartView, CartItemView, ClearCartView,
                                      CreateCheckoutSessionView, StripeWebhookView),
    followed by the properties of the booking-and-checkout core.

    Conventions.
    - The database is a record of tables; a table is the list of its rows in
      insertion order, every row carrying its primary key.  Primary keys come
      from per-table sequences that never go back.
    - [decimal.Decimal] is modelled with its coefficient and exponent and with
      the arithmetic of the default context (28 significant digits,
      ROUND_HALF_EVEN); exponent limits (beyond 10^999999) are out of reach of
      every value of this program and are left out.
    - A [DecimalField(max_digits=10, decimal_places=2)] column holds a value
      written to it at two places.  Writing does not check the number of
      digits and reading a row back does not fail; the serializer field that
      renders a decimal does check it.
    - [timezone.now().date()] is an input of every operation that reads it.
    - The payment provider is an input: the answer of
      [stripe.PaymentIntent.create] and the verdict of
      [stripe.Webhook.construct_event]. *)

From Stdlib Require Import ZArith QArith Qpower Lia Lqa Bool.
From stdpp Require Import base option list gmap strings sorting.

Open Scope Z_scope.

(** ** decimal.Decimal under the default context *)

Module Dec.

(** [coeff] carries the sign and the digits ([_sign] and [_int] of the Python
    object), [exp] is [_exp]: the value is [coeff * 10 ^ exp]. *)
Record Decimal : Type := mk { coeff : Z; exp : Z }.

#[global] Instance Decimal_eq_dec : EqDecision Decimal.
Proof. solve_decision. Defined.

(** Context precision: [getcontext().prec]. *)
Definition prec : Z := 28.

(** [Decimal(n)] for an int [n]. *)
Definition of_int (n : Z) : Decimal := mk n 0.

Fixpoint ndigits_aux (fuel : nat) (n : Z) : Z :=
  match fuel with
  | O => 1
  | S f => if n <? 10 then 1 else 1 + ndigits_aux f (n / 10)
  end.

(** [len(str(n))] for [n >= 0]: the number of decimal digits, 1 for zero. *)
Definition ndigits (n : Z) : Z :=
  ndigits_aux (S (Z.to_nat (Z.log2 n))) n.

(** Drop the last [k] digits of the non-negative [c], rounding half to even. *)
Definition round_half_even (c k : Z) : Z :=
  let p := 10 ^ k in
  let q := c / p in
  let r := c mod p in
  if 2 * r <? p then q
  else if p <? 2 * r then q + 1
  else if Z.even q then q else q + 1.

(** [Decimal._fix]: round to the context precision. *)
Definition fix_ (d : Decimal) : Decimal :=
  let m := Z.abs (coeff d) in
  let n := ndigits m in
  if n <=? prec then d
  else
    let k := n - prec in
    let q := round_half_even m k in
    if prec <? ndigits q
    then mk (Z.sgn (coeff d) * (q / 10)) (exp d + k + 1)
    else mk (Z.sgn (coeff d) * q) (exp d + k).

(** The loop of [__truediv__] on an exact quotient: strip trailing zeros while
    the exponent is below the ideal one. *)
Fixpoint strip_zeros (fuel : nat) (c e ideal : Z) : Decimal :=
  match fuel with
  | O => mk c e
  | S f =>
      if (e <? ideal) && (c mod 10 =? 0)
      then strip_zeros f (c / 10) (e + 1) ideal
      else mk c e
  end.

(** [Decimal.__truediv__].  Python raises [DivisionByZero] on a zero divisor;
    the model answers zero there.  The program divides by the literal 15 only. *)
Definition div (a b : Decimal) : Decimal :=
  let s := Z.sgn (coeff a) * Z.sgn (coeff b) in
  let x := Z.abs (coeff a) in
  let y := Z.abs (coeff b) in
  if y =? 0 then mk 0 0
  else if x =? 0 then mk 0 (exp a - exp b)
  else
    let shift := ndigits y - ndigits x + prec + 1 in
    let e := exp a - exp b - shift in
    let num := if 0 <=? shift then x * 10 ^ shift else x in
    let den := if 0 <=? shift then y else y * 10 ^ (- shift) in
    let q := num / den in
    let r := num mod den in
    if r =? 0
    then
      let d := strip_zeros (Z.to_nat (exp a - exp b - e)) q e (exp a - exp b) in
      fix_ (mk (s * coeff d) (exp d))
    else
      let q' := if q mod 5 =? 0 then q + 1 else q in
      fix_ (mk (s * q') e).

(** [Decimal.__mul__]. *)
Definition mul (a b : Decimal) : Decimal :=
  fix_ (mk (coeff a * coeff b) (exp a + exp b)).

(** [Decimal.__add__]. *)
Definition add (a b : Decimal) : Decimal :=
  let e := Z.min (exp a) (exp b) in
  fix_ (mk (coeff a * 10 ^ (exp a - e) + coeff b * 10 ^ (exp b - e)) e).

(** [d <= 0] against the int zero. *)
Definition le0 (d : Decimal) : bool := coeff d <=? 0.

(** Numerical equality, [Decimal.__eq__]. *)
Definition eqb (a b : Decimal) : bool :=
  let e := Z.min (exp a) (exp b) in
  coeff a * 10 ^ (exp a - e) =? coeff b * 10 ^ (exp b - e).

(** [int(d)]: truncation towards zero. *)
Definition to_int (d : Decimal) : Z :=
  if 0 <=? exp d then coeff d * 10 ^ exp d
  else Z.quot (coeff d) (10 ^ (- exp d)).

(** [Decimal._rescale(e, ROUND_HALF_EVEN)]: the value at exponent [e]. *)
Definition rescale (d : Decimal) (e : Z) : Decimal :=
  if e <=? exp d then mk (coeff d * 10 ^ (exp d - e)) e
  else mk (Z.sgn (coeff d) * round_half_even (Z.abs (coeff d)) (e - exp d)) e.

(** The rational number a decimal denotes. *)
Definition to_Q (d : Decimal) : Q :=
  (inject_Z (coeff d) * Qpower (inject_Z 10) (exp d))%Q.

(** An amount of [c] hundredths, as a two-place decimal such as a
    [DecimalField(decimal_places=2)] column yields. *)
Definition cents (c : Z) : Decimal := mk c (-2).

End Dec.

Abbreviation Decimal := Dec.Decimal.

(** ** Pricing: [Appointment.compute_price] and [CartItem.computed_price] *)

(** [(Decimal(price_per_15min) / Decimal(15)) * Decimal(duration)], the body
    both methods share. *)
Definition price_formula (price_per_15min : Decimal) (duration : Z) : Decimal :=
  Dec.mul (Dec.div price_per_15min (Dec.of_int 15)) (Dec.of_int duration).

(** ** Decimal fields *)

(** What a [models.DecimalField(max_digits=10, decimal_places=2)] column
    holds of a value written to it, as the program reads it back: the value
    at two places. *)
Definition decimal_column (value : Decimal) : Decimal := Dec.rescale value (-2).

(** [serializers.DecimalField(max_digits=10, decimal_places=2).to_representation]:
    [value.quantize] to two places under a context of ten digits; [None]
    stands for the [InvalidOperation] it raises when the result has more
    than ten digits. *)
Definition DecimalField_to_representation (value : Decimal) : option Decimal :=
  let quantized := Dec.rescale value (-2) in
  if Dec.ndigits (Z.abs (Dec.coeff quantized)) <=? 10 then Some quantized else None.

(** ** Dates and times *)

(** A [datetime.date] is its day number ([Z]); only order and equality are
    used. *)

(** [datetime.time]. *)
Record dt_time : Type := mk_time { hour : Z; minute : Z; second : Z; microsecond : Z }.

#[global] Instance dt_time_eq_dec : EqDecision dt_time.
Proof. solve_decision. Defined.

Definition us_per_day : Z := 86400000000.

(** Microseconds since midnight; the order of [datetime.time] values is the
    order of these numbers. *)
Definition time_us (t : dt_time) : Z :=
  ((hour t * 60 + minute t) * 60 + second t) * 1000000 + microsecond t.

Definition time_of_us (n : Z) : dt_time :=
  mk_time (n / 3600000000) (n / 60000000 mod 60) (n / 1000000 mod 60) (n mod 1000000).

Definition time_leb (a b : dt_time) : bool := time_us a <=? time_us b.
Definition time_ltb (a b : dt_time) : bool := time_us a <? time_us b.

(** [(datetime.combine(d, t) + timedelta(minutes=m)).time()]: the date part
    is dropped, so the clock wraps at midnight. *)
Definition add_minutes (t : dt_time) (m : Z) : dt_time :=
  time_of_us ((time_us t + m * 60000000) mod us_per_day).

Definition WORKING_HOURS_START : dt_time := mk_time 9 0 0 0.
Definition WORKING_HOURS_END : dt_time := mk_time 18 0 0 0.

(** ** Models

    Timestamps ([created_at], [updated_at], [added_at]) and
    [ConsultationCategory.description] play no part in the logic and are left
    out.  Users belong to another application and appear as their keys. *)

Module ConsultationCategory.
Record t : Type := mk { category : string; price_per_15min : Decimal }.
End ConsultationCategory.

Module Appointment.
Record t : Type := mk {
  pk : Z;
  user : Z;
  category : Z;
  date : Z;
  time : dt_time;
  duration : Z;
  total_price : Decimal;
  is_paid : bool
}.
End Appointment.

Module Cart.
Record t : Type := mk { pk : Z; user : Z }.
End Cart.

Module CartItem.
Record t : Type := mk {
  pk : Z;
  cart : Z;
  category : Z;
  date : Z;
  time : dt_time;
  duration : Z
}.
End CartItem.

Inductive OrderStatus : Type := pending | paid | failed | cancelled.

#[global] Instance OrderStatus_eq_dec : EqDecision OrderStatus.
Proof. solve_decision. Defined.

Module Order.
Record t : Type := mk {
  pk : Z;
  user : Z;
  total_amount : Decimal;
  status : OrderStatus;
  stripe_payment_intent_id : string
}.
Definition set_status (s : OrderStatus) (o : t) : t :=
  mk (pk o) (user o) (total_amount o) s (stripe_payment_intent_id o).
Definition set_intent (i : string) (o : t) : t :=
  mk (pk o) (user o) (total_amount o) (status o) i.
End Order.

Module OrderItem.
Record t : Type := mk {
  pk : Z;
  order : Z;
  category : Z;
  category_name : string;
  date : Z;
  time : dt_time;
  duration : Z;
  unit_price : Decimal;
  total_price : Decimal;
  appointment : option Z
}.
Definition set_appointment (a : option Z) (oi : t) : t :=
  mk (pk oi) (order oi) (category oi) (category_name oi) (date oi) (time oi)
     (duration oi) (unit_price oi) (total_price oi) a.
End OrderItem.

(** ** The database *)

(** A table: its rows in insertion order and the next value of its key
    sequence. *)
Record Table (A : Type) : Type := mk_table { rows : list A; next_pk : Z }.
Arguments mk_table {A} _ _.
Arguments rows {A} _.
Arguments next_pk {A} _.

Definition empty_table {A : Type} : Table A := mk_table [] 1.

(** [INSERT]: the row is built from the fresh key. *)
Definition insert_row {A : Type} (mk : Z -> A) (t : Table A) : Table A :=
  mk_table (rows t ++ [mk (next_pk t)]) (next_pk t + 1).

Record DB : Type := mk_db {
  categories : gmap Z ConsultationCategory.t;
  appointments : Table Appointment.t;
  carts : Table Cart.t;
  cart_items : Table CartItem.t;
  orders : Table Order.t;
  order_items : Table OrderItem.t
}.

Definition empty_db : DB :=
  mk_db ∅ empty_table empty_table empty_table empty_table empty_table.

Definition with_categories (c : gmap Z ConsultationCategory.t) (db : DB) : DB :=
  mk_db c (appointments db) (carts db) (cart_items db) (orders db) (order_items db).
Definition with_appointments (t : Table Appointment.t) (db : DB) : DB :=
  mk_db (categories db) t (carts db) (cart_items db) (orders db) (order_items db).
Definition with_carts (t : Table Cart.t) (db : DB) : DB :=
  mk_db (categories db) (appointments db) t (cart_items db) (orders db) (order_items db).
Definition with_cart_items (t : Table CartItem.t) (db : DB) : DB :=
  mk_db (categories db) (appointments db) (carts db) t (orders db) (order_items db).
Definition with_orders (t : Table Order.t) (db : DB) : DB :=
  mk_db (categories db) (appointments db) (carts db) (cart_items db) t (order_items db).
Definition with_order_items (t : Table OrderItem.t) (db : DB) : DB :=
  mk_db (categories db) (appointments db) (carts db) (cart_items db) (orders db) t.

(** The key of a slot: the triple of [Appointment.Meta.unique_together]. *)
Abbreviation slot := (Z * Z * dt_time)%type.

Definition appt_slot (a : Appointment.t) : slot :=
  (Appointment.category a, Appointment.date a, Appointment.time a).

(** [Appointment.objects.filter(category=c, date=d, time=t)]. *)
Definition appointments_at (k : slot) (db : DB) : list Appointment.t :=
  filter (fun a => appt_slot a = k) (rows (appointments db)).

(** [Appointment.objects.filter(category=c, date=d, time=t, is_paid=True)]. *)
Definition paid_appointments_at (k : slot) (db : DB) : list Appointment.t :=
  filter (fun a => Appointment.is_paid a = true) (appointments_at k db).

(** [qs.exists()]. *)
Definition exists_ {A : Type} (qs : list A) : bool :=
  match qs with [] => false | _ :: _ => true end.

(** [self.category.price_per_15min]: the related row is read from the
    catalog; [None] stands for the lookup raising. *)
Definition category_price (db : DB) (cid : Z) : option Decimal :=
  ConsultationCategory.price_per_15min <$> categories db !! cid.

(** [Appointment.compute_price]. *)
Definition compute_price (db : DB) (category duration : Z) : option Decimal :=
  p ← category_price db category; Some (price_formula p duration).

(** [CartItem.computed_price]. *)
Definition computed_price (db : DB) (item : CartItem.t) : option Decimal :=
  p ← category_price db (CartItem.category item);
  Some (price_formula p (CartItem.duration item)).

(** ** Requests and responses *)

(** The deserialized body of a booking or add-to-cart request: the four
    writable fields of both serializers.  Parsing of the raw JSON into these
    types is the framework's work and precedes everything modelled here. *)
Module Data.
Record t : Type := mk { category : Z; date : Z; time : dt_time; duration : Z }.
Definition slot_of (d : t) : slot := (category d, date d, time d).
End Data.

Inductive ErrorCode : Type :=
  | date_in_past
  | outside_working_hours
  | invalid_duration
  | does_not_exist
  | ends_after_working_hours
  | slot_already_booked
  | unique_set.

#[global] Instance ErrorCode_eq_dec : EqDecision ErrorCode.
Proof. solve_decision. Defined.

(** [serializer.errors]: the offending field (or [non_field_errors]) with its
    error. *)
Abbreviation Errors := (list (string * ErrorCode)).

(** What [CartSerializer] renders: every item with its live price, and the
    live total. *)
Record CartData : Type := mk_cart_data {
  cart_lines : list (CartItem.t * Decimal);
  cart_total : Decimal
}.

Inductive Body : Type :=
  | validation_errors (errs : Errors)
  | error (msg : string)
  | message (msg : string)
  | cart_message (msg : string) (cart : CartData)
  | cart_body (cart : CartData)
  | appointment_body (a : Appointment.t)
  | checkout_body (client_secret : string) (order_id : Z) (total_amount : Decimal)
  | status_ok
  | unhandled_exception.

Record Response : Type := mk_response { status_code : Z; body : Body }.

(** An exception no handler catches: the framework answers 500. *)
Definition server_error : Response := mk_response 500 unhandled_exception.

(** ** Serializer validation, as the framework drives it *)

(** The error list of one field. *)
Definition field_error {A : Type} (name : string) (r : ErrorCode + A) : Errors :=
  match r with inl e => [(name, e)] | inr _ => [] end.

(** The related field [category] resolves the key against the catalog. *)
Definition validate_category (db : DB) (value : Z) : ErrorCode + Z :=
  match categories db !! value with
  | Some _ => inr value
  | None => inl does_not_exist
  end.

(** [Serializer.run_validation] as the framework runs it: every field
    validator first, their errors collected ([to_internal_value]); when there
    is none, the validators of the serializer ([run_validators]), their
    errors collected; and [validate] only when these pass too.  [validators]
    is the list of the errors the serializer's validators raise. *)
Definition run_validation (field_errors : Errors) (validators : list ErrorCode)
    (validate : ErrorCode + Data.t) : Errors + Data.t :=
  match field_errors with
  | [] =>
      match validators with
      | [] =>
          match validate with
          | inl e => inl [("non_field_errors"%string, e)]
          | inr d => inr d
          end
      | _ :: _ => inl ((fun e => ("non_field_errors"%string, e)) <$> validators)
      end
  | _ :: _ => inl field_errors
  end.

(** ** consultations/serializers.py *)

Module CreateAppointmentSerializer.

Definition validate_date (today value : Z) : ErrorCode + Z :=
  if value <? today then inl date_in_past else inr value.

Definition validate_time (value : dt_time) : ErrorCode + dt_time :=
  if negb (time_leb WORKING_HOURS_START value && time_ltb value WORKING_HOURS_END)
  then inl outside_working_hours
  else inr value.

Definition validate_duration (value : Z) : ErrorCode + Z :=
  let valid := [15; 30; 60; 120] in
  if negb (bool_decide (value ∈ valid)) then inl invalid_duration else inr value.

(** [validate].  A [datetime.time] is always truthy, an int is truthy unless
    zero.  [instance] is [self.instance], [None] on creation. *)
Definition validate (instance : option Z) (db : DB) (data : Data.t)
  : ErrorCode + Data.t :=
  let appt_time := Data.time data in
  let appt_duration := Data.duration data in
  if negb (appt_duration =? 0)
     && time_ltb WORKING_HOURS_END (add_minutes appt_time appt_duration)
  then inl ends_after_working_hours
  else
    let qs := appointments_at (Data.slot_of data) db in
    let qs :=
      match instance with
      | Some pk => filter (fun a => Appointment.pk a ≠ pk) qs
      | None => qs
      end in
    if exists_ qs then inl slot_already_booked else inr data.

Definition field_errors (today : Z) (db : DB) (data : Data.t) : Errors :=
  field_error "category" (validate_category db (Data.category data))
  ++ field_error "date" (validate_date today (Data.date data))
  ++ field_error "time" (validate_time (Data.time data))
  ++ field_error "duration" (validate_duration (Data.duration data)).

(** The validators of the serializer: the [UniqueTogetherValidator] that the
    framework derives from [Meta.unique_together = ('category', 'date',
    'time')], all three being fields of the serializer.  On creation no row
    is excluded from its lookup. *)
Definition validators (db : DB) (data : Data.t) : list ErrorCode :=
  if exists_ (appointments_at (Data.slot_of data) db) then [unique_set] else [].

Definition is_valid (today : Z) (db : DB) (data : Data.t) : Errors + Data.t :=
  run_validation (field_errors today db data) (validators db data)
                 (validate None db data).

End CreateAppointmentSerializer.

(** ** consultations/models.py: saving an appointment *)

(** [Appointment.objects.create(...)]: [save] recomputes [total_price] from
    the catalog, then the row is inserted under the [unique_together]
    constraint, its [total_price] column holding the price at two places.
    [None] stands for the exception (missing category or integrity error);
    nothing is written then.  The row is returned as stored. *)
Definition create_appointment
    (user category date : Z) (time : dt_time) (duration : Z) (is_paid : bool)
    (db : DB) : option (Appointment.t * DB) :=
  total_price ← compute_price db category duration;
  if exists_ (appointments_at (category, date, time) db) then None
  else
    let a := Appointment.mk (next_pk (appointments db)) user category date time
                            duration (decimal_column total_price) is_paid in
    Some (a, with_appointments
               (insert_row (fun pk => Appointment.mk pk user category date time
                                        duration (decimal_column total_price) is_paid)
                           (appointments db)) db).

(** ** consultations/serializers.py: rendering an appointment *)

(** [AppointmentSerializer(appointment).data]: among its fields
    [price_per_15min] (of the category) and [total_price] are decimal fields
    of ten digits and two places; [None] stands for the exception either
    raises.  Rendered at two places, the price is the price of the stored
    row. *)
Definition AppointmentSerializer_data (db : DB) (a : Appointment.t)
  : option Appointment.t :=
  c ← categories db !! Appointment.category a;
  _ ← DecimalField_to_representation (ConsultationCategory.price_per_15min c);
  total_price ← DecimalField_to_representation (Appointment.total_price a);
  Some (Appointment.mk (Appointment.pk a) (Appointment.user a) (Appointment.category a)
          (Appointment.date a) (Appointment.time a) (Appointment.duration a)
          total_price (Appointment.is_paid a)).

(** ** consultations/views.py *)

(** [AppointmentCreateView.create]: direct booking.  The appointment is saved
    before the answer is rendered: when rendering raises, the row stays. *)
Definition AppointmentCreateView_create
    (today user : Z) (data : Data.t) (db : DB) : Response * DB :=
  match CreateAppointmentSerializer.is_valid today db data with
  | inl errs => (mk_response 400 (validation_errors errs), db)
  | inr vd =>
      match create_appointment user (Data.category vd) (Data.date vd)
                               (Data.time vd) (Data.duration vd) false db with
      | Some (a, db') =>
          match AppointmentSerializer_data db' a with
          | Some d => (mk_response 201 (appointment_body d), db')
          | None => (server_error, db')
          end
      | None => (server_error, db)
      end
  end.

(** [AppointmentDetailView.destroy]: cancellation by the owner.  Deleting the
    row sets the [appointment] link of an order item pointing at it to null. *)
Definition AppointmentDetailView_destroy (user pk : Z) (db : DB) : Response * DB :=
  match
    filter (fun a => Appointment.user a = user ∧ Appointment.pk a = pk)
           (rows (appointments db))
  with
  | [] => (mk_response 404 (error "Not found."), db)
  | appointment :: _ =>
      if Appointment.is_paid appointment
      then (mk_response 400
              (error "Paid appointments cannot be cancelled directly. Please contact support."),
            db)
      else
        let appts :=
          mk_table (filter (fun a => Appointment.pk a ≠ pk) (rows (appointments db)))
                   (next_pk (appointments db)) in
        let ois :=
          mk_table (map (fun oi => if bool_decide (OrderItem.appointment oi = Some pk)
                                   then OrderItem.set_appointment None oi else oi)
                        (rows (order_items db)))
                   (next_pk (order_items db)) in
        (mk_response 204 (message "Appointment cancelled successfully."),
         with_order_items ois (with_appointments appts db))
  end.

(** [CategoryAdminDetailView] (update): an administrator changes the price of
    a category. *)
Definition update_category_price (cid : Z) (price : Decimal) (db : DB) : DB :=
  with_categories
    (alter (fun c => ConsultationCategory.mk (ConsultationCategory.category c) price)
           cid (categories db))
    db.

(** ** orders/models.py: the cart *)

(** [cart.items.all()]. *)
Definition items_of_cart (db : DB) (cart_pk : Z) : list CartItem.t :=
  filter (fun i => CartItem.cart i = cart_pk) (rows (cart_items db)).

(** [user.cart]: the one-to-one reverse accessor; [None] stands for
    [Cart.DoesNotExist]. *)
Definition user_cart (db : DB) (user : Z) : option Cart.t :=
  head (filter (fun c => Cart.user c = user) (rows (carts db))).

(** [sum(...)] over decimals, starting from the int zero. *)
Definition sum_prices (prices : list Decimal) : Decimal :=
  foldl Dec.add (Dec.of_int 0) prices.

(** [Cart.total]. *)
Definition Cart_total (db : DB) (cart_pk : Z) : option Decimal :=
  prices ← mapM (computed_price db) (items_of_cart db cart_pk);
  Some (sum_prices prices).

(** [CartSerializer(cart).data]. *)
Definition cart_data (db : DB) (cart_pk : Z) : option CartData :=
  lines ← mapM (fun i => p ← computed_price db i; Some (i, p))
               (items_of_cart db cart_pk);
  total ← Cart_total db cart_pk;
  Some (mk_cart_data lines total).

(** ** orders/serializers.py *)

Module AddToCartSerializer.

Definition validate_date (today value : Z) : ErrorCode + Z :=
  if value <? today then inl date_in_past else inr value.

Definition validate_duration (value : Z) : ErrorCode + Z :=
  if negb (bool_decide (value ∈ [15; 30; 60; 120]))
  then inl invalid_duration
  else inr value.

Definition validate (db : DB) (data : Data.t) : ErrorCode + Data.t :=
  if exists_ (paid_appointments_at (Data.slot_of data) db)
  then inl slot_already_booked
  else inr data.

Definition field_errors (today : Z) (db : DB) (data : Data.t) : Errors :=
  field_error "category" (validate_category db (Data.category data))
  ++ field_error "date" (validate_date today (Data.date data))
  ++ field_error "duration" (validate_duration (Data.duration data)).

(** [CartItem] has no uniqueness constraint: the serializer has no validators
    of its own. *)
Definition is_valid (today : Z) (db : DB) (data : Data.t) : Errors + Data.t :=
  run_validation (field_errors today db data) [] (validate db data).

End AddToCartSerializer.

(** The body of a PATCH: every field is optional. *)
Module Patch.
Record t : Type := mk {
  duration : option Z;
  category : option Z;
  date : option Z;
  time : option dt_time
}.
End Patch.

Module UpdateCartItemSerializer.

Definition validate_duration (value : Z) : ErrorCode + Z :=
  if negb (bool_decide (value ∈ [15; 30; 60; 120]))
  then inl invalid_duration
  else inr value.

(** [validate]: a cart item has no [appointment_id], so the [exclude]
    excludes the null key, that is nothing. *)
Definition validate (instance : CartItem.t) (db : DB) (data : Patch.t)
  : ErrorCode + Patch.t :=
  let category := default (CartItem.category instance) (Patch.category data) in
  let date := default (CartItem.date instance) (Patch.date data) in
  let time := default (CartItem.time instance) (Patch.time data) in
  if exists_ (paid_appointments_at (category, date, time) db)
  then inl slot_already_booked
  else inr data.

Definition field_errors (db : DB) (data : Patch.t) : Errors :=
  from_option (fun d => field_error "duration" (validate_duration d)) [] (Patch.duration data)
  ++ from_option (fun c => field_error "category" (validate_category db c)) [] (Patch.category data).

Definition is_valid (instance : CartItem.t) (db : DB) (data : Patch.t)
  : Errors + Patch.t :=
  match field_errors db data with
  | [] =>
      match validate instance db data with
      | inl e => inl [("non_field_errors"%string, e)]
      | inr d => inr d
      end
  | errs => inl errs
  end.

(** [serializer.save()]: the given fields overwrite the item's. *)
Definition update (instance : CartItem.t) (data : Patch.t) : CartItem.t :=
  CartItem.mk (CartItem.pk instance) (CartItem.cart instance)
    (default (CartItem.category instance) (Patch.category data))
    (default (CartItem.date instance) (Patch.date data))
    (default (CartItem.time instance) (Patch.time data))
    (default (CartItem.duration instance) (Patch.duration data)).

End UpdateCartItemSerializer.

(** ** orders/views.py: cart views *)

(** [CartView._get_or_create_cart]. *)
Definition get_or_create_cart (user : Z) (db : DB) : Cart.t * DB :=
  match user_cart db user with
  | Some cart => (cart, db)
  | None =>
      (Cart.mk (next_pk (carts db)) user,
       with_carts (insert_row (fun pk => Cart.mk pk user) (carts db)) db)
  end.

(** Render a response around [CartSerializer(cart).data]. *)
Definition cart_response (code : Z) (wrap : CartData -> Body) (cart_pk : Z) (db : DB)
  : Response :=
  match cart_data db cart_pk with
  | Some d => mk_response code (wrap d)
  | None => server_error
  end.

(** [CartView.get]. *)
Definition CartView_get (user : Z) (db : DB) : Response * DB :=
  let '(cart, db1) := get_or_create_cart user db in
  (cart_response 200 cart_body (Cart.pk cart) db1, db1).

(** [CartView.post]: add an item to the cart. *)
Definition CartView_post (today user : Z) (data : Data.t) (db : DB) : Response * DB :=
  match AddToCartSerializer.is_valid today db data with
  | inl errs => (mk_response 400 (validation_errors errs), db)
  | inr vd =>
      let '(cart, db1) := get_or_create_cart user db in
      let db2 :=
        with_cart_items
          (insert_row (fun pk => CartItem.mk pk (Cart.pk cart) (Data.category vd)
                                   (Data.date vd) (Data.time vd) (Data.duration vd))
                      (cart_items db1))
          db1 in
      (cart_response 201 (cart_message "Item added to cart.") (Cart.pk cart) db2, db2)
  end.

(** [CartItemView._get_item]: the item must sit in a cart of the user. *)
Definition get_item (pk user : Z) (db : DB) : option CartItem.t :=
  head (filter (fun i => CartItem.pk i = pk
                         ∧ (Cart.pk <$> user_cart db user) = Some (CartItem.cart i))
               (rows (cart_items db))).

(** [CartItemView.patch]. *)
Definition CartItemView_patch (user pk : Z) (data : Patch.t) (db : DB) : Response * DB :=
  match get_item pk user db with
  | None => (mk_response 404 (error "Item not found."), db)
  | Some item =>
      match UpdateCartItemSerializer.is_valid item db data with
      | inl errs => (mk_response 400 (validation_errors errs), db)
      | inr vd =>
          let item' := UpdateCartItemSerializer.update item vd in
          let db1 :=
            with_cart_items
              (mk_table (map (fun i => if bool_decide (CartItem.pk i = pk)
                                       then item' else i)
                             (rows (cart_items db)))
                        (next_pk (cart_items db)))
              db in
          (cart_response 200 (cart_message "Cart item updated.") (CartItem.cart item) db1,
           db1)
      end
  end.

(** [CartItemView.delete]. *)
Definition CartItemView_delete (user pk : Z) (db : DB) : Response * DB :=
  match get_item pk user db with
  | None => (mk_response 404 (error "Item not found."), db)
  | Some item =>
      let db1 :=
        with_cart_items
          (mk_table (filter (fun i => CartItem.pk i ≠ pk) (rows (cart_items db)))
                    (next_pk (cart_items db)))
          db in
      (cart_response 200 (cart_message "Item removed from cart.") (CartItem.cart item) db1,
       db1)
  end.

(** [cart.items.all().delete()]. *)
Definition delete_cart_items (cart_pk : Z) (db : DB) : DB :=
  with_cart_items
    (mk_table (filter (fun i => CartItem.cart i ≠ cart_pk) (rows (cart_items db)))
              (next_pk (cart_items db)))
    db.

(** [ClearCartView.delete]. *)
Definition ClearCartView_delete (user : Z) (db : DB) : Response * DB :=
  match user_cart db user with
  | Some cart =>
      (mk_response 200 (message "Cart cleared."), delete_cart_items (Cart.pk cart) db)
  | None => (mk_response 200 (message "Cart is already empty."), db)
  end.

(** ** orders/views.py: checkout *)

(** What [stripe.PaymentIntent.create] returns. *)
Record PaymentIntent : Type := mk_intent { intent_id : string; client_secret : string }.

(** The provider as seen from checkout: from the amount in cents and the
    metadata (order key, user key) to an intent, or to the message of a
    [stripe.error.StripeError]. *)
Definition Provider : Type := Z -> Z -> Z -> string + PaymentIntent.

(** The loop creating one [OrderItem] per cart item, the [unit_price] and
    [total_price] columns holding their values at two places.  The flag is
    [false] when reading a price raised; the rows written before stay. *)
Fixpoint create_order_items (order_pk : Z) (items : list CartItem.t) (db : DB)
  : bool * DB :=
  match items with
  | [] => (true, db)
  | item :: rest =>
      match categories db !! CartItem.category item with
      | None => (false, db)
      | Some c =>
          let computed :=
            price_formula (ConsultationCategory.price_per_15min c)
                          (CartItem.duration item) in
          create_order_items order_pk rest
            (with_order_items
               (insert_row
                  (fun pk => OrderItem.mk pk order_pk (CartItem.category item)
                               (ConsultationCategory.category c)
                               (CartItem.date item) (CartItem.time item)
                               (CartItem.duration item)
                               (decimal_column (ConsultationCategory.price_per_15min c))
                               (decimal_column computed) None)
                  (order_items db))
               db)
      end
  end.

(** [order.delete()]: the order's items go with it ([on_delete=CASCADE]). *)
Definition delete_order (order_pk : Z) (db : DB) : DB :=
  with_order_items
    (mk_table (filter (fun oi => OrderItem.order oi ≠ order_pk) (rows (order_items db)))
              (next_pk (order_items db)))
    (with_orders
       (mk_table (filter (fun o => Order.pk o ≠ order_pk) (rows (orders db)))
                 (next_pk (orders db)))
       db).

(** [order.save()] on an existing row. *)
Definition save_order (order : Order.t) (db : DB) : DB :=
  with_orders
    (mk_table (map (fun o => if bool_decide (Order.pk o = Order.pk order)
                             then order else o)
                   (rows (orders db)))
              (next_pk (orders db)))
    db.

(** [CreateCheckoutSessionView.post].  The order row holds the total at two
    places; the amount for the provider and the answer are computed from the
    total as [cart.total()] returned it. *)
Definition CreateCheckoutSessionView_post (stripe : Provider) (user : Z) (db : DB)
  : Response * DB :=
  match user_cart db user with
  | None => (mk_response 400 (error "Cart is empty."), db)
  | Some cart =>
      let items := items_of_cart db (Cart.pk cart) in
      if negb (exists_ items)
      then (mk_response 400 (error "Cart is empty."), db)
      else
        match Cart_total db (Cart.pk cart) with
        | None => (server_error, db)
        | Some total =>
            if Dec.le0 total
            then (mk_response 400 (error "Invalid cart total."), db)
            else
              let order :=
                Order.mk (next_pk (orders db)) user (decimal_column total) pending "" in
              let db1 :=
                with_orders
                  (insert_row (fun pk => Order.mk pk user (decimal_column total) pending "")
                              (orders db))
                  db in
              match create_order_items (Order.pk order) items db1 with
              | (false, db2) => (server_error, db2)
              | (true, db2) =>
                  match stripe (Dec.to_int (Dec.mul total (Dec.of_int 100)))
                               (Order.pk order) user with
                  | inl e =>
                      (mk_response 502 (error ("Stripe error: " +:+ e)),
                       delete_order (Order.pk order) db2)
                  | inr intent =>
                      (mk_response 200
                         (checkout_body (client_secret intent) (Order.pk order) total),
                       save_order (Order.set_intent (intent_id intent) order) db2)
                  end
              end
        end
  end.

(** ** orders/views.py: the payment webhook *)

Inductive EventType : Type :=
  | payment_intent_succeeded
  | payment_intent_payment_failed
  | other_event.

(** A verified event: its type and [data.object.metadata.order_id] when the
    metadata carries one. *)
Record Event : Type := mk_event { event_type : EventType; order_id : option Z }.

(** [Order.objects.filter(pk=order_id, status='pending')]; a null key matches
    no row. *)
Definition pending_orders (order_id : option Z) (db : DB) : list Order.t :=
  filter (fun o => Some (Order.pk o) = order_id ∧ Order.status o = pending)
         (rows (orders db)).

(** [order.items.all()]. *)
Definition items_of_order (db : DB) (order_pk : Z) : list OrderItem.t :=
  filter (fun oi => OrderItem.order oi = order_pk) (rows (order_items db)).

Definition item_slot (oi : OrderItem.t) : slot :=
  (OrderItem.category oi, OrderItem.date oi, OrderItem.time oi).

(** [oi.save()] on an existing row. *)
Definition save_order_item (oi : OrderItem.t) (db : DB) : DB :=
  with_order_items
    (mk_table (map (fun r => if bool_decide (OrderItem.pk r = OrderItem.pk oi)
                             then oi else r)
                   (rows (order_items db)))
              (next_pk (order_items db)))
    db.

(** The loop over the order's items: [Appointment.objects.get_or_create] on
    the slot, and the link back when a row was created.  The flag is [false]
    when an exception left the loop ([MultipleObjectsReturned], or the save of
    the new appointment raising); what was written before stays. *)
Fixpoint create_appointments (user : Z) (items : list OrderItem.t) (db : DB)
  : bool * DB :=
  match items with
  | [] => (true, db)
  | oi :: rest =>
      match appointments_at (item_slot oi) db with
      | [] =>
          match create_appointment user (OrderItem.category oi) (OrderItem.date oi)
                                   (OrderItem.time oi) (OrderItem.duration oi) true db with
          | Some (appt, db1) =>
              create_appointments user rest
                (save_order_item
                   (OrderItem.set_appointment (Some (Appointment.pk appt)) oi) db1)
          | None => (false, db)
          end
      | [_] => create_appointments user rest db
      | _ :: _ :: _ => (false, db)
      end
  end.

(** [StripeWebhookView.post].  [event] is what
    [stripe.Webhook.construct_event] yields, [None] when it raises on a bad
    payload or signature. *)
Definition StripeWebhookView_post (event : option Event) (db : DB) : Response * DB :=
  match event with
  | None => (mk_response 400 (error "Invalid webhook signature."), db)
  | Some ev =>
      match event_type ev with
      | payment_intent_succeeded =>
          match pending_orders (order_id ev) db with
          | [] => (mk_response 404 (error "Order not found."), db)
          | order :: _ =>
              let db1 := save_order (Order.set_status paid order) db in
              match create_appointments (Order.user order)
                                        (items_of_order db1 (Order.pk order)) db1 with
              | (false, db2) => (server_error, db2)
              | (true, db2) =>
                  let db3 :=
                    match user_cart db2 (Order.user order) with
                    | Some cart => delete_cart_items (Cart.pk cart) db2
                    | None => db2
                    end in
                  (mk_response 200 status_ok, db3)
              end
          end
      | payment_intent_payment_failed =>
          (mk_response 200 status_ok,
           with_orders
             (mk_table
                (map (fun o => if bool_decide (Some (Order.pk o) = order_id ev
                                               ∧ Order.status o = pending)
                               then Order.set_status failed o else o)
                     (rows (orders db)))
                (next_pk (orders db)))
             db)
      | other_event => (mk_response 200 status_ok, db)
      end
  end.

(** ** The system as a whole *)

(** One request to the backend, with the inputs it depends on (the day it
    arrives, the authenticated user, the provider's behaviour). *)
Inductive Request : Type :=
  | book (today user : Z) (data : Data.t)
  | cancel (user pk : Z)
  | cart_get (user : Z)
  | cart_add (today user : Z) (data : Data.t)
  | cart_patch (user pk : Z) (data : Patch.t)
  | cart_remove (user pk : Z)
  | cart_clear (user : Z)
  | checkout (stripe : Provider) (user : Z)
  | webhook (event : option Event)
  | admin_set_price (cid : Z) (price : Decimal).

Definition handle (r : Request) (db : DB) : Response * DB :=
  match r with
  | book today user data => AppointmentCreateView_create today user data db
  | cancel user pk => AppointmentDetailView_destroy user pk db
  | cart_get user => CartView_get user db
  | cart_add today user data => CartView_post today user data db
  | cart_patch user pk data => CartItemView_patch user pk data db
  | cart_remove user pk => CartItemView_delete user pk db
  | cart_clear user => ClearCartView_delete user db
  | checkout stripe user => CreateCheckoutSessionView_post stripe user db
  | webhook event => StripeWebhookView_post event db
  | admin_set_price cid price =>
      (mk_response 200 status_ok, update_category_price cid price db)
  end.

(** The state after a sequence of requests. *)
Definition run (rs : list Request) (db : DB) : DB :=
  foldl (fun s r => snd (handle r s)) db rs.

(** A fresh installation with a catalog. *)
Definition init_db (catalog : gmap Z ConsultationCategory.t) : DB :=
  with_categories catalog empty_db.

(** Requests that touch only the catalog or a cart. *)
Definition catalog_or_cart (r : Request) : bool :=
  match r with
  | cart_get _ | cart_add _ _ _ | cart_patch _ _ _ | cart_remove _ _
  | cart_clear _ | admin_set_price _ _ => true
  | _ => false
  end.

(** ** Consistency of the stored data *)

(** [unique_together = ('category', 'date', 'time')]. *)
Definition unique_slots (db : DB) : Prop :=
  NoDup (appt_slot <$> rows (appointments db)).

(** Keys come from the sequence, and are unique. *)
Definition keyed {A : Type} (pk : A -> Z) (t : Table A) : Prop :=
  Forall (fun r => pk r < next_pk t) (rows t) ∧ NoDup (pk <$> rows t).

(** Foreign keys of an order item: its order's key was issued, its category
    is in the catalog. *)
Definition order_item_refs (db : DB) (oi : OrderItem.t) : Prop :=
  OrderItem.order oi < next_pk (orders db)
  ∧ is_Some (categories db !! OrderItem.category oi).

Record consistent (db : DB) : Prop := mk_consistent {
  cons_slots : unique_slots db;
  cons_orders : keyed Order.pk (orders db);
  cons_order_items : keyed OrderItem.pk (order_items db);
  cons_refs : Forall (order_item_refs db) (rows (order_items db))
}.

(** The appointments the loop adds: paid, owned by the order's user, one per
    item whose slot was free, priced from the catalog as it is now. *)
Definition settled_from (db : DB) (user : Z) (items : list OrderItem.t)
    (a : Appointment.t) : Prop :=
  Appointment.is_paid a = true
  /\ Appointment.user a = user
  /\ (exists oi, oi ∈ items
                 /\ appt_slot a = item_slot oi
                 /\ Appointment.duration a = OrderItem.duration oi)
  /\ (exists c, categories db !! Appointment.category a = Some c
                /\ Appointment.total_price a
                   = decimal_column
                       (price_formula (ConsultationCategory.price_per_15min c)
                                      (Appointment.duration a))).

(** ** The validation policy in the words of the specification *)

(** Date not before today, start within [09:00, 18:00), duration one of the
    four, and the end strictly before 18:00. *)
Definition policy_ok (today : Z) (data : Data.t) : bool :=
  (today <=? Data.date data)
  && (time_leb WORKING_HOURS_START (Data.time data)
      && time_ltb (Data.time data) WORKING_HOURS_END)
  && bool_decide (Data.duration data ∈ [15; 30; 60; 120])
  && (time_us (Data.time data) + Data.duration data * 60000000
      <? time_us WORKING_HOURS_END).

(** The exact price [u / 15 * D], as a rational. *)
Definition exact_price (u : Decimal) (duration : Z) : Q :=
  (Dec.to_Q u / inject_Z 15 * inject_Z duration)%Q.

(** Half a unit in the 28th significant digit, relative to the value. *)
Definition eps : Q := 1 # 2000000000000000000000000000.

(** A response the provider takes for an acknowledgement: a 2xx status. *)
Definition acknowledged (r : Response) : bool :=
  (200 <=? status_code r) && (status_code r <? 300).

(** ** Sample data *)

Definition immigration : ConsultationCategory.t :=
  ConsultationCategory.mk "Immigration" (Dec.cents 4500).
Definition family_law : ConsultationCategory.t :=
  ConsultationCategory.mk "Family Law" (Dec.cents 6000).
Definition tax_consulting : ConsultationCategory.t :=
  ConsultationCategory.mk "Tax Consulting" (Dec.cents 2000).

Definition sample_catalog : gmap Z ConsultationCategory.t :=
  <[1 := immigration]> (<[2 := family_law]> (<[3 := tax_consulting]> ∅)).

Definition sample_db : DB := init_db sample_catalog.

(** A provider that accepts every intent, and one that is down. *)
Definition provider_up : Provider :=
  fun _ _ _ => inr (mk_intent "pi_1" "pi_1_secret").
Definition provider_down : Provider :=
  fun _ _ _ => inl "connection error"%string.

Definition at_ (h m : Z) : dt_time := mk_time h m 0 0.

(** ** consultations/views.py: history and availability *)

(** [Meta.ordering = ['-date', '-time']] of [Appointment], also the
    [order_by('-date', '-time')] of the history view: later dates first, and
    on one date later times first.  Rows that agree on both come in an order
    the database chooses; the sort below keeps them as stored. *)
Definition newer_first (a b : Appointment.t) : Prop :=
  Appointment.date b < Appointment.date a
  \/ (Appointment.date b = Appointment.date a
      /\ time_us (Appointment.time b) <= time_us (Appointment.time a)).

#[global] Instance newer_first_dec : RelDecision newer_first.
Proof. intros a b. unfold newer_first. solve_decision. Defined.

#[global] Instance newer_first_total : Total newer_first.
Proof. intros a b. unfold newer_first. lia. Qed.

(** [AppointmentHistoryView.get_queryset]. *)
Definition AppointmentHistoryView_get_queryset (user : Z) (db : DB)
  : list Appointment.t :=
  merge_sort newer_first
    (filter (fun a => Appointment.user a = user) (rows (appointments db))).

(** What the availability view answers: an error with its status, or the
    booked times. *)
Inductive AvailabilityResponse : Type :=
  | availability_error (status : Z) (msg : string)
  | booked_times (times : list dt_time).

(** [SlotAvailabilityView.get].  The two query parameters are given parsed;
    [None] stands for a parameter that is absent or empty. *)
Definition SlotAvailabilityView_get (category_id date : option Z) (db : DB)
  : AvailabilityResponse :=
  match category_id, date with
  | Some c, Some d =>
      booked_times
        (Appointment.time
           <$> merge_sort newer_first
                 (filter (fun a => Appointment.category a = c /\ Appointment.date a = d)
                         (rows (appointments db))))
  | _, _ =>
      availability_error 400 "Both category and date query params are required."
  end.

(** ** Keys of the cart and of the ledger *)

(** Keys of appointments, carts and cart items come from their sequences and
    are unique, a user has at most one cart ([OneToOneField]), and a cart item
    refers to a stored cart. *)
Record well_keyed (db : DB) : Prop := mk_well_keyed {
  wk_appointments : keyed Appointment.pk (appointments db);
  wk_carts : keyed Cart.pk (carts db);
  wk_one_cart : NoDup (Cart.user <$> rows (carts db));
  wk_cart_items : keyed CartItem.pk (cart_items db);
  wk_cart_refs :
    Forall (fun i => CartItem.cart i ∈ Cart.pk <$> rows (carts db))
           (rows (cart_items db))
}.

(** Every cart item names a category of the catalog ([CartItem.category] is a
    foreign key). *)
Definition cart_items_in_catalog (db : DB) : Prop :=
  Forall (fun i => is_Some (categories db !! CartItem.category i)) (rows (cart_items db)).

(** The order item that checkout writes for a cart item: the item's fields,
    the name and unit price of its category as the catalog has them, the
    computed total at two places, and no appointment yet. *)
Definition snapshot_of (db : DB) (order_pk : Z) (i : CartItem.t) (oi : OrderItem.t)
  : Prop :=
  OrderItem.order oi = order_pk
  /\ OrderItem.category oi = CartItem.category i
  /\ OrderItem.date oi = CartItem.date i
  /\ OrderItem.time oi = CartItem.time i
  /\ OrderItem.duration oi = CartItem.duration i
  /\ OrderItem.appointment oi = None
  /\ exists c, categories db !! CartItem.category i = Some c
               /\ OrderItem.category_name oi = ConsultationCategory.category c
               /\ OrderItem.unit_price oi
                  = decimal_column (ConsultationCategory.price_per_15min c)
               /\ OrderItem.total_price oi
                  = decimal_column
                      (price_formula (ConsultationCategory.price_per_15min c)
                                     (CartItem.duration i)).

(** * Properties *)

(** ** The decimal model against the interpreter's answers *)

Example price_45_60 : price_formula (Dec.cents 4500) 60 = Dec.cents 18000.
Proof. vm_compute. reflexivity. Qed.

Example price_75_60 : price_formula (Dec.cents 7500) 60 = Dec.cents 30000.
Proof. vm_compute. reflexivity. Qed.

Example div_20_15 :
  Dec.div (Dec.cents 2000) (Dec.of_int 15) = Dec.mk 1333333333333333333333333333 (-27).
Proof. vm_compute. reflexivity. Qed.

Example price_20_30 :
  price_formula (Dec.cents 2000) 30 = Dec.mk 3999999999999999999999999999 (-26).
Proof. vm_compute. reflexivity. Qed.

Example price_020_15 :
  price_formula (Dec.cents 20) 15 = Dec.mk 2000000000000000000000000000 (-28).
Proof. vm_compute. reflexivity. Qed.

Example price_10_60 :
  price_formula (Dec.cents 1000) 60 = Dec.mk 4000000000000000000000000000 (-26).
Proof. vm_compute. reflexivity. Qed.

Example price_max_120 :
  price_formula (Dec.cents 9999999999) 120 = Dec.mk 799999999920 (-3).
Proof. vm_compute. reflexivity. Qed.

Example price_001_15 :
  price_formula (Dec.cents 1) 15 = Dec.mk 1000000000000000000000000000 (-29).
Proof. vm_compute. reflexivity. Qed.

Example price_neg20_30 :
  price_formula (Dec.cents (-2000)) 30 = Dec.mk (-3999999999999999999999999999) (-26).
Proof. vm_compute. reflexivity. Qed.

Example add_drift :
  Dec.add (Dec.add (Dec.of_int 0) (Dec.mk 3999999999999999999999999999 (-26)))
          (Dec.cents 18000)
  = Dec.mk 2200000000000000000000000000 (-25).
Proof. vm_compute. reflexivity. Qed.

Example add_minutes_16_120 : add_minutes (mk_time 16 0 0 0) 120 = mk_time 18 0 0 0.
Proof. reflexivity. Qed.

Example add_minutes_wraps : add_minutes (mk_time 23 30 0 0) 60 = mk_time 0 30 0 0.
Proof. reflexivity. Qed.

Example to_int_truncates :
  Dec.to_int (Dec.mul (Dec.mk 3999999999999999999999999999 (-26)) (Dec.of_int 100)) = 3999.
Proof. vm_compute. reflexivity. Qed.

(** ** Clock arithmetic *)

Lemma time_us_of_us (n : Z) : 0 <= n -> time_us (time_of_us n) = n.
Proof.
  intros Hn. unfold time_us, time_of_us; simpl.
  pose proof (Z.div_mod n 1000000 ltac:(lia)) as H1.
  pose proof (Z.div_mod (n / 1000000) 60 ltac:(lia)) as H2.
  pose proof (Z.div_mod (n / 60000000) 60 ltac:(lia)) as H3.
  replace (n / 60000000) with (n / 1000000 / 60) in *
    by (rewrite Z.div_div by lia; reflexivity).
  replace (n / 3600000000) with (n / 1000000 / 60 / 60)
    by (rewrite !Z.div_div by lia; reflexivity).
  lia.
Qed.

(** Within one day the end of a session is the plain sum. *)
Lemma time_us_add_minutes (t : dt_time) (m : Z) :
  0 <= time_us t + m * 60000000 < us_per_day ->
  time_us (add_minutes t m) = time_us t + m * 60000000.
Proof.
  intros H. unfold add_minutes.
  rewrite Z.mod_small by exact H.
  apply time_us_of_us. lia.
Qed.

(** ** Validation *)

Lemma field_error_nil {A : Type} (name : string) (r : ErrorCode + A) :
  field_error name r = [] <-> exists v, r = inr v.
Proof.
  destruct r as [e|v]; simpl; split; try discriminate; eauto.
  intros [v H]; discriminate.
Qed.

Lemma run_validation_inr (fe : Errors) (v : ErrorCode + Data.t) (d : Data.t) :
  run_validation fe [] v = inr d <-> fe = [] /\ v = inr d.
Proof.
  unfold run_validation. destruct fe; [destruct v|]; split;
    intros H; try discriminate; try (destruct H; discriminate).
  - inversion H; auto.
  - destruct H as [_ H]. inversion H; auto.
Qed.

Lemma validate_category_inr (db : DB) (c v : Z) :
  validate_category db c = inr v <-> v = c /\ is_Some (categories db !! c).
Proof.
  unfold validate_category. destruct (categories db !! c) eqn:E; split.
  - inversion 1; eauto.
  - intros [-> _]; reflexivity.
  - discriminate.
  - intros [_ [x Hx]]; discriminate.
Qed.

Lemma exists_false {A : Type} (l : list A) : exists_ l = false <-> l = [].
Proof. destruct l; simpl; split; congruence. Qed.

(** Direct booking passes when the fields and [validate] pass: the lookup of
    [validate] finds what the serializer's validator finds. *)
Lemma direct_is_valid_inr (today : Z) (db : DB) (data d : Data.t) :
  CreateAppointmentSerializer.is_valid today db data = inr d
  <-> CreateAppointmentSerializer.field_errors today db data = []
      /\ CreateAppointmentSerializer.validate None db data = inr d.
Proof.
  unfold CreateAppointmentSerializer.is_valid, CreateAppointmentSerializer.validators.
  destruct (exists_ (appointments_at (Data.slot_of data) db)) eqn:Ex.
  - unfold run_validation, CreateAppointmentSerializer.validate.
    cbv zeta. rewrite Ex.
    split.
    + destruct (CreateAppointmentSerializer.field_errors today db data); discriminate.
    + intros [_ H]. destruct (negb _ && _); discriminate.
  - apply run_validation_inr.
Qed.

(** What direct booking accepts: the four field checks, an end not after
    18:00, and a free slot. *)
Lemma direct_is_valid_iff (today : Z) (db : DB) (data : Data.t) :
  CreateAppointmentSerializer.is_valid today db data = inr data <->
    is_Some (categories db !! Data.category data)
    /\ today <= Data.date data
    /\ time_us WORKING_HOURS_START <= time_us (Data.time data) < time_us WORKING_HOURS_END
    /\ Data.duration data ∈ [15; 30; 60; 120]
    /\ time_us (Data.time data) + Data.duration data * 60000000
       <= time_us WORKING_HOURS_END
    /\ appointments_at (Data.slot_of data) db = [].
Proof.
  rewrite direct_is_valid_inr.
  unfold CreateAppointmentSerializer.field_errors.
  rewrite !app_nil. rewrite !field_error_nil.
  unfold CreateAppointmentSerializer.validate_date,
    CreateAppointmentSerializer.validate_time,
    CreateAppointmentSerializer.validate_duration,
    CreateAppointmentSerializer.validate, time_leb, time_ltb.
  split.
  - intros ((Hc & Hd & Ht & Hdur) & Hv).
    destruct Hc as [v Hc]. apply validate_category_inr in Hc as [_ Hc].
    destruct Hd as [v1 Hd]. destruct (Z.ltb_spec (Data.date data) today); [discriminate|].
    destruct Ht as [v2 Ht].
    destruct (Z.leb_spec (time_us WORKING_HOURS_START) (time_us (Data.time data)));
      [|discriminate].
    destruct (Z.ltb_spec (time_us (Data.time data)) (time_us WORKING_HOURS_END));
      [|discriminate].
    destruct Hdur as [v3 Hdur]. case_bool_decide as Hin; [|discriminate].
    assert (Hd15 : 15 <= Data.duration data <= 120).
    { set_unfold in Hin. lia. }
    assert (E : time_us (add_minutes (Data.time data) (Data.duration data))
                = time_us (Data.time data) + Data.duration data * 60000000).
    { apply time_us_add_minutes. change (time_us WORKING_HOURS_START) with 32400000000 in *.
      change (time_us WORKING_HOURS_END) with 64800000000 in *. unfold us_per_day. lia. }
    rewrite E in Hv.
    destruct (Z.eqb_spec (Data.duration data) 0); [lia|]. simpl in Hv.
    destruct (Z.ltb_spec (time_us WORKING_HOURS_END)
                (time_us (Data.time data) + Data.duration data * 60000000));
      [discriminate|].
    destruct (exists_ _) eqn:Ex; [discriminate|]. apply exists_false in Ex.
    repeat split; auto; lia.
  - intros (Hc & Hd & [Ht1 Ht2] & Hin & He & Hfree).
    assert (Hd15 : 15 <= Data.duration data <= 120).
    { set_unfold in Hin. lia. }
    assert (E : time_us (add_minutes (Data.time data) (Data.duration data))
                = time_us (Data.time data) + Data.duration data * 60000000).
    { apply time_us_add_minutes. change (time_us WORKING_HOURS_START) with 32400000000 in *.
      change (time_us WORKING_HOURS_END) with 64800000000 in *. unfold us_per_day. lia. }
    split; [repeat split|].
    + exists (Data.category data). apply validate_category_inr; auto.
    + exists (Data.date data). destruct (Z.ltb_spec (Data.date data) today); [lia|reflexivity].
    + exists (Data.time data).
      destruct (Z.leb_spec (time_us WORKING_HOURS_START) (time_us (Data.time data))); [|lia].
      destruct (Z.ltb_spec (time_us (Data.time data)) (time_us WORKING_HOURS_END)); [|lia].
      reflexivity.
    + exists (Data.duration data). rewrite bool_decide_eq_true_2 by exact Hin. reflexivity.
    + rewrite E. destruct (Z.eqb_spec (Data.duration data) 0); [lia|]. simpl.
      destruct (Z.ltb_spec (time_us WORKING_HOURS_END)
                  (time_us (Data.time data) + Data.duration data * 60000000)); [lia|].
      rewrite Hfree. reflexivity.
Qed.

(** What adding to the cart accepts: category, date and duration checks and
    no paid appointment on the slot.  The start time is not looked at. *)
Lemma cart_is_valid_iff (today : Z) (db : DB) (data : Data.t) :
  AddToCartSerializer.is_valid today db data = inr data <->
    is_Some (categories db !! Data.category data)
    /\ today <= Data.date data
    /\ Data.duration data ∈ [15; 30; 60; 120]
    /\ paid_appointments_at (Data.slot_of data) db = [].
Proof.
  unfold AddToCartSerializer.is_valid. rewrite run_validation_inr.
  unfold AddToCartSerializer.field_errors.
  rewrite !app_nil. rewrite !field_error_nil.
  unfold AddToCartSerializer.validate_date, AddToCartSerializer.validate_duration,
    AddToCartSerializer.validate.
  split.
  - intros ((Hc & Hd & Hdur) & Hv).
    destruct Hc as [v Hc]. apply validate_category_inr in Hc as [_ Hc].
    destruct Hd as [v1 Hd]. destruct (Z.ltb_spec (Data.date data) today); [discriminate|].
    destruct Hdur as [v3 Hdur]. case_bool_decide as Hin; [|discriminate].
    destruct (exists_ _) eqn:Ex; [discriminate|]. apply exists_false in Ex.
    auto.
  - intros (Hc & Hd & Hin & Hfree).
    split; [repeat split|].
    + exists (Data.category data). apply validate_category_inr; auto.
    + exists (Data.date data). destruct (Z.ltb_spec (Data.date data) today); [lia|reflexivity].
    + exists (Data.duration data). rewrite bool_decide_eq_true_2 by exact Hin. reflexivity.
    + rewrite Hfree. reflexivity.
Qed.

(** Whatever direct booking accepts, the cart accepts. *)
Lemma direct_accepts_cart_accepts (today : Z) (db : DB) (data : Data.t) :
  CreateAppointmentSerializer.is_valid today db data = inr data ->
  AddToCartSerializer.is_valid today db data = inr data.
Proof.
  rewrite direct_is_valid_iff, cart_is_valid_iff.
  intros (Hc & Hd & _ & Hin & _ & Hfree). repeat split; auto.
  unfold paid_appointments_at. rewrite Hfree. reflexivity.
Qed.

(** Direct booking refuses every session that would end strictly after
    18:00. *)
Lemma direct_rejects_end_after_18 (today : Z) (db : DB) (data : Data.t) :
  time_us WORKING_HOURS_END < time_us (Data.time data) + Data.duration data * 60000000 ->
  CreateAppointmentSerializer.is_valid today db data <> inr data.
Proof.
  intros Hend Hv. apply direct_is_valid_iff in Hv. lia.
Qed.

(** Whatever the stated policy accepts passes the field checks and the end
    check of direct booking; the two differ on sessions ending at 18:00 sharp. *)
Lemma policy_ok_direct (today : Z) (db : DB) (data : Data.t) :
  policy_ok today data = true ->
  is_Some (categories db !! Data.category data) ->
  appointments_at (Data.slot_of data) db = [] ->
  CreateAppointmentSerializer.is_valid today db data = inr data.
Proof.
  unfold policy_ok, time_leb, time_ltb. intros H Hc Hfree.
  apply andb_prop in H as [H He]. apply andb_prop in H as [H Hdur].
  apply andb_prop in H as [Hd Ht]. apply andb_prop in Ht as [Ht1 Ht2].
  apply bool_decide_eq_true_1 in Hdur.
  apply direct_is_valid_iff. repeat split; auto; lia.
Qed.

(** C1 (defect of the code).  Validation should reject every session whose
    end is at or after 18:00, so 16:00 for 120 minutes should be refused and
    16:00 for 60 minutes accepted.  The end check of direct booking compares
    with a strict "after", so the session from 16:00 to 18:00 passes
    validation and is booked (status 201); the cart has no end check at all
    and stages it as well.  16:00 for 60 minutes is accepted, as specified. *)
Theorem C1_session_ending_at_18_is_accepted :
  let d := Data.mk 1 100 (at_ 16 0) 120 in
  let d' := Data.mk 1 100 (at_ 16 0) 60 in
  add_minutes (Data.time d) (Data.duration d) = WORKING_HOURS_END
  /\ policy_ok 100 d = false
  /\ CreateAppointmentSerializer.is_valid 100 sample_db d = inr d
  /\ status_code (fst (AppointmentCreateView_create 100 7 d sample_db)) = 201
  /\ AddToCartSerializer.is_valid 100 sample_db d = inr d
  /\ CreateAppointmentSerializer.is_valid 100 sample_db d' = inr d'.
Proof. vm_compute. repeat split; reflexivity. Qed.

(** C2 (defect of the code).  Adding to the cart should accept exactly what
    the booking policy (date, start time, duration, end time) accepts, less
    the slots already paid.  The cart serializer checks date and duration but
    has no check of the start or end time: a 15 minute session at 08:00 on a
    free slot is staged, although the policy refuses it and direct booking
    answers with an error on the field "time". *)
Theorem C2_cart_accepts_outside_working_hours :
  let d := Data.mk 1 100 (at_ 8 0) 15 in
  AddToCartSerializer.is_valid 100 sample_db d = inr d
  /\ status_code (fst (CartView_post 100 7 d sample_db)) = 201
  /\ paid_appointments_at (Data.slot_of d) sample_db = []
  /\ policy_ok 100 d = false
  /\ CreateAppointmentSerializer.is_valid 100 sample_db d
     = inl [("time"%string, outside_working_hours)].
Proof. vm_compute. repeat split; reflexivity. Qed.

(** ** Pricing *)

(** The three places that put a price on a session evaluate one formula. *)
Lemma price_points_agree (db : DB) (item : CartItem.t) (c : ConsultationCategory.t) :
  categories db !! CartItem.category item = Some c ->
  computed_price db item
  = Some (price_formula (ConsultationCategory.price_per_15min c) (CartItem.duration item))
  /\ compute_price db (CartItem.category item) (CartItem.duration item)
     = computed_price db item.
Proof.
  intros H. unfold computed_price, compute_price, category_price.
  rewrite H. simpl. split; reflexivity.
Qed.

(** At 45.00 per quarter hour every duration is priced exactly. *)
Lemma price_exact_at_45 (d : Z) :
  d ∈ [15; 30; 60; 120] ->
  (Dec.to_Q (price_formula (Dec.cents 4500) d) == exact_price (Dec.cents 4500) d)%Q.
Proof.
  intros H. set_unfold in H.
  destruct H as [->|[->|[->|[->|[]]]]]; vm_compute; reflexivity.
Qed.

(** ** How far the computed price is from the exact one *)

Lemma ndigits_aux_spec (fuel : nat) (n : Z) :
  0 < n -> Z.log2 n < Z.of_nat fuel ->
  1 <= Dec.ndigits_aux fuel n
  /\ 10 ^ (Dec.ndigits_aux fuel n - 1) <= n < 10 ^ Dec.ndigits_aux fuel n.
Proof.
  revert n. induction fuel as [|f IH]; intros n Hn Hlog.
  { pose proof (Z.log2_nonneg n). lia. }
  simpl Dec.ndigits_aux. destruct (Z.ltb_spec n 10) as [Hlt|Hge].
  { change (10 ^ (1 - 1)) with 1. change (10 ^ 1) with 10. lia. }
  assert (Hdiv : 0 < n / 10) by (apply Z.div_str_pos; lia).
  assert (Hlog' : Z.log2 (n / 10) < Z.of_nat f).
  { assert (Hd : Z.log2 (2 * (n / 10)) <= Z.log2 n).
    { apply Z.log2_le_mono. pose proof (Z.mul_div_le n 10). lia. }
    rewrite Z.log2_double in Hd by exact Hdiv. lia. }
  destruct (IH (n / 10) Hdiv Hlog') as (H1 & Hlo & Hhi).
  set (k := Dec.ndigits_aux f (n / 10)) in *.
  replace (1 + k - 1) with (Z.succ (k - 1)) by lia.
  replace (1 + k) with (Z.succ k) by lia.
  rewrite !Z.pow_succ_r by lia.
  pose proof (Z.div_mod n 10 ltac:(lia)) as Hdm.
  pose proof (Z.mod_pos_bound n 10 ltac:(lia)) as Hmod.
  lia.
Qed.

(** The digit count brackets the number between two powers of ten. *)
Lemma ndigits_spec (n : Z) :
  0 < n ->
  1 <= Dec.ndigits n /\ 10 ^ (Dec.ndigits n - 1) <= n < 10 ^ Dec.ndigits n.
Proof.
  intros Hn. unfold Dec.ndigits. apply ndigits_aux_spec; [exact Hn|].
  pose proof (Z.log2_nonneg n). lia.
Qed.

Lemma ndigits_le (n k : Z) : 0 < n -> n < 10 ^ k -> Dec.ndigits n <= k.
Proof.
  intros Hn Hk. destruct (ndigits_spec n Hn) as (H1 & Hlo & _).
  destruct (Z.le_gt_cases (Dec.ndigits n) k) as [|Hgt]; [assumption|exfalso].
  assert (10 ^ k <= 10 ^ (Dec.ndigits n - 1)) by (apply Z.pow_le_mono_r; lia).
  lia.
Qed.

(** Rounding half to even moves a number by at most half a unit. *)
Lemma round_half_even_bound (m P k : Z) :
  0 <= m -> 0 <= k -> P = 10 ^ k ->
  0 <= Dec.round_half_even m k
  /\ 2 * (Dec.round_half_even m k * P - m) <= P
  /\ 2 * (m - Dec.round_half_even m k * P) <= P
  /\ m < (Z.succ (m / P)) * P
  /\ Dec.round_half_even m k <= Z.succ (m / P).
Proof.
  intros Hm Hk HP. unfold Dec.round_half_even. rewrite <- HP.
  assert (HPpos : 0 < P) by (subst P; apply Z.pow_pos_nonneg; lia).
  pose proof (Z.div_mod m P ltac:(lia)) as Hdm.
  pose proof (Z.mod_pos_bound m P HPpos) as Hmod.
  assert (Hq : 0 <= m / P) by (apply Z.div_pos; lia).
  set (q := m / P) in *. set (r := m mod P) in *.
  assert (Hqr : m = q * P + r) by lia.
  cbv zeta.
  destruct (Z.ltb_spec (2 * r) P); [nia|].
  destruct (Z.ltb_spec P (2 * r)); [nia|].
  destruct (Z.even q); nia.
Qed.

Lemma round_half_even_ge (m k : Z) :
  0 <= m -> 0 <= k -> m / 10 ^ k <= Dec.round_half_even m k.
Proof.
  intros Hm Hk. unfold Dec.round_half_even. cbv zeta.
  destruct (_ <? _); [lia|]. destruct (_ <? _); [lia|]. destruct (Z.even _); lia.
Qed.

(** [_fix] on a positive coefficient: the result stays positive and within a
    relative distance of 1 / (2 * 10^27). *)
Lemma fix_spec (m e : Z) :
  0 < m ->
  exists m' k,
    Dec.fix_ (Dec.mk m e) = Dec.mk m' (e + k)
    /\ 0 <= k /\ 0 < m'
    /\ 2 * 10 ^ 27 * (m' * 10 ^ k - m) <= m
    /\ 2 * 10 ^ 27 * (m - m' * 10 ^ k) <= m.
Proof.
  intros Hm. unfold Dec.fix_. simpl Dec.coeff. simpl Dec.exp.
  rewrite (Z.abs_eq m) by lia. rewrite (Z.sgn_pos m) by lia.
  destruct (ndigits_spec m Hm) as (Hn1 & Hlo & Hhi).
  set (n := Dec.ndigits m) in *. unfold Dec.prec.
  destruct (Z.leb_spec n 28) as [Hle|Hgt].
  { exists m, 0. rewrite Z.add_0_r. change (10 ^ 0) with 1.
    repeat split; try lia. }
  set (k := n - 28).
  assert (Hk : 1 <= k) by (unfold k; lia).
  set (P := 10 ^ k).
  assert (HP : 0 < P) by (apply Z.pow_pos_nonneg; lia).
  assert (Hlo' : 10 ^ 27 * P <= m).
  { unfold P. rewrite <- Z.pow_add_r by lia. replace (27 + k) with (n - 1) by (unfold k; lia).
    exact Hlo. }
  assert (Hhi' : m < 10 ^ 28 * P).
  { unfold P. rewrite <- Z.pow_add_r by lia. replace (28 + k) with n by (unfold k; lia).
    exact Hhi. }
  destruct (round_half_even_bound m P k ltac:(lia) ltac:(lia) eq_refl)
    as (Hq0 & Hup & Hdn & _ & Hsucc).
  pose proof (round_half_even_ge m k ltac:(lia) ltac:(lia)) as Hge.
  fold P in Hge.
  set (q := Dec.round_half_even m k) in *.
  assert (Hdivlo : 10 ^ 27 <= m / P) by (apply Z.div_le_lower_bound; lia).
  assert (Hdivhi : m / P < 10 ^ 28) by (apply Z.div_lt_upper_bound; lia).
  destruct (Z.ltb_spec 28 (Dec.ndigits q)) as [Hcarry|Hno].
  - assert (Hq : q = 10 ^ 28).
    { destruct (Z.lt_ge_cases q (10 ^ 28)) as [Hlt|Hge']; [|lia].
      pose proof (ndigits_le q 28 ltac:(lia) Hlt). lia. }
    exists (10 ^ 27), (k + 1).
    replace (1 * (q / 10)) with (10 ^ 27) by (rewrite Hq; reflexivity).
    replace (e + k + 1) with (e + (k + 1)) by lia.
    rewrite Z.pow_add_r by lia. fold P. change (10 ^ 1) with 10.
    split; [reflexivity|]. split; [lia|]. split; [reflexivity|].
    replace (10 ^ 27 * (P * 10)) with (q * P) by (rewrite Hq; change (10 ^ 28) with (10 ^ 27 * 10); ring).
    lia.
  - exists q, k. rewrite Z.mul_1_l. fold P.
    split; [reflexivity|]. split; [lia|]. split; [lia|]. lia.
Qed.

Lemma ten_pos (e : Z) : (0 < Qpower (inject_Z 10) e)%Q.
Proof. apply Qpower_0_lt. reflexivity. Qed.

Lemma to_Q_shift (m e k : Z) :
  0 <= k -> (Dec.to_Q (Dec.mk m (e + k)) == Dec.to_Q (Dec.mk (m * 10 ^ k) e))%Q.
Proof.
  intros Hk. unfold Dec.to_Q. simpl.
  rewrite Qpower_plus by discriminate.
  rewrite inject_Z_mult, (Zpower_Qpower 10 k Hk). ring.
Qed.

Lemma fix_rel (m e : Z) :
  0 < m ->
  0 < Dec.coeff (Dec.fix_ (Dec.mk m e))
  /\ (Dec.to_Q (Dec.mk m e) * (1 - eps) <= Dec.to_Q (Dec.fix_ (Dec.mk m e)))%Q
  /\ (Dec.to_Q (Dec.fix_ (Dec.mk m e)) <= Dec.to_Q (Dec.mk m e) * (1 + eps))%Q.
Proof.
  intros Hm. destruct (fix_spec m e Hm) as (m' & k & -> & Hk & Hm' & Hup & Hdn).
  split; [exact Hm'|].
  rewrite (to_Q_shift m' e k Hk). unfold Dec.to_Q. simpl.
  pose proof (ten_pos e) as Ht. set (t := Qpower (inject_Z 10) e) in *.
  change (10 ^ 27) with 1000000000000000000000000000 in Hup, Hdn.
  set (A := m' * 10 ^ k) in *.
  assert (Hup' : 2000000000000000000000000000 * A <= 2000000000000000000000000001 * m)
    by lia.
  assert (Hdn' : 1999999999999999999999999999 * m <= 2000000000000000000000000000 * A)
    by lia.
  clear Hup Hdn. rename Hup' into Hup. rename Hdn' into Hdn.
  rewrite Zle_Qle in Hup, Hdn.
  rewrite !inject_Z_mult in Hup, Hdn.
  set (a := inject_Z A) in *. set (mu := inject_Z m) in *.
  unfold eps.
  assert (H1 : (a - mu <= (1 # 2000000000000000000000000000) * mu)%Q).
  { unfold inject_Z in Hup. lra. }
  assert (H2 : (mu - a <= (1 # 2000000000000000000000000000) * mu)%Q).
  { unfold inject_Z in Hdn. lra. }
  apply (Qmult_le_compat_r _ _ t) in H1; [|lra].
  apply (Qmult_le_compat_r _ _ t) in H2; [|lra].
  split; lra.
Qed.

Lemma strip_zeros_value (fuel : nat) (c e ideal : Z) :
  0 < c ->
  0 < Dec.coeff (Dec.strip_zeros fuel c e ideal)
  /\ (Dec.to_Q (Dec.strip_zeros fuel c e ideal) == Dec.to_Q (Dec.mk c e))%Q.
Proof.
  revert c e. induction fuel as [|f IH]; intros c e Hc; simpl.
  { split; [exact Hc|reflexivity]. }
  destruct (Z.ltb_spec e ideal); simpl; [|split; [exact Hc|reflexivity]].
  destruct (Z.eqb_spec (c mod 10) 0) as [Hmod|Hmod]; [|split; [exact Hc|reflexivity]].
  pose proof (Z.div_mod c 10 ltac:(lia)) as Hdm.
  assert (Hc10 : 0 < c / 10) by lia.
  destruct (IH (c / 10) (e + 1) Hc10) as [Hpos Hval].
  split; [exact Hpos|]. rewrite Hval.
  rewrite (to_Q_shift (c / 10) e 1) by lia.
  change (10 ^ 1) with 10. replace (c / 10 * 10) with c by lia. reflexivity.
Qed.

(** The quotient by 15 of a positive two-place price of at most ten digits. *)
Lemma div15_rel (c : Z) :
  0 < c < 10 ^ 10 ->
  0 < Dec.coeff (Dec.div (Dec.cents c) (Dec.of_int 15))
  /\ ((inject_Z c * (1 # 1500)) * (1 - eps) * (1 - eps)
      <= Dec.to_Q (Dec.div (Dec.cents c) (Dec.of_int 15)))%Q
  /\ (Dec.to_Q (Dec.div (Dec.cents c) (Dec.of_int 15))
      <= (inject_Z c * (1 # 1500)) * (1 + eps) * (1 + eps))%Q.
Proof.
  intros [Hc0 Hc1].
  destruct (ndigits_spec c Hc0) as (Hn1 & Hlo & Hhi).
  pose proof (ndigits_le c 10 Hc0 Hc1) as Hn10.
  unfold Dec.div, Dec.cents, Dec.of_int. simpl Dec.coeff. simpl Dec.exp.
  rewrite (Z.abs_eq c) by lia. rewrite (Z.sgn_pos c) by lia.
  change (Z.abs 15) with 15. change (Z.sgn 15) with 1.
  change (15 =? 0) with false. cbv iota.
  destruct (Z.eqb_spec c 0) as [|_]; [lia|].
  change (Dec.ndigits 15) with 2. unfold Dec.prec.
  set (n := Dec.ndigits c) in *.
  set (shift := 2 - n + 28 + 1).
  assert (Hshift : 21 <= shift) by (unfold shift; lia).
  destruct (Z.leb_spec 0 shift) as [_|]; [|lia].
  set (S := 10 ^ shift).
  assert (HS : 10 ^ 30 <= c * S).
  { unfold S. replace 30 with ((n - 1) + shift) by (unfold shift; lia).
    rewrite Z.pow_add_r by lia. apply Z.mul_le_mono_nonneg_r; [|exact Hlo].
    apply Z.pow_nonneg. lia. }
  change (10 ^ 30) with 1000000000000000000000000000000 in HS.
  set (e := -2 - 0 - shift).
  pose proof (ten_pos e) as Ht.
  assert (HSt : (inject_Z S * Qpower (inject_Z 10) e == 1 # 100)%Q).
  { unfold S. rewrite Zpower_Qpower by lia. rewrite <- Qpower_plus by discriminate.
    replace (shift + e) with (-2) by (unfold e; lia). reflexivity. }
  pose proof (Z.div_mod (c * S) 15 ltac:(lia)) as Hdm.
  pose proof (Z.mod_pos_bound (c * S) 15 ltac:(lia)) as Hmod.
  set (q := c * S / 15) in *. set (r := (c * S) mod 15) in *.
  assert (pre : forall m0 e0, 0 < m0 ->
            ((inject_Z c * (1 # 1500)) * (1 - eps) <= Dec.to_Q (Dec.mk m0 e0))%Q ->
            (Dec.to_Q (Dec.mk m0 e0) <= (inject_Z c * (1 # 1500)) * (1 + eps))%Q ->
            0 < Dec.coeff (Dec.fix_ (Dec.mk m0 e0))
            /\ ((inject_Z c * (1 # 1500)) * (1 - eps) * (1 - eps)
                <= Dec.to_Q (Dec.fix_ (Dec.mk m0 e0)))%Q
            /\ (Dec.to_Q (Dec.fix_ (Dec.mk m0 e0))
                <= (inject_Z c * (1 # 1500)) * (1 + eps) * (1 + eps))%Q).
  { intros m0 e0 Hm0 Hl Hu. destruct (fix_rel m0 e0 Hm0) as (Hp & Hl' & Hu').
    split; [exact Hp|]. unfold eps in *. split; lra. }
  assert (Hcq : (0 < inject_Z c)%Q).
  { rewrite Zlt_Qlt in Hc0. exact Hc0. }
  destruct (Z.eqb_spec r 0) as [Hr|Hr].
  - destruct (strip_zeros_value (Z.to_nat (-2 - 0 - e)) q e (-2 - 0) ltac:(lia))
      as [Hpos Hval].
    set (d0 := Dec.strip_zeros (Z.to_nat (-2 - 0 - e)) q e (-2 - 0)) in *.
    rewrite Z.mul_1_l.
    assert (Hexact : (Dec.to_Q (Dec.mk (Dec.coeff d0) (Dec.exp d0)) == inject_Z c * (1 # 1500))%Q).
    { transitivity (Dec.to_Q d0); [destruct d0; reflexivity|]. rewrite Hval.
      unfold Dec.to_Q. simpl.
      assert (Hq15 : (inject_Z c * inject_Z S == 15 * inject_Z q)%Q).
      { rewrite <- inject_Z_mult. change 15%Q with (inject_Z 15).
        rewrite <- inject_Z_mult. apply inject_Z_injective. lia. }
      set (t := Qpower (inject_Z 10) e) in *.
      assert (H15 : (15 * (inject_Z q * t) == inject_Z c * (inject_Z S * t))%Q).
      { rewrite Qmult_assoc, <- Hq15. ring. }
      rewrite HSt in H15. lra. }
    apply pre; [exact Hpos| |]; rewrite Hexact; unfold eps; lra.
  - set (q' := if q mod 5 =? 0 then q + 1 else q).
    assert (Hq' : q <= q' <= q + 1) by (unfold q'; destruct (_ =? _); lia).
    rewrite Z.mul_1_l.
    assert (Hup : 2000000000000000000000000000 * (15 * q')
                  <= 2000000000000000000000000001 * (c * S)) by lia.
    assert (Hdn : 1999999999999999999999999999 * (c * S)
                  <= 2000000000000000000000000000 * (15 * q')) by lia.
    rewrite Zle_Qle in Hup, Hdn. rewrite !inject_Z_mult in Hup, Hdn.
    change (inject_Z 2000000000000000000000000000)
      with (2000000000000000000000000000 # 1) in Hup, Hdn.
    change (inject_Z 2000000000000000000000000001)
      with (2000000000000000000000000001 # 1) in Hup.
    change (inject_Z 1999999999999999999999999999)
      with (1999999999999999999999999999 # 1) in Hdn.
    change (inject_Z 15) with (15 # 1) in Hup, Hdn.
    set (t := Qpower (inject_Z 10) e) in *.
    apply (Qmult_le_compat_r _ _ t) in Hup; [|lra].
    apply (Qmult_le_compat_r _ _ t) in Hdn; [|lra].
    assert (Hcs : (inject_Z c * inject_Z S * t == inject_Z c * (1 # 100))%Q).
    { rewrite <- Qmult_assoc, HSt. reflexivity. }
    apply pre; [lia| |]; unfold Dec.to_Q; simpl; fold t; unfold eps; lra.
Qed.

Lemma price_formula_rel (c d : Z) :
  0 < c < 10 ^ 10 -> 0 < d ->
  (inject_Z c * (1 # 1500) * inject_Z d * (1 - eps) * (1 - eps) * (1 - eps)
   <= Dec.to_Q (price_formula (Dec.cents c) d))%Q
  /\ (Dec.to_Q (price_formula (Dec.cents c) d)
      <= inject_Z c * (1 # 1500) * inject_Z d * (1 + eps) * (1 + eps) * (1 + eps))%Q.
Proof.
  intros Hc Hd. destruct (div15_rel c Hc) as (Hpos & Hl & Hu).
  unfold price_formula, Dec.mul.
  set (r := Dec.div (Dec.cents c) (Dec.of_int 15)) in *.
  simpl Dec.coeff. simpl Dec.exp. rewrite Z.add_0_r.
  assert (Hm : 0 < Dec.coeff r * d) by (apply Z.mul_pos_pos; lia).
  destruct (fix_rel (Dec.coeff r * d) (Dec.exp r) Hm) as (_ & Hl' & Hu').
  assert (Hv : (Dec.to_Q (Dec.mk (Dec.coeff r * d) (Dec.exp r))
                == Dec.to_Q r * inject_Z d)%Q).
  { unfold Dec.to_Q. simpl. rewrite inject_Z_mult. ring. }
  rewrite Hv in Hl', Hu'.
  assert (Hdq : (0 <= inject_Z d)%Q).
  { change 0%Q with (inject_Z 0). rewrite <- Zle_Qle. lia. }
  apply (Qmult_le_compat_r _ _ (inject_Z d)) in Hl; [|exact Hdq].
  apply (Qmult_le_compat_r _ _ (inject_Z d)) in Hu; [|exact Hdq].
  unfold eps in *. split; lra.
Qed.

(** The computed price of a session is within 10^-17 of the exact price, for
    every positive unit price of at most ten digits and two places. *)
Lemma price_formula_accuracy (c d : Z) :
  0 < c < 10 ^ 10 -> d ∈ [15; 30; 60; 120] ->
  (exact_price (Dec.cents c) d - (1 # 100000000000000000)
   <= Dec.to_Q (price_formula (Dec.cents c) d))%Q
  /\ (Dec.to_Q (price_formula (Dec.cents c) d)
      <= exact_price (Dec.cents c) d + (1 # 100000000000000000))%Q.
Proof.
  intros Hc Hd.
  assert (Hd0 : 0 < d) by (set_unfold in Hd; lia).
  destruct (price_formula_rel c d Hc Hd0) as [Hl Hu].
  assert (Hc0 : (0 < inject_Z c)%Q).
  { change 0%Q with (inject_Z 0). rewrite <- Zlt_Qlt. lia. }
  assert (Hc1 : (inject_Z c < 10000000000 # 1)%Q).
  { change (10000000000 # 1)%Q with (inject_Z (10 ^ 10)). rewrite <- Zlt_Qlt. lia. }
  set (v := Dec.to_Q (price_formula (Dec.cents c) d)) in *.
  unfold exact_price, Dec.to_Q, Dec.cents. simpl Dec.coeff. simpl Dec.exp.
  change (Qpower (inject_Z 10) (-2)) with (1 # 100)%Q.
  unfold Qdiv. change (/ inject_Z 15)%Q with (1 # 15)%Q.
  unfold eps in *. clearbody v.
  set_unfold in Hd.
  destruct Hd as [->|[->|[->|[->|[]]]]];
    match goal with |- context [inject_Z ?k] =>
      match k with c => fail 1 | _ => change (inject_Z k) with (k # 1)%Q in * end
    end;
    split; lra.
Qed.

(** Distinct unit prices give distinct session prices. *)
Lemma price_formula_injective (c0 c1 d : Z) :
  0 < c0 < 10 ^ 10 -> 0 < c1 < 10 ^ 10 -> d ∈ [15; 30; 60; 120] ->
  c0 <> c1 ->
  price_formula (Dec.cents c0) d <> price_formula (Dec.cents c1) d.
Proof.
  assert (Hlt : forall a b, 0 < a < 10 ^ 10 -> 0 < b < 10 ^ 10 -> d ∈ [15; 30; 60; 120] ->
                  a < b ->
                  price_formula (Dec.cents a) d <> price_formula (Dec.cents b) d).
  { intros a b Ha Hb Hd Hab Heq.
    destruct (price_formula_accuracy a d Ha Hd) as [_ Hua].
    destruct (price_formula_accuracy b d Hb Hd) as [Hlb _].
    rewrite Heq in Hua.
    assert (Hab' : (inject_Z a + 1 <= inject_Z b)%Q).
    { change 1%Q with (inject_Z 1). rewrite <- inject_Z_plus, <- Zle_Qle. lia. }
    revert Hua Hlb.
    set (v := Dec.to_Q (price_formula (Dec.cents b) d)). clearbody v.
    unfold exact_price, Dec.to_Q, Dec.cents. simpl Dec.coeff. simpl Dec.exp.
    change (Qpower (inject_Z 10) (-2)) with (1 # 100)%Q.
    unfold Qdiv. change (/ inject_Z 15)%Q with (1 # 15)%Q.
    set_unfold in Hd.
    destruct Hd as [->|[->|[->|[->|[]]]]];
      match goal with |- context [inject_Z ?k] =>
        match k with a => fail 1 | b => fail 1
        | _ => change (inject_Z k) with (k # 1)%Q in * end
      end;
      intros Hua Hlb; lra. }
  intros H0 H1 Hd Hne.
  destruct (Z.lt_total c0 c1) as [Hc|[Hc|Hc]]; [|contradiction|].
  - apply Hlt; assumption.
  - intros Heq. symmetry in Heq. revert Heq. apply Hlt; assumption.
Qed.

Lemma price_formula_pos (c d : Z) :
  0 < c < 10 ^ 10 -> 0 < d -> 0 < Dec.coeff (price_formula (Dec.cents c) d).
Proof.
  intros Hc Hd. destruct (div15_rel c Hc) as (Hpos & _).
  unfold price_formula, Dec.mul. simpl Dec.exp.
  apply fix_rel. apply Z.mul_pos_pos; [exact Hpos|exact Hd].
Qed.

(** ** What the decimal columns hold *)

(** A positive decimal within half a cent of [c] cents is [c] cents at two
    places. *)
Lemma rescale_cents (m e c : Z) :
  0 < m ->
  (inject_Z c * (1 # 100) - (1 # 200) < Dec.to_Q (Dec.mk m e))%Q ->
  (Dec.to_Q (Dec.mk m e) < inject_Z c * (1 # 100) + (1 # 200))%Q ->
  Dec.rescale (Dec.mk m e) (-2) = Dec.cents c.
Proof.
  intros Hm Hlo Hhi. unfold Dec.rescale, Dec.cents. simpl Dec.coeff. simpl Dec.exp.
  destruct (Z.leb_spec (-2) e) as [He|He].
  - f_equal.
    pose proof (to_Q_shift m (-2) (e - -2) ltac:(lia)) as Hs.
    replace (-2 + (e - -2)) with e in Hs by lia.
    rewrite Hs in Hlo, Hhi. unfold Dec.to_Q in Hlo, Hhi.
    simpl Dec.coeff in Hlo, Hhi. simpl Dec.exp in Hlo, Hhi.
    change (Qpower (inject_Z 10) (-2)) with (1 # 100)%Q in Hlo, Hhi.
    set (M := m * 10 ^ (e - -2)) in *.
    assert (H1 : (inject_Z M < inject_Z (c + 1))%Q).
    { rewrite inject_Z_plus. change (inject_Z 1) with 1%Q. lra. }
    assert (H2 : (inject_Z (c + (-1)) < inject_Z M)%Q).
    { rewrite inject_Z_plus. change (inject_Z (-1)) with (-1 # 1)%Q. lra. }
    rewrite <- Zlt_Qlt in H1, H2. lia.
  - rewrite (Z.abs_eq m) by lia. rewrite (Z.sgn_pos m) by lia. rewrite Z.mul_1_l.
    f_equal. set (K := -2 - e).
    assert (HK : 0 < K) by (unfold K; lia).
    set (P := 10 ^ K).
    assert (HP : 0 < P) by (apply Z.pow_pos_nonneg; lia).
    destruct (round_half_even_bound m P K ltac:(lia) ltac:(lia) eq_refl)
      as (_ & Hup & Hdn & _).
    set (q := Dec.round_half_even m K) in *.
    pose proof (ten_pos e) as Ht.
    assert (HPt : (inject_Z P * Qpower (inject_Z 10) e == 1 # 100)%Q).
    { unfold P. rewrite Zpower_Qpower by lia. rewrite <- Qpower_plus by discriminate.
      replace (K + e) with (-2) by (unfold K; lia). reflexivity. }
    unfold Dec.to_Q in Hlo, Hhi. simpl Dec.coeff in Hlo, Hhi. simpl Dec.exp in Hlo, Hhi.
    set (t := Qpower (inject_Z 10) e) in *.
    assert (H1 : (inject_Z (2 * (m - c * P)) * t < inject_Z P * t)%Q).
    { rewrite inject_Z_mult. replace (m - c * P) with (m + (-1) * (c * P)) by lia.
      rewrite inject_Z_plus, !inject_Z_mult.
      change (inject_Z 2) with (2 # 1)%Q. change (inject_Z (-1)) with (-1 # 1)%Q.
      assert (E : ((2 # 1) * (inject_Z m + (-1 # 1) * (inject_Z c * inject_Z P)) * t
                   == (2 # 1) * (inject_Z m * t) - (2 # 1) * inject_Z c * (inject_Z P * t))%Q)
        by ring.
      rewrite E, HPt. lra. }
    assert (H2 : (inject_Z (2 * (c * P - m)) * t < inject_Z P * t)%Q).
    { rewrite inject_Z_mult. replace (c * P - m) with (c * P + (-1) * m) by lia.
      rewrite inject_Z_plus, !inject_Z_mult.
      change (inject_Z 2) with (2 # 1)%Q. change (inject_Z (-1)) with (-1 # 1)%Q.
      assert (E : ((2 # 1) * (inject_Z c * inject_Z P + (-1 # 1) * inject_Z m) * t
                   == (2 # 1) * inject_Z c * (inject_Z P * t) - (2 # 1) * (inject_Z m * t))%Q)
        by ring.
      rewrite E, HPt. lra. }
    apply Qmult_lt_r in H1; [|exact Ht]. apply Qmult_lt_r in H2; [|exact Ht].
    rewrite <- Zlt_Qlt in H1, H2. nia.
Qed.

(** The column holds the exact price: for a positive two-place unit price of
    at most ten digits and a duration of the four, the computed price is
    stored as [c * (D / 15)] cents. *)
Lemma decimal_column_price (c d : Z) :
  0 < c < 10 ^ 10 -> d ∈ [15; 30; 60; 120] ->
  decimal_column (price_formula (Dec.cents c) d) = Dec.cents (c * (d / 15)).
Proof.
  intros Hc Hd.
  assert (Hd0 : 0 < d) by (set_unfold in Hd; lia).
  pose proof (price_formula_pos c d Hc Hd0) as Hp.
  destruct (price_formula_accuracy c d Hc Hd) as [Hlo Hhi].
  unfold decimal_column.
  destruct (price_formula (Dec.cents c) d) as [m e] eqn:Ep. simpl in Hp.
  apply rescale_cents; [exact Hp| |]; rewrite inject_Z_mult;
    revert Hlo Hhi; set (v := Dec.to_Q (Dec.mk m e)); clearbody v;
    unfold exact_price, Dec.to_Q, Dec.cents; simpl Dec.coeff; simpl Dec.exp;
    change (Qpower (inject_Z 10) (-2)) with (1 # 100)%Q;
    unfold Qdiv; change (/ inject_Z 15)%Q with (1 # 15)%Q;
    set (x := inject_Z c); clearbody x;
    set_unfold in Hd;
    destruct Hd as [->|[->|[->|[->|[]]]]]; vm_compute (_ / 15);
    match goal with |- context [inject_Z ?k] =>
      change (inject_Z k) with (k # 1)%Q
    end;
    match goal with |- context [inject_Z ?k] =>
      change (inject_Z k) with (k # 1)%Q
    end;
    intros Hlo Hhi; lra.
Qed.

(** A two-place decimal is stored as it is. *)
Lemma decimal_column_cents (c : Z) : decimal_column (Dec.cents c) = Dec.cents c.
Proof.
  unfold decimal_column, Dec.rescale, Dec.cents. simpl. rewrite Z.mul_1_r. reflexivity.
Qed.

(** A positive two-place decimal of at most ten digits is rendered as it
    is. *)
Lemma to_representation_cents (c : Z) :
  0 < c < 10 ^ 10 -> DecimalField_to_representation (Dec.cents c) = Some (Dec.cents c).
Proof.
  intros [Hc0 Hc1]. unfold DecimalField_to_representation.
  change (Dec.rescale (Dec.cents c) (-2)) with (decimal_column (Dec.cents c)).
  rewrite decimal_column_cents. unfold Dec.cents. simpl Dec.coeff.
  rewrite (Z.abs_eq c) by lia.
  pose proof (ndigits_le c 10 Hc0 Hc1) as Hn.
  destruct (Z.leb_spec (Dec.ndigits c) 10); [reflexivity|lia].
Qed.

(** C7 (defect of the code).  The price should be exactly u / 15 * D for
    every unit price u and every duration D of the four.  The code divides
    first, and the quotient is rounded to 28 significant digits: at u = 20.00
    and D = 30 the computed price, which the cart shows, is
    39.99999999999999999999999999 and not 40.00 (and the amount in cents
    handed to the provider for such a cart is 3999).  The specification's example
    u = 45.00, D = 60 gives 180.00 exactly, and the computation is a
    function of its inputs. *)
Theorem C7_price_drifts_after_division :
  let item := CartItem.mk 1 1 3 110 (at_ 10 0) 30 in
  category_price sample_db 3 = Some (Dec.cents 2000)
  /\ computed_price sample_db item = Some (Dec.mk 3999999999999999999999999999 (-26))
  /\ compute_price sample_db 3 30 = Some (Dec.mk 3999999999999999999999999999 (-26))
  /\ ~ (Dec.to_Q (price_formula (Dec.cents 2000) 30) == exact_price (Dec.cents 2000) 30)%Q
  /\ Dec.eqb (price_formula (Dec.cents 2000) 30) (Dec.cents 4000) = false
  /\ Dec.to_int (Dec.mul (price_formula (Dec.cents 2000) 30) (Dec.of_int 100)) = 3999
  /\ price_formula (Dec.cents 4500) 60 = Dec.cents 18000.
Proof.
  repeat split; try (vm_compute; reflexivity).
  vm_compute. discriminate.
Qed.

(** ** The webhook on an event that matches no pending order *)

Lemma map_if_no_match {A : Type} (P : A -> Prop) `{!forall x, Decision (P x)}
    (g : A -> A) (l : list A) :
  filter P l = [] ->
  map (fun x => if bool_decide (P x) then g x else x) l = l.
Proof.
  induction l as [|x l IH]; simpl; [reflexivity|].
  rewrite filter_cons. destruct (decide (P x)) as [Hp|Hp]; [discriminate|].
  intros Hl. rewrite bool_decide_eq_false_2 by exact Hp. rewrite IH by exact Hl.
  reflexivity.
Qed.

Lemma with_orders_same (db : DB) :
  with_orders (mk_table (rows (orders db)) (next_pk (orders db))) db = db.
Proof. destruct db as [c a ca ci [ro no] oi]. reflexivity. Qed.

(** Without a pending order to match, the webhook writes nothing. *)
Lemma webhook_no_pending_order (ev : Event) (db : DB) :
  pending_orders (order_id ev) db = [] ->
  snd (StripeWebhookView_post (Some ev) db) = db
  /\ fst (StripeWebhookView_post (Some ev) db)
     = match event_type ev with
       | payment_intent_succeeded => mk_response 404 (error "Order not found.")
       | _ => mk_response 200 status_ok
       end.
Proof.
  intros Hnone. unfold StripeWebhookView_post.
  destruct (event_type ev) eqn:Et; simpl.
  - rewrite Hnone. split; reflexivity.
  - split; [|reflexivity].
    unfold pending_orders in Hnone.
    rewrite (map_if_no_match _ _ _ Hnone). apply with_orders_same.
  - split; reflexivity.
Qed.

(** C3 (as stated, refuted).  The specification has every event whose order is
    absent or no longer pending acknowledged without change.  A succeeded
    event for an unknown order is answered 404, which the provider does not
    take for an acknowledgement. *)
Lemma C3_unknown_order_is_answered_404 :
  ~ (forall (ev : Event) (db : DB),
       event_type ev <> other_event ->
       pending_orders (order_id ev) db = [] ->
       snd (StripeWebhookView_post (Some ev) db) = db
       /\ acknowledged (fst (StripeWebhookView_post (Some ev) db)) = true).
Proof.
  intros H.
  destruct (H (mk_event payment_intent_succeeded (Some 1)) sample_db) as [_ Hack].
  - discriminate.
  - reflexivity.
  - vm_compute in Hack. discriminate.
Qed.

(** C3 (amended).  An event whose order is absent or no longer pending
    changes no state; a failed-payment event is acknowledged with 200, a
    succeeded event is answered with 404 "Order not found.". *)
Theorem C3_unmatched_event_changes_nothing (ev : Event) (db : DB) :
  pending_orders (order_id ev) db = [] ->
  snd (StripeWebhookView_post (Some ev) db) = db
  /\ fst (StripeWebhookView_post (Some ev) db)
     = match event_type ev with
       | payment_intent_succeeded => mk_response 404 (error "Order not found.")
       | _ => mk_response 200 status_ok
       end.
Proof. exact (webhook_no_pending_order ev db). Qed.

Lemma C3_unmatched_event_witness :
  let ev := mk_event payment_intent_payment_failed (Some 5) in
  snd (StripeWebhookView_post (Some ev) sample_db) = sample_db
  /\ fst (StripeWebhookView_post (Some ev) sample_db) = mk_response 200 status_ok.
Proof.
  exact (C3_unmatched_event_changes_nothing
           (mk_event payment_intent_payment_failed (Some 5)) sample_db eq_refl).
Defined.

(** ** Tables and keys *)

Lemma filter_nil_Forall {A : Type} (P : A -> Prop) `{!forall x, Decision (P x)}
    (l : list A) :
  filter P l = [] <-> Forall (fun x => ~ P x) l.
Proof.
  induction l as [|x l IH]; [split; [constructor|reflexivity]|].
  rewrite filter_cons. destruct (decide (P x)) as [Hp|Hp]; split.
  - discriminate.
  - inversion 1; contradiction.
  - intros Hl. constructor; [exact Hp|]. apply IH, Hl.
  - inversion 1; subst. apply IH; assumption.
Qed.

Lemma NoDup_fmap_filter {A B : Type} (f : A -> B) (P : A -> Prop)
    `{!forall x, Decision (P x)} (l : list A) :
  NoDup (f <$> l) -> NoDup (f <$> filter P l).
Proof.
  induction l as [|x l IH]; [auto|].
  rewrite fmap_cons, NoDup_cons. intros [Hx Hl]. rewrite filter_cons.
  destruct (decide (P x)); [|auto].
  rewrite fmap_cons. apply NoDup_cons. split; [|auto].
  intros Hin. apply Hx. apply list_elem_of_fmap in Hin as (y & -> & Hy).
  apply list_elem_of_filter in Hy as [_ Hy]. apply list_elem_of_fmap_2, Hy.
Qed.

Lemma fmap_map_same {A B : Type} (f : A -> B) (g : A -> A) (l : list A) :
  (forall x, f (g x) = f x) -> f <$> map g l = f <$> l.
Proof.
  intros Hfg. induction l as [|x l IH]; [reflexivity|].
  change (map g (x :: l)) with (g x :: map g l).
  rewrite !fmap_cons, Hfg. f_equal. exact IH.
Qed.

Section keyed_tables.
Context {A : Type} (pk : A -> Z).

Lemma keyed_empty : keyed pk empty_table.
Proof. split; [constructor|apply NoDup_nil_2]. Qed.

Lemma keyed_insert (mk : Z -> A) (t : Table A) :
  (forall k, pk (mk k) = k) -> keyed pk t -> keyed pk (insert_row mk t).
Proof.
  intros Hmk [Hlt Hnd]. unfold insert_row, keyed; simpl. split.
  - apply Forall_app. split.
    + eapply Forall_impl; [exact Hlt|]. simpl. lia.
    + constructor; [|constructor]. rewrite Hmk. lia.
  - rewrite fmap_app. apply NoDup_app. split; [exact Hnd|]. split.
    + intros k Hk Hk'. simpl in Hk'. rewrite Hmk in Hk'.
      apply list_elem_of_singleton in Hk'. subst k.
      apply list_elem_of_fmap in Hk as (r & Hr & Hin).
      rewrite Forall_forall in Hlt. specialize (Hlt r Hin). lia.
    + apply NoDup_singleton.
Qed.

Lemma keyed_map (f : A -> A) (t : Table A) :
  (forall r, pk (f r) = pk r) ->
  keyed pk t -> keyed pk (mk_table (map f (rows t)) (next_pk t)).
Proof.
  intros Hf [Hlt Hnd]. unfold keyed; simpl. split.
  - clear Hnd. induction Hlt; simpl; constructor; [rewrite Hf|]; assumption.
  - rewrite fmap_map_same by exact Hf. exact Hnd.
Qed.

Lemma keyed_filter (P : A -> Prop) `{!forall x, Decision (P x)} (t : Table A) :
  keyed pk t -> keyed pk (mk_table (filter P (rows t)) (next_pk t)).
Proof.
  intros [Hlt Hnd]. unfold keyed; simpl. split.
  - apply Forall_forall. intros r Hr. apply list_elem_of_filter in Hr as [_ Hr].
    rewrite Forall_forall in Hlt. auto.
  - apply NoDup_fmap_filter, Hnd.
Qed.
End keyed_tables.

(** ** Saving an appointment *)

Lemma create_appointment_Some
    (user category date : Z) (time : dt_time) (duration : Z) (is_paid : bool)
    (db : DB) (a : Appointment.t) (db' : DB) :
  create_appointment user category date time duration is_paid db = Some (a, db') ->
  exists c,
    categories db !! category = Some c
    /\ appointments_at (category, date, time) db = []
    /\ a = Appointment.mk (next_pk (appointments db)) user category date time duration
             (decimal_column
                (price_formula (ConsultationCategory.price_per_15min c) duration))
             is_paid
    /\ db' = with_appointments
               (mk_table (rows (appointments db) ++ [a]) (next_pk (appointments db) + 1))
               db.
Proof.
  unfold create_appointment, compute_price, category_price.
  destruct (categories db !! category) as [c|] eqn:Ec; simpl; [|discriminate].
  destruct (exists_ _) eqn:Ex; [discriminate|].
  apply exists_false in Ex. intros H. inversion H; subst. exists c. auto.
Qed.

Lemma create_appointment_free
    (user category date : Z) (time : dt_time) (duration : Z) (is_paid : bool)
    (db : DB) (c : ConsultationCategory.t) :
  categories db !! category = Some c ->
  appointments_at (category, date, time) db = [] ->
  create_appointment user category date time duration is_paid db
  = Some (Appointment.mk (next_pk (appointments db)) user category date time duration
            (decimal_column
               (price_formula (ConsultationCategory.price_per_15min c) duration))
            is_paid,
          with_appointments
            (mk_table (rows (appointments db)
                       ++ [Appointment.mk (next_pk (appointments db)) user category date
                             time duration
                             (decimal_column
                                (price_formula (ConsultationCategory.price_per_15min c)
                                               duration))
                             is_paid])
                      (next_pk (appointments db) + 1))
            db).
Proof.
  intros Hc Hfree. unfold create_appointment, compute_price, category_price.
  rewrite Hc. simpl. rewrite Hfree. reflexivity.
Qed.

(** The slot of a row that is not in the ledger is not among the ledger's
    slots. *)
Lemma free_slot_not_in (k : slot) (db : DB) :
  appointments_at k db = [] -> k ∉ appt_slot <$> rows (appointments db).
Proof.
  intros Hfree Hin. apply list_elem_of_fmap in Hin as (a & -> & Ha).
  unfold appointments_at in Hfree.
  eapply (filter_nil_not_elem_of _ _ a) in Hfree; [contradiction|reflexivity].
Qed.

Lemma create_appointment_unique
    (user category date : Z) (time : dt_time) (duration : Z) (is_paid : bool)
    (db : DB) (a : Appointment.t) (db' : DB) :
  create_appointment user category date time duration is_paid db = Some (a, db') ->
  unique_slots db -> unique_slots db'.
Proof.
  intros H Hu. apply create_appointment_Some in H as (c & _ & Hfree & -> & ->).
  unfold unique_slots; simpl. rewrite fmap_app. apply NoDup_app.
  split; [exact Hu|]. split; [|apply NoDup_singleton].
  intros k Hk Hk'. apply list_elem_of_singleton in Hk'. subst k.
  revert Hk. apply free_slot_not_in, Hfree.
Qed.

(** In a ledger with unique slots, a slot holds at most one appointment. *)
Lemma unique_slots_at_most_one (db : DB) (k : slot) :
  unique_slots db -> (length (appointments_at k db) <= 1)%nat.
Proof.
  unfold unique_slots, appointments_at.
  induction (rows (appointments db)) as [|a l IH]; [simpl; lia|].
  rewrite fmap_cons, NoDup_cons. intros [Ha Hl]. rewrite filter_cons.
  destruct (decide (appt_slot a = k)) as [<-|Hne]; [|auto].
  assert (E : filter (fun a0 => appt_slot a0 = appt_slot a) l = []).
  { apply filter_nil_Forall, Forall_forall. intros b Hb Hs.
    apply Ha. rewrite <- Hs. apply list_elem_of_fmap_2, Hb. }
  rewrite E. simpl. lia.
Qed.

(** ** Consistency is kept by every write *)

Lemma consistent_with_appointments (t : Table Appointment.t) (db : DB) :
  NoDup (appt_slot <$> rows t) -> consistent db -> consistent (with_appointments t db).
Proof. intros Ht [H1 H2 H3 H4]. constructor; assumption. Qed.

Lemma consistent_with_carts (t : Table Cart.t) (db : DB) :
  consistent db -> consistent (with_carts t db).
Proof. intros [H1 H2 H3 H4]. constructor; assumption. Qed.

Lemma consistent_with_cart_items (t : Table CartItem.t) (db : DB) :
  consistent db -> consistent (with_cart_items t db).
Proof. intros [H1 H2 H3 H4]. constructor; assumption. Qed.

Lemma consistent_with_categories (c : gmap Z ConsultationCategory.t) (db : DB) :
  (forall k, is_Some (categories db !! k) -> is_Some (c !! k)) ->
  consistent db -> consistent (with_categories c db).
Proof.
  intros Hc [H1 H2 H3 H4]. constructor; try assumption.
  eapply Forall_impl; [exact H4|]. intros oi [Ho Hk]. split; [exact Ho|].
  apply Hc, Hk.
Qed.

Lemma consistent_with_orders (t : Table Order.t) (db : DB) :
  keyed Order.pk t -> next_pk (orders db) <= next_pk t ->
  consistent db -> consistent (with_orders t db).
Proof.
  intros Ht Hn [H1 H2 H3 H4]. constructor; try assumption.
  eapply Forall_impl; [exact H4|]. intros oi [Ho Hk]. split; [|exact Hk].
  simpl. lia.
Qed.

Lemma consistent_with_order_items (t : Table OrderItem.t) (db : DB) :
  keyed OrderItem.pk t -> Forall (order_item_refs db) (rows t) ->
  consistent db -> consistent (with_order_items t db).
Proof. intros Ht Hr [H1 H2 H3 H4]. constructor; assumption. Qed.

Lemma consistent_init (catalog : gmap Z ConsultationCategory.t) :
  consistent (init_db catalog).
Proof.
  constructor; simpl.
  - apply NoDup_nil_2.
  - apply keyed_empty.
  - apply keyed_empty.
  - constructor.
Qed.

Lemma create_appointment_consistent
    (user category date : Z) (time : dt_time) (duration : Z) (is_paid : bool)
    (db : DB) (a : Appointment.t) (db' : DB) :
  create_appointment user category date time duration is_paid db = Some (a, db') ->
  consistent db -> consistent db'.
Proof.
  intros H Hc.
  pose proof (create_appointment_unique _ _ _ _ _ _ _ _ _ H (cons_slots _ Hc)) as Hu.
  apply create_appointment_Some in H as (c & _ & _ & _ & ->).
  apply consistent_with_appointments; assumption.
Qed.

(** What a booking writes does not depend on how its answer is rendered. *)
Lemma book_writes (today user : Z) (data : Data.t) (db : DB) :
  snd (AppointmentCreateView_create today user data db)
  = match CreateAppointmentSerializer.is_valid today db data with
    | inl _ => db
    | inr vd =>
        match create_appointment user (Data.category vd) (Data.date vd)
                                 (Data.time vd) (Data.duration vd) false db with
        | Some (_, db') => db'
        | None => db
        end
    end.
Proof.
  unfold AppointmentCreateView_create.
  destruct (CreateAppointmentSerializer.is_valid today db data) as [errs|vd];
    [reflexivity|].
  destruct (create_appointment _ _ _ _ _ _ _) as [[a db']|]; [|reflexivity].
  destruct (AppointmentSerializer_data db' a); reflexivity.
Qed.

Lemma book_consistent (today user : Z) (data : Data.t) (db : DB) :
  consistent db -> consistent (snd (AppointmentCreateView_create today user data db)).
Proof.
  intros Hc. rewrite book_writes.
  destruct (CreateAppointmentSerializer.is_valid today db data) as [errs|vd]; [exact Hc|].
  destruct (create_appointment _ _ _ _ _ _ _) as [[a db']|] eqn:E; [|exact Hc].
  eapply create_appointment_consistent; eassumption.
Qed.

Lemma cancel_consistent (user pk : Z) (db : DB) :
  consistent db -> consistent (snd (AppointmentDetailView_destroy user pk db)).
Proof.
  intros Hc. unfold AppointmentDetailView_destroy.
  destruct (filter _ _) as [|a l]; [exact Hc|].
  destruct (Appointment.is_paid a); [exact Hc|]. simpl.
  apply consistent_with_order_items.
  - apply keyed_map; [|apply Hc]. intros r. case_bool_decide; reflexivity.
  - simpl. apply Forall_forall. intros oi Hin.
    apply list_elem_of_In, in_map_iff in Hin as (r & <- & Hr).
    apply list_elem_of_In in Hr.
    pose proof (cons_refs _ Hc) as Hrefs. rewrite Forall_forall in Hrefs.
    specialize (Hrefs r Hr). case_bool_decide; exact Hrefs.
  - apply consistent_with_appointments; [|exact Hc]. simpl.
    apply NoDup_fmap_filter, Hc.
Qed.

Lemma get_or_create_cart_consistent (user : Z) (db : DB) :
  consistent db -> consistent (snd (get_or_create_cart user db)).
Proof.
  intros Hc. unfold get_or_create_cart. destruct (user_cart db user); [exact Hc|].
  simpl. apply consistent_with_carts, Hc.
Qed.

Lemma cart_views_consistent (r : Request) (db : DB) :
  catalog_or_cart r = true -> consistent db -> consistent (snd (handle r db)).
Proof.
  intros Hr Hc. destruct r; try discriminate; simpl.
  - unfold CartView_get.
    pose proof (get_or_create_cart_consistent user db Hc) as H1.
    destruct (get_or_create_cart user db) as [cart db1]. exact H1.
  - unfold CartView_post.
    destruct (AddToCartSerializer.is_valid today db data); [exact Hc|].
    pose proof (get_or_create_cart_consistent user db Hc) as H1.
    destruct (get_or_create_cart user db) as [cart db1]. simpl.
    apply consistent_with_cart_items, H1.
  - unfold CartItemView_patch. destruct (get_item pk user db); [|exact Hc].
    destruct (UpdateCartItemSerializer.is_valid t db data); [exact Hc|].
    simpl. apply consistent_with_cart_items, Hc.
  - unfold CartItemView_delete. destruct (get_item pk user db); [|exact Hc].
    simpl. apply consistent_with_cart_items, Hc.
  - unfold ClearCartView_delete. destruct (user_cart db user); [|exact Hc].
    simpl. apply consistent_with_cart_items, Hc.
  - apply consistent_with_categories; [|exact Hc].
    intros k [c Hk]. rewrite lookup_alter. case_decide; subst; rewrite Hk; simpl; eauto.
Qed.

Lemma create_order_items_consistent (order_pk : Z) (items : list CartItem.t) (db : DB) :
  order_pk < next_pk (orders db) ->
  consistent db -> consistent (snd (create_order_items order_pk items db)).
Proof.
  revert db. induction items as [|item rest IH]; intros db Hlt Hc; [exact Hc|].
  simpl. destruct (categories db !! CartItem.category item) as [c|] eqn:Ec; [|exact Hc].
  apply IH; [exact Hlt|].
  apply consistent_with_order_items; [| |exact Hc].
  - apply keyed_insert; [reflexivity|apply Hc].
  - simpl. apply Forall_app. split; [apply Hc|].
    constructor; [|constructor]. split; simpl; [exact Hlt|]. rewrite Ec. eauto.
Qed.

Lemma save_order_consistent (order : Order.t) (db : DB) :
  consistent db -> consistent (save_order order db).
Proof.
  intros Hc. unfold save_order. apply consistent_with_orders; [|simpl; lia|exact Hc].
  apply keyed_map; [|apply Hc]. intros r. case_bool_decide; congruence.
Qed.

Lemma delete_order_consistent (order_pk : Z) (db : DB) :
  consistent db -> consistent (delete_order order_pk db).
Proof.
  intros Hc. unfold delete_order. apply consistent_with_order_items.
  - apply keyed_filter, Hc.
  - simpl. apply Forall_forall. intros oi Hin.
    apply list_elem_of_filter in Hin as [_ Hin].
    pose proof (cons_refs _ Hc) as Hrefs. rewrite Forall_forall in Hrefs.
    apply (Hrefs oi Hin).
  - apply consistent_with_orders; [|simpl; lia|exact Hc].
    apply keyed_filter, Hc.
Qed.

Lemma checkout_consistent (stripe : Provider) (user : Z) (db : DB) :
  consistent db -> consistent (snd (CreateCheckoutSessionView_post stripe user db)).
Proof.
  intros Hc. unfold CreateCheckoutSessionView_post.
  destruct (user_cart db user) as [cart|]; [|exact Hc].
  destruct (negb _); [exact Hc|].
  destruct (Cart_total db (Cart.pk cart)) as [total|]; [|exact Hc].
  destruct (Dec.le0 total); [exact Hc|].
  set (db1 := with_orders _ db).
  assert (H1 : consistent db1).
  { apply consistent_with_orders; [|simpl; lia|exact Hc].
    apply keyed_insert; [reflexivity|apply Hc]. }
  assert (H2 : consistent
                 (snd (create_order_items (next_pk (orders db))
                         (items_of_cart db (Cart.pk cart)) db1))).
  { apply create_order_items_consistent; [simpl; lia|exact H1]. }
  simpl Order.pk.
  destruct (create_order_items _ _ db1) as [[|] db2]; simpl in H2; [|exact H2].
  destruct (stripe _ _ _) as [e|intent]; simpl.
  - apply delete_order_consistent, H2.
  - apply save_order_consistent, H2.
Qed.

Lemma save_order_item_consistent (oi oi' : OrderItem.t) (db : DB) :
  OrderItem.pk oi' = OrderItem.pk oi ->
  order_item_refs db oi' ->
  consistent db -> consistent (save_order_item oi' db).
Proof.
  intros Hpk Href Hc. unfold save_order_item. apply consistent_with_order_items.
  - apply keyed_map; [|apply Hc]. intros r. case_bool_decide; congruence.
  - simpl. apply Forall_forall. intros x Hin.
    apply list_elem_of_In, in_map_iff in Hin as (r & <- & Hr).
    apply list_elem_of_In in Hr.
    pose proof (cons_refs _ Hc) as Hrefs. rewrite Forall_forall in Hrefs.
    case_bool_decide; [exact Href|apply Hrefs, Hr].
  - exact Hc.
Qed.

Lemma create_appointments_consistent (user : Z) (items : list OrderItem.t) (db : DB) :
  Forall (order_item_refs db) items ->
  consistent db -> consistent (snd (create_appointments user items db)).
Proof.
  revert db. induction items as [|oi rest IH]; intros db Hrefs Hc; [exact Hc|].
  inversion Hrefs as [|? ? Hoi Hrest]; subst. simpl.
  destruct (appointments_at (item_slot oi) db) as [|a0 [|a1 l]]; [| |exact Hc].
  - destruct (create_appointment _ _ _ _ _ _ _) as [[appt db1]|] eqn:E; [|exact Hc].
    pose proof (create_appointment_consistent _ _ _ _ _ _ _ _ _ E Hc) as H1.
    apply create_appointment_Some in E as (c & _ & _ & _ & ->).
    apply IH.
    + eapply Forall_impl; [exact Hrest|]. intros x Hx. exact Hx.
    + apply (save_order_item_consistent oi); [reflexivity|exact Hoi|exact H1].
  - apply IH; assumption.
Qed.

Lemma webhook_consistent (event : option Event) (db : DB) :
  consistent db -> consistent (snd (StripeWebhookView_post event db)).
Proof.
  intros Hc. unfold StripeWebhookView_post.
  destruct event as [ev|]; [|exact Hc].
  destruct (event_type ev); [| |exact Hc].
  - destruct (pending_orders (order_id ev) db) as [|order l]; [exact Hc|].
    set (db1 := save_order _ db).
    assert (H1 : consistent db1) by apply save_order_consistent, Hc.
    assert (H2 : consistent
                   (snd (create_appointments (Order.user order)
                           (items_of_order db1 (Order.pk order)) db1))).
    { apply create_appointments_consistent; [|exact H1].
      apply Forall_forall. intros oi Hin.
      apply list_elem_of_filter in Hin as [_ Hin].
      pose proof (cons_refs _ H1) as Hrefs. rewrite Forall_forall in Hrefs.
      apply Hrefs, Hin. }
    destruct (create_appointments _ _ db1) as [[|] db2]; simpl in H2; [|exact H2].
    simpl. destruct (user_cart db2 (Order.user order)); [|exact H2].
    apply consistent_with_cart_items, H2.
  - simpl. apply consistent_with_orders; [|simpl; lia|exact Hc].
    apply keyed_map; [|apply Hc]. intros r. case_bool_decide; reflexivity.
Qed.

(** Every request keeps the stored data consistent. *)
Lemma handle_consistent (r : Request) (db : DB) :
  consistent db -> consistent (snd (handle r db)).
Proof.
  intros Hc. destruct r;
    try (apply cart_views_consistent; [reflexivity|exact Hc]).
  - apply book_consistent, Hc.
  - apply cancel_consistent, Hc.
  - apply checkout_consistent, Hc.
  - apply webhook_consistent, Hc.
Qed.

Lemma run_consistent (rs : list Request) (db : DB) :
  consistent db -> consistent (run rs db).
Proof.
  revert db. induction rs as [|r rs IH]; intros db Hc; [exact Hc|].
  simpl. apply IH, handle_consistent, Hc.
Qed.

(** ** The slot ledger *)

(** The field validators of direct booking pass exactly when the category
    exists, the date is not before today, the start lies in [09:00, 18:00)
    and the duration is one of the four. *)
Lemma direct_field_errors_nil (today : Z) (db : DB) (data : Data.t) :
  CreateAppointmentSerializer.field_errors today db data = [] <->
    is_Some (categories db !! Data.category data)
    /\ today <= Data.date data
    /\ time_us WORKING_HOURS_START <= time_us (Data.time data) < time_us WORKING_HOURS_END
    /\ Data.duration data ∈ [15; 30; 60; 120].
Proof.
  unfold CreateAppointmentSerializer.field_errors.
  rewrite !app_nil. rewrite !field_error_nil.
  unfold CreateAppointmentSerializer.validate_date,
    CreateAppointmentSerializer.validate_time,
    CreateAppointmentSerializer.validate_duration, time_leb, time_ltb.
  split.
  - intros (Hc & Hd & Ht & Hdur).
    destruct Hc as [v Hc]. apply validate_category_inr in Hc as [_ Hc].
    destruct Hd as [v1 Hd]. destruct (Z.ltb_spec (Data.date data) today); [discriminate|].
    destruct Ht as [v2 Ht].
    destruct (Z.leb_spec (time_us WORKING_HOURS_START) (time_us (Data.time data)));
      [|discriminate].
    destruct (Z.ltb_spec (time_us (Data.time data)) (time_us WORKING_HOURS_END));
      [|discriminate].
    destruct Hdur as [v3 Hdur]. case_bool_decide as Hin; [|discriminate].
    repeat split; auto; lia.
  - intros (Hc & Hd & [Ht1 Ht2] & Hin). repeat split.
    + exists (Data.category data). apply validate_category_inr; auto.
    + exists (Data.date data). destruct (Z.ltb_spec (Data.date data) today); [lia|reflexivity].
    + exists (Data.time data).
      destruct (Z.leb_spec (time_us WORKING_HOURS_START) (time_us (Data.time data))); [|lia].
      destruct (Z.ltb_spec (time_us (Data.time data)) (time_us WORKING_HOURS_END)); [|lia].
      reflexivity.
    + exists (Data.duration data). rewrite bool_decide_eq_true_2 by exact Hin. reflexivity.
Qed.

(** On a taken slot a request whose fields are valid is answered by the
    serializer's validator, before [validate] is reached. *)
Lemma direct_unique_set_on_taken_slot (today : Z) (db : DB) (data : Data.t) :
  CreateAppointmentSerializer.field_errors today db data = [] ->
  appointments_at (Data.slot_of data) db <> [] ->
  CreateAppointmentSerializer.is_valid today db data
  = inl [("non_field_errors"%string, unique_set)].
Proof.
  intros Hfe Htaken.
  unfold CreateAppointmentSerializer.is_valid, CreateAppointmentSerializer.validators.
  rewrite Hfe.
  destruct (appointments_at (Data.slot_of data) db); [contradiction|reflexivity].
Qed.

(** A request that passes every check of direct booking on an empty ledger
    fails or passes on [db] by the lookup of the slot alone. *)
Lemma direct_is_valid_but_for_slot (today : Z) (db : DB) (data : Data.t) :
  CreateAppointmentSerializer.is_valid today (with_appointments empty_table db) data = inr data ->
  CreateAppointmentSerializer.is_valid today db data
  = if exists_ (appointments_at (Data.slot_of data) db)
    then inl [("non_field_errors"%string, unique_set)]
    else inr data.
Proof.
  rewrite direct_is_valid_inr.
  change (CreateAppointmentSerializer.field_errors today (with_appointments empty_table db) data)
    with (CreateAppointmentSerializer.field_errors today db data).
  intros [Hfe Hv].
  destruct (appointments_at (Data.slot_of data) db) as [|a l] eqn:Hat.
  - simpl. apply direct_is_valid_inr. split; [exact Hfe|].
    revert Hv. unfold CreateAppointmentSerializer.validate.
    destruct (negb _ && _); [discriminate|]. intros _. cbv zeta. rewrite Hat. reflexivity.
  - simpl. apply direct_unique_set_on_taken_slot; [exact Hfe|]. rewrite Hat. discriminate.
Qed.

(** On a taken slot direct booking never gets past validation. *)
Lemma direct_invalid_on_taken_slot (today : Z) (db : DB) (data : Data.t) :
  appointments_at (Data.slot_of data) db <> [] ->
  exists errs, CreateAppointmentSerializer.is_valid today db data = inl errs.
Proof.
  intros Htaken.
  destruct (CreateAppointmentSerializer.is_valid today db data) as [errs|d] eqn:Ev;
    [eauto|].
  apply direct_is_valid_inr in Ev as [_ Hv]. exfalso. revert Hv.
  unfold CreateAppointmentSerializer.validate.
  destruct (negb _ && _); [discriminate|]. cbv zeta.
  destruct (appointments_at (Data.slot_of data) db); [contradiction|]. discriminate.
Qed.

(** The answer to a booking that passed validation and was saved. *)
Lemma book_free_slot (today user : Z) (data : Data.t) (db : DB) (c : ConsultationCategory.t) :
  CreateAppointmentSerializer.is_valid today db data = inr data ->
  categories db !! Data.category data = Some c ->
  let a := Appointment.mk (next_pk (appointments db)) user (Data.category data)
             (Data.date data) (Data.time data) (Data.duration data)
             (decimal_column
                (price_formula (ConsultationCategory.price_per_15min c)
                               (Data.duration data)))
             false in
  let db' := with_appointments
               (mk_table (rows (appointments db) ++ [a]) (next_pk (appointments db) + 1))
               db in
  AppointmentCreateView_create today user data db
  = (match AppointmentSerializer_data db' a with
     | Some d => mk_response 201 (appointment_body d)
     | None => server_error
     end, db').
Proof.
  intros Hv Hc. cbv zeta.
  pose proof Hv as Hfree. apply direct_is_valid_iff in Hfree as (_ & _ & _ & _ & _ & Hfree).
  unfold AppointmentCreateView_create. rewrite Hv.
  rewrite (create_appointment_free _ _ _ _ _ _ _ c Hc Hfree).
  destruct (AppointmentSerializer_data _ _); reflexivity.
Qed.

(** A value at two places is what the column holds of it. *)
Lemma rescale_two_places (v : Decimal) :
  Dec.exp v = -2 -> Dec.rescale v (-2) = v.
Proof.
  destruct v as [m e]. simpl. intros ->. unfold Dec.rescale. simpl.
  rewrite Z.mul_1_r. reflexivity.
Qed.

Lemma decimal_column_exp (v : Decimal) : Dec.exp (decimal_column v) = -2.
Proof.
  unfold decimal_column, Dec.rescale. destruct (_ <=? _); reflexivity.
Qed.

(** Rendering a stored appointment: the row itself, unless one of its two
    decimal fields has more than ten digits. *)
Lemma AppointmentSerializer_data_stored (db : DB) (a : Appointment.t)
    (c : ConsultationCategory.t) :
  categories db !! Appointment.category a = Some c ->
  Dec.exp (Appointment.total_price a) = -2 ->
  AppointmentSerializer_data db a
  = match DecimalField_to_representation (ConsultationCategory.price_per_15min c),
          DecimalField_to_representation (Appointment.total_price a) with
    | Some _, Some _ => Some a
    | _, _ => None
    end.
Proof.
  intros Hc He. unfold AppointmentSerializer_data. rewrite Hc. simpl.
  destruct (DecimalField_to_representation (ConsultationCategory.price_per_15min c));
    simpl; [|reflexivity].
  unfold DecimalField_to_representation. cbv zeta.
  rewrite (rescale_two_places _ He).
  destruct (_ <=? _); simpl; [|reflexivity]. destruct a; reflexivity.
Qed.

(** Rendering a stored appointment whose prices have at most ten digits
    gives the row itself. *)
Lemma AppointmentSerializer_data_fits (db : DB) (a : Appointment.t)
    (c : ConsultationCategory.t) (p t : Z) :
  categories db !! Appointment.category a = Some c ->
  ConsultationCategory.price_per_15min c = Dec.cents p -> 0 < p < 10 ^ 10 ->
  Appointment.total_price a = Dec.cents t -> 0 < t < 10 ^ 10 ->
  AppointmentSerializer_data db a = Some a.
Proof.
  intros Hc Hp Hp10 Ht Ht10. unfold AppointmentSerializer_data.
  rewrite Hc. simpl. rewrite Hp, (to_representation_cents p Hp10). simpl.
  rewrite Ht, (to_representation_cents t Ht10). simpl.
  rewrite <- Ht. destruct a; reflexivity.
Qed.

(** A booking that passes validation is saved, and answered 201 when its
    prices can be rendered. *)
Lemma book_saved (today user : Z) (data : Data.t) (db : DB) :
  CreateAppointmentSerializer.is_valid today db data = inr data ->
  exists a,
    rows (appointments (snd (AppointmentCreateView_create today user data db)))
    = rows (appointments db) ++ [a]
    /\ appt_slot a = Data.slot_of data
    /\ Appointment.user a = user
    /\ Appointment.duration a = Data.duration data
    /\ Appointment.is_paid a = false
    /\ fst (AppointmentCreateView_create today user data db)
       = match AppointmentSerializer_data
                 (snd (AppointmentCreateView_create today user data db)) a with
         | Some d => mk_response 201 (appointment_body d)
         | None => server_error
         end
    /\ (forall c p,
          categories db !! Data.category data = Some c ->
          ConsultationCategory.price_per_15min c = Dec.cents p ->
          0 < p -> p * (Data.duration data / 15) < 10 ^ 10 ->
          Appointment.total_price a = Dec.cents (p * (Data.duration data / 15))
          /\ fst (AppointmentCreateView_create today user data db)
             = mk_response 201 (appointment_body a)).
Proof.
  intros Hv. pose proof Hv as Hfields.
  apply direct_is_valid_iff in Hfields as ([c Hc] & _ & _ & Hdur & _).
  rewrite (book_free_slot today user data db c Hv Hc). cbv zeta. simpl fst. simpl snd.
  eexists. split; [reflexivity|]. repeat (split; [reflexivity|]).
  intros c' p Hc' Hp Hp0 Hfit. rewrite Hc in Hc'. inversion Hc'; subst c'.
  assert (Hk : 1 <= Data.duration data / 15).
  { set_unfold in Hdur. destruct Hdur as [->|[->|[->|[->|[]]]]]; vm_compute; discriminate. }
  assert (Hp10 : 0 < p < 10 ^ 10) by nia.
  rewrite Hp, (decimal_column_price p _ Hp10 Hdur).
  split; [reflexivity|].
  erewrite AppointmentSerializer_data_fits; [reflexivity|exact Hc|exact Hp|exact Hp10
                                            |reflexivity|nia].
Qed.

(** C4.  In every state the system can reach, a (category, date, time)
    triple holds at most one appointment.  A booking on a taken triple is
    always refused with status 400 and changes nothing, whoever asks and
    whatever the duration.  When its fields pass their own validators (the
    category exists, the date is not before today, the start lies in
    [09:00, 18:00), the duration is one of the four), the error is the
    conflict of the unique (category, date, time), also for a session that
    would end after 18:00; a request with an invalid field is answered with
    the errors of its fields.  A valid booking at a date and time where only
    other categories are booked is saved: the appointment is appended, and
    the answer is 201 with it when its prices can be rendered, as they can
    for every positive two-place unit price whose session price has at most
    ten digits. *)
Theorem C4_one_appointment_per_slot
    (catalog : gmap Z ConsultationCategory.t) (rs : list Request) (k : slot)
    (today user : Z) (data : Data.t) (db : DB) :
  (length (appointments_at k (run rs (init_db catalog))) <= 1)%nat
  /\ (appointments_at (Data.slot_of data) db <> [] ->
      snd (AppointmentCreateView_create today user data db) = db
      /\ status_code (fst (AppointmentCreateView_create today user data db)) = 400
      /\ (is_Some (categories db !! Data.category data) ->
          today <= Data.date data ->
          time_us WORKING_HOURS_START <= time_us (Data.time data)
            < time_us WORKING_HOURS_END ->
          Data.duration data ∈ [15; 30; 60; 120] ->
          fst (AppointmentCreateView_create today user data db)
          = mk_response 400
              (validation_errors [("non_field_errors"%string, unique_set)]))
      /\ (CreateAppointmentSerializer.field_errors today db data <> [] ->
          fst (AppointmentCreateView_create today user data db)
          = mk_response 400
              (validation_errors
                 (CreateAppointmentSerializer.field_errors today db data))))
  /\ (CreateAppointmentSerializer.is_valid today (with_appointments empty_table db) data = inr data ->
      (forall a, a ∈ rows (appointments db) ->
                 Appointment.date a = Data.date data ->
                 Appointment.time a = Data.time data ->
                 Appointment.category a <> Data.category data) ->
      exists a,
        rows (appointments (snd (AppointmentCreateView_create today user data db)))
        = rows (appointments db) ++ [a]
        /\ appt_slot a = Data.slot_of data
        /\ Appointment.user a = user
        /\ Appointment.duration a = Data.duration data
        /\ Appointment.is_paid a = false
        /\ fst (AppointmentCreateView_create today user data db)
           = match AppointmentSerializer_data
                     (snd (AppointmentCreateView_create today user data db)) a with
             | Some d => mk_response 201 (appointment_body d)
             | None => server_error
             end
        /\ (forall c p,
              categories db !! Data.category data = Some c ->
              ConsultationCategory.price_per_15min c = Dec.cents p ->
              0 < p -> p * (Data.duration data / 15) < 10 ^ 10 ->
              Appointment.total_price a = Dec.cents (p * (Data.duration data / 15))
              /\ fst (AppointmentCreateView_create today user data db)
                 = mk_response 201 (appointment_body a))).
Proof.
  split; [|split].
  - apply unique_slots_at_most_one, run_consistent, consistent_init.
  - intros Htaken. unfold AppointmentCreateView_create.
    destruct (direct_invalid_on_taken_slot today db data Htaken) as [errs Herrs].
    rewrite Herrs. simpl. split; [reflexivity|]. split; [reflexivity|]. split.
    + intros Hc Hd Ht Hdur.
      rewrite direct_unique_set_on_taken_slot in Herrs;
        [inversion Herrs; reflexivity| |exact Htaken].
      apply direct_field_errors_nil. auto.
    + intros Hfe. revert Herrs.
      unfold CreateAppointmentSerializer.is_valid, run_validation.
      destruct (CreateAppointmentSerializer.field_errors today db data);
        [contradiction|].
      intros [= <-]. reflexivity.
  - intros Hother Hcats.
    assert (Hfree : appointments_at (Data.slot_of data) db = []).
    { apply filter_nil_Forall, Forall_forall. intros a Ha Hs.
      unfold appt_slot, Data.slot_of in Hs. inversion Hs.
      apply (Hcats a Ha); assumption. }
    pose proof (direct_is_valid_but_for_slot _ _ _ Hother) as Hv.
    rewrite Hfree in Hv. simpl in Hv.
    exact (book_saved today user data db Hv).
Qed.

Lemma C4_one_appointment_per_slot_witness :
  let db1 := run [book 100 7 (Data.mk 1 110 (at_ 10 0) 60)] sample_db in
  (fst (AppointmentCreateView_create 100 8 (Data.mk 1 110 (at_ 17 0) 120)
          (run [book 100 7 (Data.mk 1 110 (at_ 17 0) 60)] sample_db))
   = mk_response 400
       (validation_errors [("non_field_errors"%string, unique_set)]))
  /\ (exists a,
        fst (AppointmentCreateView_create 100 8 (Data.mk 2 110 (at_ 10 0) 15) db1)
        = mk_response 201 (appointment_body a)
        /\ appt_slot a = (2, 110, at_ 10 0)
        /\ Appointment.total_price a = Dec.cents 6000).
Proof.
  split.
  - refine (proj1 (proj2 (proj2 (proj1 (proj2
      (C4_one_appointment_per_slot sample_catalog [] (1, 110, at_ 17 0) 100 8
         (Data.mk 1 110 (at_ 17 0) 120)
         (run [book 100 7 (Data.mk 1 110 (at_ 17 0) 60)] sample_db))) _))) _ _ _ _).
    + vm_compute. discriminate.
    + vm_compute. eauto.
    + vm_compute. discriminate.
    + vm_compute. split; [discriminate|reflexivity].
    + cbn [Data.duration]. rewrite !elem_of_cons. lia.
  - destruct (proj2 (proj2
      (C4_one_appointment_per_slot sample_catalog [] (1, 110, at_ 10 0) 100 8
         (Data.mk 2 110 (at_ 10 0) 15)
         (run [book 100 7 (Data.mk 1 110 (at_ 10 0) 60)] sample_db))))
      as (a & _ & Hs & _ & _ & _ & _ & Hfit).
    + vm_compute. reflexivity.
    + intros a Ha _ _. vm_compute in Ha.
      apply list_elem_of_singleton in Ha. subst a. simpl. discriminate.
    + destruct (Hfit family_law 6000) as [Hprice Hr];
        [reflexivity|reflexivity|lia|vm_compute; reflexivity|].
      exists a. split; [exact Hr|]. split; [exact Hs|exact Hprice].
Defined.

(** ** Checkout *)

Lemma filter_all {A : Type} (P : A -> Prop) `{!forall x, Decision (P x)} (l : list A) :
  Forall P l -> filter P l = l.
Proof.
  induction 1 as [|x l Hx Hl IH]; [reflexivity|].
  rewrite filter_cons_True by exact Hx. f_equal. exact IH.
Qed.

(** The loop appends rows of the new order and touches nothing else. *)
Lemma create_order_items_rows (order_pk : Z) (items : list CartItem.t) (db : DB) :
  exists new,
    snd (create_order_items order_pk items db)
    = with_order_items
        (mk_table (rows (order_items db) ++ new)
                  (next_pk (order_items db) + Z.of_nat (length new)))
        db
    /\ Forall (fun oi => OrderItem.order oi = order_pk) new.
Proof.
  revert db. induction items as [|item rest IH]; intros db.
  - exists []. simpl. split; [|constructor].
    rewrite app_nil_r, Z.add_0_r. destruct db as [c a ca ci o [r n]]. reflexivity.
  - simpl. destruct (categories db !! CartItem.category item) as [c|] eqn:Ec.
    + match goal with |- context [create_order_items _ _ ?d] =>
        destruct (IH d) as (new & Hnew & Hall) end.
      rewrite Hnew.
      exists (OrderItem.mk (next_pk (order_items db)) order_pk (CartItem.category item)
                (ConsultationCategory.category c) (CartItem.date item)
                (CartItem.time item) (CartItem.duration item)
                (decimal_column (ConsultationCategory.price_per_15min c))
                (decimal_column
                   (price_formula (ConsultationCategory.price_per_15min c)
                                  (CartItem.duration item)))
                None :: new).
      split; [|constructor; [reflexivity|exact Hall]].
      unfold with_order_items, insert_row; simpl. f_equal. f_equal.
      * rewrite <- app_assoc. reflexivity.
      * lia.
    + exists []. simpl. split; [|constructor].
      rewrite app_nil_r, Z.add_0_r. destruct db as [c a ca ci o [r n]]. reflexivity.
Qed.

(** The loop runs to its end when every item's category is in the catalog. *)
Lemma create_order_items_completes (order_pk : Z) (items : list CartItem.t) (db : DB) :
  Forall (fun i => is_Some (categories db !! CartItem.category i)) items ->
  fst (create_order_items order_pk items db) = true.
Proof.
  revert db. induction items as [|item rest IH]; intros db Hall; [reflexivity|].
  inversion Hall as [|? ? [c Hc] Hrest]; subst. simpl. rewrite Hc.
  apply IH. exact Hrest.
Qed.

(** A total could be computed only if every item has its category. *)
Lemma Cart_total_Some_categories (db : DB) (cart_pk : Z) (total : Decimal) :
  Cart_total db cart_pk = Some total ->
  Forall (fun i => is_Some (categories db !! CartItem.category i)) (items_of_cart db cart_pk).
Proof.
  unfold Cart_total. intros H.
  destruct (mapM (computed_price db) (items_of_cart db cart_pk)) as [prices|] eqn:E;
    [|discriminate].
  assert (Hs : is_Some (mapM (computed_price db) (items_of_cart db cart_pk))) by eauto.
  apply mapM_is_Some_1 in Hs. eapply Forall_impl; [exact Hs|].
  intros i [p Hp]. simpl in Hp. unfold computed_price, category_price in Hp.
  destruct (categories db !! CartItem.category i); [eauto|discriminate].
Qed.

(** C6.  When the provider fails, checkout leaves the orders and the order
    items exactly as they were (the order it had just created and its items
    are gone), answers 502 with the provider's error, and has touched neither
    the cart nor the appointments. *)
Theorem C6_provider_failure_rolls_back
    (stripe : Provider) (user : Z) (db : DB) (e : string) :
  consistent db ->
  (forall amount order_pk u, stripe amount order_pk u = inl e) ->
  rows (orders (snd (CreateCheckoutSessionView_post stripe user db))) = rows (orders db)
  /\ rows (order_items (snd (CreateCheckoutSessionView_post stripe user db)))
     = rows (order_items db)
  /\ cart_items (snd (CreateCheckoutSessionView_post stripe user db)) = cart_items db
  /\ carts (snd (CreateCheckoutSessionView_post stripe user db)) = carts db
  /\ appointments (snd (CreateCheckoutSessionView_post stripe user db)) = appointments db
  /\ (forall cart total,
        user_cart db user = Some cart ->
        items_of_cart db (Cart.pk cart) <> [] ->
        Cart_total db (Cart.pk cart) = Some total ->
        Dec.le0 total = false ->
        fst (CreateCheckoutSessionView_post stripe user db)
        = mk_response 502 (error ("Stripe error: " +:+ e))).
Proof.
  intros Hc Hdown. unfold CreateCheckoutSessionView_post.
  destruct (user_cart db user) as [cart|] eqn:Ecart;
    [|repeat split; intros; discriminate].
  destruct (items_of_cart db (Cart.pk cart)) as [|i0 tl] eqn:Eitems.
  { simpl. repeat split. intros ? ? [= <-] Hne. rewrite Eitems in Hne. contradiction. }
  simpl negb. cbv iota.
  destruct (Cart_total db (Cart.pk cart)) as [total|] eqn:Etotal.
  2:{ repeat split. intros ? ? [= <-] _ Ht. rewrite Etotal in Ht. discriminate. }
  destruct (Dec.le0 total) eqn:Ele.
  { repeat split. intros ? ? [= <-] _ Ht Hle. rewrite Etotal in Ht.
    inversion Ht; subst. congruence. }
  simpl Order.pk.
  set (db1 := with_orders _ db).
  pose proof (Cart_total_Some_categories _ _ _ Etotal) as Hcats.
  rewrite Eitems in Hcats.
  pose proof (create_order_items_completes (next_pk (orders db)) (i0 :: tl) db1 Hcats)
    as Hflag.
  destruct (create_order_items_rows (next_pk (orders db)) (i0 :: tl) db1)
    as (new & Hdb2 & Hnew).
  destruct (create_order_items (next_pk (orders db)) (i0 :: tl) db1) as [flag db2].
  simpl in Hflag, Hdb2. subst flag db2.
  rewrite Hdown. simpl.
  assert (Hold : filter (fun o => Order.pk o <> next_pk (orders db)) (rows (orders db))
                 = rows (orders db)).
  { apply filter_all. destruct (cons_orders _ Hc) as [Hlt _].
    eapply Forall_impl; [exact Hlt|]. simpl. lia. }
  assert (Hitems : filter (fun oi => OrderItem.order oi <> next_pk (orders db))
                          (rows (order_items db)) = rows (order_items db)).
  { apply filter_all. eapply Forall_impl; [exact (cons_refs _ Hc)|].
    intros oi [Hlt _]. lia. }
  assert (Hgone : filter (fun oi => OrderItem.order oi <> next_pk (orders db)) new = []).
  { apply filter_nil_Forall. eapply Forall_impl; [exact Hnew|]. simpl. intros oi -> Hne.
    apply Hne. reflexivity. }
  repeat split.
  - rewrite filter_app, Hold. rewrite filter_cons_False by (simpl; lia).
    rewrite filter_nil. apply app_nil_r.
  - rewrite filter_app, Hitems, Hgone. apply app_nil_r.
Qed.

Lemma C6_provider_failure_witness :
  let db := run [cart_add 100 7 (Data.mk 1 110 (at_ 10 0) 60)] sample_db in
  rows (orders (snd (CreateCheckoutSessionView_post provider_down 7 db))) = rows (orders db)
  /\ rows (order_items (snd (CreateCheckoutSessionView_post provider_down 7 db)))
     = rows (order_items db)
  /\ cart_items (snd (CreateCheckoutSessionView_post provider_down 7 db)) = cart_items db
  /\ fst (CreateCheckoutSessionView_post provider_down 7 db)
     = mk_response 502 (error "Stripe error: connection error").
Proof.
  cbv zeta.
  destruct (C6_provider_failure_rolls_back provider_down 7
              (run [cart_add 100 7 (Data.mk 1 110 (at_ 10 0) 60)] sample_db)
              "connection error")
    as (H1 & H2 & H3 & _ & _ & H6).
  - apply run_consistent, consistent_init.
  - reflexivity.
  - split; [exact H1|]. split; [exact H2|]. split; [exact H3|].
    apply (H6 (Cart.mk 1 7) (Dec.cents 18000)).
    + reflexivity.
    + vm_compute. discriminate.
    + vm_compute. reflexivity.
    + reflexivity.
Defined.

(** ** The order snapshot *)

Lemma get_or_create_cart_frame (user : Z) (db : DB) :
  orders (snd (get_or_create_cart user db)) = orders db
  /\ order_items (snd (get_or_create_cart user db)) = order_items db
  /\ appointments (snd (get_or_create_cart user db)) = appointments db.
Proof.
  unfold get_or_create_cart. destruct (user_cart db user); simpl; auto.
Qed.

(** Catalog changes and cart requests write neither orders, nor order items,
    nor appointments. *)
Lemma catalog_or_cart_frame (r : Request) (db : DB) :
  catalog_or_cart r = true ->
  orders (snd (handle r db)) = orders db
  /\ order_items (snd (handle r db)) = order_items db
  /\ appointments (snd (handle r db)) = appointments db.
Proof.
  intros Hr. destruct r; try discriminate; simpl.
  - unfold CartView_get.
    pose proof (get_or_create_cart_frame user db) as H.
    destruct (get_or_create_cart user db) as [cart db1]. exact H.
  - unfold CartView_post.
    destruct (AddToCartSerializer.is_valid today db data); [auto|].
    pose proof (get_or_create_cart_frame user db) as H.
    destruct (get_or_create_cart user db) as [cart db1]. exact H.
  - unfold CartItemView_patch. destruct (get_item pk user db); [|auto].
    destruct (UpdateCartItemSerializer.is_valid t db data); auto.
  - unfold CartItemView_delete. destruct (get_item pk user db); auto.
  - unfold ClearCartView_delete. destruct (user_cart db user); auto.
  - auto.
Qed.

Lemma run_catalog_or_cart_frame (rs : list Request) (db : DB) :
  Forall (fun r => catalog_or_cart r = true) rs ->
  orders (run rs db) = orders db
  /\ order_items (run rs db) = order_items db
  /\ appointments (run rs db) = appointments db.
Proof.
  intros Hrs. revert db. induction Hrs as [|r rs Hr Hrs IH]; intros db; [auto|].
  simpl. destruct (IH (snd (handle r db))) as (-> & -> & ->).
  apply catalog_or_cart_frame, Hr.
Qed.

(** C8.  Once checkout has created an order and its items, no sequence of
    catalog price changes and cart requests (read, add, update, remove,
    clear) alters the orders or the order items: the stored total amount,
    unit prices and total prices stay what checkout wrote. *)
Theorem C8_order_snapshot_is_frozen
    (stripe : Provider) (user : Z) (db : DB) (rs : list Request) :
  Forall (fun r => catalog_or_cart r = true) rs ->
  orders (run rs (snd (CreateCheckoutSessionView_post stripe user db)))
  = orders (snd (CreateCheckoutSessionView_post stripe user db))
  /\ order_items (run rs (snd (CreateCheckoutSessionView_post stripe user db)))
     = order_items (snd (CreateCheckoutSessionView_post stripe user db)).
Proof.
  intros Hrs.
  destruct (run_catalog_or_cart_frame rs
              (snd (CreateCheckoutSessionView_post stripe user db)) Hrs) as (H1 & H2 & _).
  split; assumption.
Qed.

Lemma C8_order_snapshot_witness :
  let db := run [cart_add 100 7 (Data.mk 1 110 (at_ 10 0) 60)] sample_db in
  let rs := [admin_set_price 1 (Dec.cents 6000); cart_clear 7] in
  orders (run rs (snd (CreateCheckoutSessionView_post provider_up 7 db)))
  = orders (snd (CreateCheckoutSessionView_post provider_up 7 db))
  /\ order_items (run rs (snd (CreateCheckoutSessionView_post provider_up 7 db)))
     = order_items (snd (CreateCheckoutSessionView_post provider_up 7 db)).
Proof.
  cbv zeta.
  apply (C8_order_snapshot_is_frozen provider_up 7
           (run [cart_add 100 7 (Data.mk 1 110 (at_ 10 0) 60)] sample_db)
           [admin_set_price 1 (Dec.cents 6000); cart_clear 7]).
  repeat constructor.
Defined.

(** What the snapshot of the sample cart holds, before and after the price
    of the category went from 45.00 to 60.00 and the cart was emptied. *)
Example snapshot_after_price_change :
  let db := run [cart_add 100 7 (Data.mk 1 110 (at_ 10 0) 60);
                 checkout provider_up 7;
                 admin_set_price 1 (Dec.cents 6000);
                 cart_clear 7] sample_db in
  category_price db 1 = Some (Dec.cents 6000)
  /\ rows (cart_items db) = []
  /\ rows (orders db) = [Order.mk 1 7 (Dec.cents 18000) pending "pi_1"]
  /\ rows (order_items db)
     = [OrderItem.mk 1 1 1 "Immigration" 110 (at_ 10 0) 60
          (Dec.cents 4500) (Dec.cents 18000) None].
Proof. vm_compute. repeat split; reflexivity. Qed.

(** ** Settlement *)

Lemma create_appointments_rows (user : Z) (items : list OrderItem.t) (db : DB) :
  exists new,
    rows (appointments (snd (create_appointments user items db)))
    = rows (appointments db) ++ new
    /\ Forall (settled_from db user items) new
    /\ categories (snd (create_appointments user items db)) = categories db
    /\ orders (snd (create_appointments user items db)) = orders db
    /\ carts (snd (create_appointments user items db)) = carts db
    /\ cart_items (snd (create_appointments user items db)) = cart_items db.
Proof.
  revert db. induction items as [|oi rest IH]; intros db.
  { exists []. simpl. rewrite app_nil_r. repeat split; constructor. }
  simpl.
  destruct (appointments_at (item_slot oi) db) as [|a0 [|a1 l]] eqn:Eat.
  - destruct (create_appointment _ _ _ _ _ _ _) as [[appt db1]|] eqn:E.
    + apply create_appointment_Some in E as (c & Hc & _ & Ha & ->).
      match goal with |- context [create_appointments _ _ ?d] =>
        destruct (IH d) as (new & Hrows & Hnew & Hcat & Hord & Hcarts & Hci) end.
      exists (appt :: new). rewrite Hrows, Hcat, Hord, Hcarts, Hci. simpl.
      repeat split; try reflexivity.
      * rewrite <- app_assoc. reflexivity.
      * constructor.
        -- subst appt. split; [reflexivity|]. split; [reflexivity|]. split.
           ++ exists oi. split; [left|split; reflexivity].
           ++ exists c. split; [exact Hc|reflexivity].
        -- eapply Forall_impl; [exact Hnew|].
           intros a (Hp & Hu & (oi' & Hin & Hs) & Hprice).
           split; [exact Hp|]. split; [exact Hu|]. split; [|exact Hprice].
           exists oi'. split; [right; exact Hin|exact Hs].
    + exists []. simpl. rewrite app_nil_r. repeat split; constructor.
  - destruct (IH db) as (new & Hrows & Hnew & Hrest).
    exists new. split; [exact Hrows|]. split; [|exact Hrest].
    eapply Forall_impl; [exact Hnew|].
    intros a (Hp & Hu & (oi' & Hin & Hs) & Hprice).
    split; [exact Hp|]. split; [exact Hu|]. split; [|exact Hprice].
    exists oi'. split; [right; exact Hin|exact Hs].
  - exists []. simpl. rewrite app_nil_r. repeat split; constructor.
Qed.

(** A taken slot stays taken when rows are appended to the ledger. *)
Lemma taken_stays_taken (k : slot) (db db' : DB) (new : list Appointment.t) :
  rows (appointments db') = rows (appointments db) ++ new ->
  appointments_at k db <> [] -> appointments_at k db' <> [].
Proof.
  unfold appointments_at. intros -> Hne. rewrite filter_app.
  intros Hnil. apply app_nil in Hnil as [Hnil _]. contradiction.
Qed.

(** When the loop runs to its end, every item's slot holds an appointment. *)
Lemma create_appointments_covers (user : Z) (items : list OrderItem.t) (db : DB) :
  fst (create_appointments user items db) = true ->
  forall oi, oi ∈ items ->
    appointments_at (item_slot oi) (snd (create_appointments user items db)) <> [].
Proof.
  revert db. induction items as [|oi rest IH]; intros db Hflag x Hx.
  { apply elem_of_nil in Hx. contradiction. }
  simpl in Hflag |- *.
  destruct (appointments_at (item_slot oi) db) as [|a0 [|a1 l]] eqn:Eat;
    [| |discriminate].
  - destruct (create_appointment _ _ _ _ _ _ _) as [[appt db1]|] eqn:E; [|discriminate].
    apply elem_of_cons in Hx as [->|Hx]; [|apply IH; assumption].
    apply create_appointment_Some in E as (c & _ & _ & Ha & ->).
    match goal with |- context [create_appointments _ _ ?d] =>
      destruct (create_appointments_rows user rest d) as (new & Hrows & _) end.
    eapply taken_stays_taken; [exact Hrows|].
    unfold appointments_at. simpl. rewrite filter_app.
    rewrite (filter_cons_True _ appt) by (subst appt; reflexivity).
    intros Hnil. apply app_nil in Hnil as [_ Hnil]. discriminate.
  - apply elem_of_cons in Hx as [->|Hx]; [|apply IH; assumption].
    destruct (create_appointments_rows user rest db) as (new & Hrows & _).
    eapply taken_stays_taken; [exact Hrows|]. rewrite Eat. discriminate.
Qed.

(** The loop runs to its end on consistent data. *)
Lemma create_appointments_completes (user : Z) (items : list OrderItem.t) (db : DB) :
  consistent db ->
  Forall (order_item_refs db) items ->
  fst (create_appointments user items db) = true.
Proof.
  revert db. induction items as [|oi rest IH]; intros db Hc Hrefs; [reflexivity|].
  inversion Hrefs as [|? ? Hoi Hrest]; subst. simpl.
  pose proof (unique_slots_at_most_one db (item_slot oi) (cons_slots _ Hc)) as Hlen.
  destruct (appointments_at (item_slot oi) db) as [|a0 [|a1 l]] eqn:Eat;
    [| |simpl in Hlen; lia].
  - destruct Hoi as [_ [c Hcat]].
    rewrite (create_appointment_free _ _ _ _ _ _ _ c Hcat Eat).
    apply IH.
    + apply (save_order_item_consistent oi); [reflexivity|split; eauto|].
      * apply (Forall_inv Hrefs).
      * apply consistent_with_appointments; [|exact Hc].
        simpl. rewrite fmap_app. apply NoDup_app. split; [apply Hc|].
        split; [|apply NoDup_singleton].
        intros k Hk Hk'. apply list_elem_of_singleton in Hk'. subst k.
        revert Hk. apply free_slot_not_in, Eat.
    + eapply Forall_impl; [exact Hrest|]. intros x Hx. exact Hx.
  - apply IH; assumption.
Qed.


(** A row survives the loop untouched when every walked item with its key
    finds its slot taken. *)
Lemma create_appointments_keeps_row
    (user : Z) (items : list OrderItem.t) (db : DB) (r : OrderItem.t) :
  r ∈ rows (order_items db) ->
  (forall oi, oi ∈ items -> OrderItem.pk oi = OrderItem.pk r ->
              appointments_at (item_slot oi) db <> []) ->
  r ∈ rows (order_items (snd (create_appointments user items db))).
Proof.
  revert db. induction items as [|oi rest IH]; intros db Hr Htaken; [exact Hr|].
  simpl.
  destruct (appointments_at (item_slot oi) db) as [|a0 [|a1 l]] eqn:Eat;
    [| |exact Hr].
  - destruct (create_appointment _ _ _ _ _ _ _) as [[appt db1]|] eqn:E; [|exact Hr].
    apply create_appointment_Some in E as (c & _ & _ & _ & ->).
    assert (Hne : OrderItem.pk r <> OrderItem.pk oi).
    { intros Heq. apply (Htaken oi); [left|congruence|exact Eat]. }
    apply IH.
    + simpl. apply list_elem_of_In, in_map_iff. exists r.
      split; [|apply list_elem_of_In, Hr].
      rewrite bool_decide_eq_false_2 by exact Hne. reflexivity.
    + intros oi' Hin Hpk.
      eapply (taken_stays_taken _ db); [simpl; reflexivity|].
      apply Htaken; [right; exact Hin|exact Hpk].
  - apply IH; [exact Hr|]. intros oi' Hin Hpk. apply Htaken; [right; exact Hin|exact Hpk].
Qed.

(** The webhook on a succeeded event that finds its pending order. *)
Lemma webhook_succeeded_unfold (oid : Z) (db : DB) (order : Order.t) (l : list Order.t) :
  pending_orders (Some oid) db = order :: l ->
  Order.pk order = oid
  /\ StripeWebhookView_post (Some (mk_event payment_intent_succeeded (Some oid))) db
     = let db1 := save_order (Order.set_status paid order) db in
       let res := create_appointments (Order.user order) (items_of_order db oid) db1 in
       if fst res
       then (mk_response 200 status_ok,
             match user_cart (snd res) (Order.user order) with
             | Some cart => delete_cart_items (Cart.pk cart) (snd res)
             | None => snd res
             end)
       else (server_error, snd res).
Proof.
  intros Hp.
  assert (Hin : order ∈ pending_orders (Some oid) db) by (rewrite Hp; left).
  apply list_elem_of_filter in Hin as [[Hpk _] _]. inversion Hpk as [Hpk'].
  split; [reflexivity|].
  unfold StripeWebhookView_post. simpl. rewrite Hpk' at 1. rewrite Hp.
  change (items_of_order (save_order (Order.set_status paid order) db) (Order.pk order))
    with (items_of_order db (Order.pk order)).
  destruct (create_appointments _ _ _) as [[|] db2]; reflexivity.
Qed.

(** Whatever the event, the webhook only appends to the ledger, and what it
    appends is settled from an item of a stored order at catalog prices. *)
Lemma webhook_appointments (event : option Event) (db : DB) :
  exists user items new,
    rows (appointments (snd (StripeWebhookView_post event db)))
    = rows (appointments db) ++ new
    /\ Forall (settled_from db user items) new
    /\ (forall oi, oi ∈ items -> oi ∈ rows (order_items db)).
Proof.
  assert (Hsame : forall db', appointments db' = appointments db ->
            exists (user : Z) (items : list OrderItem.t) new,
              rows (appointments db') = rows (appointments db) ++ new
              /\ Forall (settled_from db user items) new
              /\ (forall oi, oi ∈ items -> oi ∈ rows (order_items db))).
  { intros db' ->. exists 0, [], []. rewrite app_nil_r.
    split; [reflexivity|]. split; [constructor|]. intros oi Hoi.
    apply elem_of_nil in Hoi. contradiction. }
  destruct event as [[ty oid]|]; [|apply Hsame; reflexivity].
  destruct ty; [|apply Hsame; reflexivity|apply Hsame; reflexivity].
  destruct (pending_orders oid db) as [|order l] eqn:Ep.
  { apply Hsame. unfold StripeWebhookView_post. simpl. rewrite Ep. reflexivity. }
  destruct oid as [oid|].
  2:{ assert (Hin : order ∈ pending_orders None db) by (rewrite Ep; left).
      apply list_elem_of_filter in Hin as [[Hpk _] _]. discriminate. }
  destruct (webhook_succeeded_unfold oid db order l Ep) as [_ ->]. cbv zeta.
  set (db1 := save_order (Order.set_status paid order) db).
  destruct (create_appointments_rows (Order.user order) (items_of_order db oid) db1)
    as (new & Hrows & Hnew & _).
  exists (Order.user order), (items_of_order db oid), new.
  split; [|split; [exact Hnew|]].
  - destruct (fst (create_appointments _ _ db1)); simpl; [|exact Hrows].
    destruct (user_cart _ _); exact Hrows.
  - intros oi Hoi. apply list_elem_of_filter in Hoi as [_ Hoi]. exact Hoi.
Qed.

(** C9.  An appointment that settlement adds to the ledger carries, at two
    places, the price computed from the catalog as it stands at settlement;
    the unit price and total frozen in the order item it comes from play no
    part.  So when the unit price of the category changed between checkout
    and settlement (both being positive two-place prices whose session price
    has at most ten digits), the order item holds [c0 * (D / 15)] cents, the
    appointment [c1 * (D / 15)] cents, and the two differ.  For instance,
    after a checkout at 45.00 and a change to 60.00 the 60 minute appointment
    is stored at 240.00 while the order item and the order say 180.00; after
    a checkout at 20.00 and a change to 25.00 a 30 minute appointment is
    stored at 50.00 and the order item at 40.00. *)
Theorem C9_settlement_prices_from_current_catalog :
  (forall (event : option Event) (db : DB) (a : Appointment.t),
     a ∈ rows (appointments (snd (StripeWebhookView_post event db))) ->
     a ∉ rows (appointments db) ->
     exists c oi,
       categories db !! Appointment.category a = Some c
       /\ Appointment.total_price a
          = decimal_column
              (price_formula (ConsultationCategory.price_per_15min c)
                             (Appointment.duration a))
       /\ Appointment.is_paid a = true
       /\ oi ∈ rows (order_items db)
       /\ appt_slot a = item_slot oi
       /\ Appointment.duration a = OrderItem.duration oi
       /\ (forall c0 c1,
             OrderItem.unit_price oi = Dec.cents c0 ->
             OrderItem.total_price oi
             = decimal_column (price_formula (OrderItem.unit_price oi)
                                             (OrderItem.duration oi)) ->
             ConsultationCategory.price_per_15min c = Dec.cents c1 ->
             0 < c0 -> 0 < c1 ->
             OrderItem.duration oi ∈ [15; 30; 60; 120] ->
             c0 * (OrderItem.duration oi / 15) < 10 ^ 10 ->
             c1 * (OrderItem.duration oi / 15) < 10 ^ 10 ->
             c0 <> c1 ->
             OrderItem.total_price oi = Dec.cents (c0 * (OrderItem.duration oi / 15))
             /\ Appointment.total_price a
                = Dec.cents (c1 * (OrderItem.duration oi / 15))
             /\ Appointment.total_price a <> OrderItem.total_price oi))
  /\ (let db := run [cart_add 100 7 (Data.mk 1 110 (at_ 10 0) 60);
                     checkout provider_up 7;
                     admin_set_price 1 (Dec.cents 6000);
                     webhook (Some (mk_event payment_intent_succeeded (Some 1)))]
                    sample_db in
      rows (appointments db)
      = [Appointment.mk 1 7 1 110 (at_ 10 0) 60 (Dec.cents 24000) true]
      /\ rows (order_items db)
         = [OrderItem.mk 1 1 1 "Immigration" 110 (at_ 10 0) 60
              (Dec.cents 4500) (Dec.cents 18000) (Some 1)]
      /\ rows (orders db) = [Order.mk 1 7 (Dec.cents 18000) paid "pi_1"])
  /\ (let db := run [cart_add 100 7 (Data.mk 3 110 (at_ 10 0) 30);
                     checkout provider_up 7;
                     admin_set_price 3 (Dec.cents 2500);
                     webhook (Some (mk_event payment_intent_succeeded (Some 1)))]
                    sample_db in
      rows (appointments db)
      = [Appointment.mk 1 7 3 110 (at_ 10 0) 30 (Dec.cents 5000) true]
      /\ rows (order_items db)
         = [OrderItem.mk 1 1 3 "Tax Consulting" 110 (at_ 10 0) 30
              (Dec.cents 2000) (Dec.cents 4000) (Some 1)]
      /\ rows (orders db) = [Order.mk 1 7 (Dec.cents 4000) paid "pi_1"]).
Proof.
  split; [|split].
  - intros event db a Hin Hnot.
    destruct (webhook_appointments event db) as (user & items & new & Hrows & Hnew & Hitems).
    rewrite Hrows in Hin. apply elem_of_app in Hin as [Hin|Hin]; [contradiction|].
    rewrite Forall_forall in Hnew.
    destruct (Hnew a Hin) as (Hpaid & _ & (oi & Hoi & Hs & Hd) & (c & Hc & Hprice)).
    exists c, oi. repeat split; auto.
    + rewrite H0, H. apply decimal_column_price; [|assumption].
      assert (1 <= OrderItem.duration oi / 15).
      { set_unfold in H4. destruct H4 as [->|[->|[->|[->|[]]]]]; vm_compute; discriminate. }
      nia.
    + rewrite Hprice, H1, Hd. apply decimal_column_price; [|assumption].
      assert (1 <= OrderItem.duration oi / 15).
      { set_unfold in H4. destruct H4 as [->|[->|[->|[->|[]]]]]; vm_compute; discriminate. }
      nia.
    + assert (Hk : 1 <= OrderItem.duration oi / 15).
      { set_unfold in H4. destruct H4 as [->|[->|[->|[->|[]]]]]; vm_compute; discriminate. }
      rewrite Hprice, H0, H, H1, Hd.
      rewrite !decimal_column_price by (try assumption; nia).
      intros [= Heq]. nia.
  - vm_compute. repeat split; reflexivity.
  - vm_compute. repeat split; reflexivity.
Qed.

Lemma C9_settlement_prices_witness :
  let db := run [cart_add 100 7 (Data.mk 3 110 (at_ 10 0) 30);
                 checkout provider_up 7;
                 admin_set_price 3 (Dec.cents 2500)] sample_db in
  let a := Appointment.mk 1 7 3 110 (at_ 10 0) 30 (Dec.cents 5000) true in
  let oi := OrderItem.mk 1 1 3 "Tax Consulting" 110 (at_ 10 0) 30
              (Dec.cents 2000) (Dec.cents 4000) None in
  a ∈ rows (appointments
              (snd (StripeWebhookView_post
                      (Some (mk_event payment_intent_succeeded (Some 1))) db)))
  /\ oi ∈ rows (order_items db)
  /\ exists c oi',
       categories db !! Appointment.category a = Some c
       /\ Appointment.total_price a
          = decimal_column
              (price_formula (ConsultationCategory.price_per_15min c)
                             (Appointment.duration a))
       /\ oi' ∈ rows (order_items db)
       /\ appt_slot a = item_slot oi'.
Proof.
  cbv zeta. split; [vm_compute; left|]. split; [vm_compute; left|].
  destruct (proj1 C9_settlement_prices_from_current_catalog
              (Some (mk_event payment_intent_succeeded (Some 1)))
              (run [cart_add 100 7 (Data.mk 3 110 (at_ 10 0) 30);
                    checkout provider_up 7;
                    admin_set_price 3 (Dec.cents 2500)] sample_db)
              (Appointment.mk 1 7 3 110 (at_ 10 0) 30 (Dec.cents 5000) true))
    as (c & oi' & Hc & Hp & _ & Hoi & Hs & _).
  - vm_compute. left.
  - vm_compute. apply not_elem_of_nil.
  - exists c, oi'. auto.
Defined.

Lemma NoDup_fmap_unique {A B : Type} (f : A -> B) (l : list A) (x y : A) :
  NoDup (f <$> l) -> x ∈ l -> y ∈ l -> f x = f y -> x = y.
Proof.
  induction l as [|z l IH]; intros Hnd Hx Hy Hf.
  { apply elem_of_nil in Hx. contradiction. }
  rewrite fmap_cons, NoDup_cons in Hnd. destruct Hnd as [Hz Hnd].
  apply elem_of_cons in Hx as [->|Hx]; apply elem_of_cons in Hy as [->|Hy].
  - reflexivity.
  - exfalso. apply Hz. rewrite Hf. apply list_elem_of_fmap_2, Hy.
  - exfalso. apply Hz. rewrite <- Hf. apply list_elem_of_fmap_2, Hx.
  - apply IH; assumption.
Qed.

(** Checkout does not read the ledger. *)
Lemma create_order_items_with_appointments
    (order_pk : Z) (items : list CartItem.t) (t : Table Appointment.t) (db : DB) :
  create_order_items order_pk items (with_appointments t db)
  = (fst (create_order_items order_pk items db),
     with_appointments t (snd (create_order_items order_pk items db))).
Proof.
  revert db. induction items as [|item rest IH]; intros db; [reflexivity|].
  simpl.
  change (categories (with_appointments t db)) with (categories db).
  destruct (categories db !! CartItem.category item) as [c|]; [|reflexivity].
  match goal with |- _ = (fst (create_order_items _ _ ?d), _) =>
    rewrite <- (IH d) end.
  reflexivity.
Qed.

Lemma checkout_ignores_appointments
    (stripe : Provider) (user : Z) (t : Table Appointment.t) (db : DB) :
  CreateCheckoutSessionView_post stripe user (with_appointments t db)
  = (fst (CreateCheckoutSessionView_post stripe user db),
     with_appointments t (snd (CreateCheckoutSessionView_post stripe user db))).
Proof.
  unfold CreateCheckoutSessionView_post.
  change (user_cart (with_appointments t db) user) with (user_cart db user).
  destruct (user_cart db user) as [cart|]; [|reflexivity].
  change (items_of_cart (with_appointments t db) (Cart.pk cart))
    with (items_of_cart db (Cart.pk cart)).
  destruct (negb _); [reflexivity|].
  change (Cart_total (with_appointments t db) (Cart.pk cart))
    with (Cart_total db (Cart.pk cart)).
  destruct (Cart_total db (Cart.pk cart)) as [total|]; [|reflexivity].
  destruct (Dec.le0 total); [reflexivity|].
  change (orders (with_appointments t db)) with (orders db).
  simpl Order.pk.
  match goal with |- context [create_order_items ?k ?i (with_orders ?o (with_appointments t db))] =>
    change (with_orders o (with_appointments t db))
      with (with_appointments t (with_orders o db));
    rewrite (create_order_items_with_appointments k i t (with_orders o db));
    destruct (create_order_items k i (with_orders o db)) as [[|] db2]
  end; simpl; [|reflexivity].
  destruct (stripe _ _ _); reflexivity.
Qed.

(** Marking an order paid leaves no pending order under its key. *)
Lemma no_pending_after_paid (order : Order.t) (db : DB) :
  pending_orders (Some (Order.pk order)) (save_order (Order.set_status paid order) db) = [].
Proof.
  unfold pending_orders, save_order. simpl.
  apply filter_nil_Forall, Forall_forall. intros o Ho [Hpk Hst].
  apply list_elem_of_In, in_map_iff in Ho as (o0 & <- & _).
  case_bool_decide as Heq.
  - simpl in Hst. discriminate.
  - inversion Hpk. contradiction.
Qed.

(** The settlement of a pending order on consistent data, step by step. *)
Lemma settlement_run (oid : Z) (db : DB) (order : Order.t) (l : list Order.t) :
  consistent db ->
  pending_orders (Some oid) db = order :: l ->
  exists db2,
    let db1 := save_order (Order.set_status paid order) db in
    Order.pk order = oid
    /\ create_appointments (Order.user order) (items_of_order db oid) db1 = (true, db2)
    /\ consistent db2
    /\ fst (StripeWebhookView_post (Some (mk_event payment_intent_succeeded (Some oid))) db)
       = mk_response 200 status_ok
    /\ appointments
         (snd (StripeWebhookView_post (Some (mk_event payment_intent_succeeded (Some oid))) db))
       = appointments db2
    /\ order_items
         (snd (StripeWebhookView_post (Some (mk_event payment_intent_succeeded (Some oid))) db))
       = order_items db2
    /\ orders
         (snd (StripeWebhookView_post (Some (mk_event payment_intent_succeeded (Some oid))) db))
       = orders db1.
Proof.
  intros Hc Hp. destruct (webhook_succeeded_unfold oid db order l Hp) as [Hpk ->].
  cbv zeta. set (db1 := save_order (Order.set_status paid order) db).
  assert (H1 : consistent db1) by apply save_order_consistent, Hc.
  assert (Hrefs : Forall (order_item_refs db1) (items_of_order db oid)).
  { apply Forall_forall. intros oi Hin. apply list_elem_of_filter in Hin as [_ Hin].
    pose proof (cons_refs _ H1) as Hr. rewrite Forall_forall in Hr. apply Hr, Hin. }
  pose proof (create_appointments_completes (Order.user order) _ db1 H1 Hrefs) as Hflag.
  pose proof (create_appointments_consistent (Order.user order) _ db1 Hrefs H1) as H2.
  destruct (create_appointments_rows (Order.user order) (items_of_order db oid) db1)
    as (_ & _ & _ & _ & Hord & _).
  destruct (create_appointments (Order.user order) (items_of_order db oid) db1)
    as [flag db2]. simpl in Hflag, H2, Hord. subst flag.
  exists db2. simpl.
  split; [exact Hpk|]. split; [reflexivity|]. split; [exact H2|].
  split; [reflexivity|].
  destruct (user_cart db2 (Order.user order)); simpl; auto.
Qed.

Lemma appointments_at_same (k : slot) (db db' : DB) :
  appointments db = appointments db' -> appointments_at k db = appointments_at k db'.
Proof. unfold appointments_at. intros ->. reflexivity. Qed.

Lemma appointments_at_rows (k : slot) (db db' : DB) (new : list Appointment.t) :
  rows (appointments db') = rows (appointments db) ++ new ->
  appointments_at k db'
  = appointments_at k db ++ filter (fun a => appt_slot a = k) new.
Proof. unfold appointments_at. intros ->. apply filter_app. Qed.

(** C10.  An unpaid appointment on a slot does not keep that slot out of a
    cart (the guard looks at paid appointments only) and checkout does not
    read the ledger at all.  At settlement the lookup of the slot finds the
    unpaid appointment: no appointment is created for the item, the item
    stays as it was (its link to an appointment still null), the order is
    marked paid and the webhook answers 200. *)
Theorem C10_unpaid_appointment_is_met_at_settlement_only :
  (forall (today user : Z) (data : Data.t) (db : DB),
     is_Some (categories db !! Data.category data) ->
     today <= Data.date data ->
     Data.duration data ∈ [15; 30; 60; 120] ->
     Forall (fun a => Appointment.is_paid a = false)
            (appointments_at (Data.slot_of data) db) ->
     AddToCartSerializer.is_valid today db data = inr data
     /\ exists item,
          rows (cart_items (snd (CartView_post today user data db)))
          = rows (cart_items db) ++ [item]
          /\ (CartItem.category item, CartItem.date item, CartItem.time item)
             = Data.slot_of data)
  /\ (forall (stripe : Provider) (user : Z) (t : Table Appointment.t) (db : DB),
        CreateCheckoutSessionView_post stripe user (with_appointments t db)
        = (fst (CreateCheckoutSessionView_post stripe user db),
           with_appointments t (snd (CreateCheckoutSessionView_post stripe user db))))
  /\ (forall (oid : Z) (db : DB) (order : Order.t) (l : list Order.t)
             (oi : OrderItem.t) (a0 : Appointment.t),
        consistent db ->
        pending_orders (Some oid) db = order :: l ->
        oi ∈ items_of_order db oid ->
        appointments_at (item_slot oi) db = [a0] ->
        Appointment.is_paid a0 = false ->
        OrderItem.appointment oi = None ->
        let r := StripeWebhookView_post
                   (Some (mk_event payment_intent_succeeded (Some oid))) db in
        fst r = mk_response 200 status_ok
        /\ appointments_at (item_slot oi) (snd r) = [a0]
        /\ (forall x, x ∈ rows (order_items (snd r)) ->
                      OrderItem.pk x = OrderItem.pk oi ->
                      x = oi /\ OrderItem.appointment x = None)
        /\ oi ∈ rows (order_items (snd r))
        /\ Order.set_status paid order ∈ rows (orders (snd r))).
Proof.
  split; [|split].
  - intros today user data db Hcat Hdate Hdur Hunpaid.
    assert (Hv : AddToCartSerializer.is_valid today db data = inr data).
    { apply cart_is_valid_iff. repeat split; auto.
      unfold paid_appointments_at. apply filter_nil_Forall.
      eapply Forall_impl; [exact Hunpaid|]. simpl. intros a Ha. rewrite Ha. discriminate. }
    split; [exact Hv|]. unfold CartView_post. rewrite Hv.
    unfold get_or_create_cart. destruct (user_cart db user) as [cart|]; simpl.
    + eexists. split; reflexivity.
    + eexists. split; reflexivity.
  - intros. apply checkout_ignores_appointments.
  - intros oid db order l oi a0 Hc Hp Hoi Hat Hunpaid Hlink r. subst r.
    destruct (settlement_run oid db order l Hc Hp)
      as (db2 & Hpk & Hrun & H2 & Hresp & Happ & Hitems & Hord).
    cbv zeta in Hrun, Hord.
    set (db1 := save_order (Order.set_status paid order) db) in *.
    assert (Hoi' : oi ∈ rows (order_items db)).
    { apply list_elem_of_filter in Hoi as [_ Hoi]. exact Hoi. }
    destruct (create_appointments_rows (Order.user order) (items_of_order db oid) db1)
      as (new & Hrows & _).
    rewrite Hrun in Hrows. simpl in Hrows.
    assert (Hkeep : oi ∈ rows (order_items db2)).
    { pose proof (create_appointments_keeps_row (Order.user order)
                    (items_of_order db oid) db1 oi Hoi') as Hk.
      rewrite Hrun in Hk. apply Hk.
      intros x Hx Hxpk. apply list_elem_of_filter in Hx as [_ Hx].
      assert (x = oi).
      { destruct (cons_order_items _ Hc) as [_ Hnd].
        eapply (NoDup_fmap_unique OrderItem.pk); eassumption. }
      subst x. change (appointments_at (item_slot oi) db1)
        with (appointments_at (item_slot oi) db). rewrite Hat. discriminate. }
    split; [exact Hresp|]. split; [|split; [|split]].
    + rewrite (appointments_at_same _ _ db2 Happ).
      pose proof (appointments_at_rows (item_slot oi) db db2 new Hrows) as Hsplit.
      pose proof (unique_slots_at_most_one db2 (item_slot oi) (cons_slots _ H2)) as Hlen.
      rewrite Hsplit, Hat in Hlen |- *.
      destruct (filter _ new); [reflexivity|simpl in Hlen; lia].
    + intros x Hx Hxpk. rewrite Hitems in Hx.
      assert (x = oi).
      { destruct (cons_order_items _ H2) as [_ Hnd].
        eapply (NoDup_fmap_unique OrderItem.pk); eassumption. }
      subst x. split; [reflexivity|exact Hlink].
    + rewrite Hitems. exact Hkeep.
    + rewrite Hord. simpl.
      assert (Hin : order ∈ rows (orders db)).
      { assert (Hin : order ∈ pending_orders (Some oid) db) by (rewrite Hp; left).
        apply list_elem_of_filter in Hin as [_ Hin]. exact Hin. }
      apply list_elem_of_In, in_map_iff. exists order.
      split; [|apply list_elem_of_In, Hin].
      rewrite bool_decide_eq_true_2 by reflexivity. reflexivity.
Qed.

(** User 7 books 10:00 directly and does not pay; user 8 stages the same
    slot, checks out and pays. *)
Lemma C10_unpaid_appointment_witness :
  let db := run [book 100 7 (Data.mk 1 110 (at_ 10 0) 60);
                 cart_add 100 8 (Data.mk 1 110 (at_ 10 0) 30);
                 checkout provider_up 8] sample_db in
  let oi := OrderItem.mk 1 1 1 "Immigration" 110 (at_ 10 0) 30
              (Dec.cents 4500) (Dec.cents 9000) None in
  let a0 := Appointment.mk 1 7 1 110 (at_ 10 0) 60 (Dec.cents 18000) false in
  let r := StripeWebhookView_post
             (Some (mk_event payment_intent_succeeded (Some 1))) db in
  fst r = mk_response 200 status_ok
  /\ appointments_at (item_slot oi) (snd r) = [a0]
  /\ (forall x, x ∈ rows (order_items (snd r)) ->
                OrderItem.pk x = OrderItem.pk oi ->
                x = oi /\ OrderItem.appointment x = None)
  /\ oi ∈ rows (order_items (snd r))
  /\ Order.set_status paid (Order.mk 1 8 (Dec.cents 9000) pending "pi_1")
     ∈ rows (orders (snd r)).
Proof.
  cbv zeta.
  apply (proj2 (proj2 C10_unpaid_appointment_is_met_at_settlement_only) 1
           (run [book 100 7 (Data.mk 1 110 (at_ 10 0) 60);
                 cart_add 100 8 (Data.mk 1 110 (at_ 10 0) 30);
                 checkout provider_up 8] sample_db)
           (Order.mk 1 8 (Dec.cents 9000) pending "pi_1") []).
  - apply run_consistent, consistent_init.
  - vm_compute. reflexivity.
  - vm_compute. left.
  - vm_compute. reflexivity.
  - reflexivity.
  - reflexivity.
Defined.





(** * Further properties of the booking and ordering code *)

(** ** Direct booking *)

(** X1.  Direct booking passes validation exactly when the category exists,
    the date is not before today, the start lies in [09:00, 18:00), the
    duration is one of 15, 30, 60 and 120 minutes, the session ends at 18:00
    at the latest, and no appointment holds the (category, date, time). *)
Theorem X1_direct_booking_accepts_iff (today : Z) (db : DB) (data : Data.t) :
  CreateAppointmentSerializer.is_valid today db data = inr data <->
    is_Some (categories db !! Data.category data)
    /\ today <= Data.date data
    /\ time_us WORKING_HOURS_START <= time_us (Data.time data) < time_us WORKING_HOURS_END
    /\ Data.duration data ∈ [15; 30; 60; 120]
    /\ time_us (Data.time data) + Data.duration data * 60000000
       <= time_us WORKING_HOURS_END
    /\ appointments_at (Data.slot_of data) db = [].
Proof. apply direct_is_valid_iff. Qed.

(** X2.  Adding to the cart passes validation exactly when the category
    exists, the date is not before today, the duration is one of the four and
    no paid appointment holds the slot; the start time plays no part. *)
Theorem X2_cart_add_accepts_iff (today : Z) (db : DB) (data : Data.t) :
  AddToCartSerializer.is_valid today db data = inr data <->
    is_Some (categories db !! Data.category data)
    /\ today <= Data.date data
    /\ Data.duration data ∈ [15; 30; 60; 120]
    /\ paid_appointments_at (Data.slot_of data) db = [].
Proof. apply cart_is_valid_iff. Qed.

(** Validation hands the data back unchanged. *)
Lemma direct_is_valid_same (today : Z) (db : DB) (data d : Data.t) :
  CreateAppointmentSerializer.is_valid today db data = inr d -> d = data.
Proof.
  rewrite direct_is_valid_inr.
  intros [_ Hv]. unfold CreateAppointmentSerializer.validate in Hv.
  destruct (negb _ && _); [discriminate|].
  destruct (exists_ _); [discriminate|]. inversion Hv. reflexivity.
Qed.

Lemma cart_is_valid_same (today : Z) (db : DB) (data d : Data.t) :
  AddToCartSerializer.is_valid today db data = inr d -> d = data.
Proof.
  unfold AddToCartSerializer.is_valid. rewrite run_validation_inr.
  intros [_ Hv]. unfold AddToCartSerializer.validate in Hv.
  destruct (exists_ _); [discriminate|]. inversion Hv. reflexivity.
Qed.

(** X3.  A direct booking has three outcomes.  Either validation fails: the
    answer is 400 and nothing is written; the errors are those of the fields
    when a field is invalid, else the conflict of the unique (category, date,
    time) when the slot is taken, else the end after working hours.  Or the
    booking is saved: one unpaid appointment of the requesting user is
    appended to the ledger under the next key, with the requested fields and
    the price computed from the catalog, held at two places, and no other
    table changes.  The answer is then 201 with the stored appointment,
    unless the unit price or the price has more than ten digits at two
    places: then the answer is 500, the appointment being saved all the
    same.  For a positive two-place unit price whose session price has at
    most ten digits the stored price is exactly [p * (D / 15)] cents and the
    answer is 201. *)
Theorem X3_booking_outcomes (today user : Z) (data : Data.t) (db : DB) :
  (exists errs,
     CreateAppointmentSerializer.is_valid today db data = inl errs
     /\ AppointmentCreateView_create today user data db
        = (mk_response 400 (validation_errors errs), db)
     /\ errs = match CreateAppointmentSerializer.field_errors today db data with
               | [] =>
                   if exists_ (appointments_at (Data.slot_of data) db)
                   then [("non_field_errors"%string, unique_set)]
                   else [("non_field_errors"%string, ends_after_working_hours)]
               | fe => fe
               end)
  \/ (exists c,
        categories db !! Data.category data = Some c
        /\ let a := Appointment.mk (next_pk (appointments db)) user
                      (Data.category data) (Data.date data) (Data.time data)
                      (Data.duration data)
                      (decimal_column
                         (price_formula (ConsultationCategory.price_per_15min c)
                                        (Data.duration data)))
                      false in
           let r := AppointmentCreateView_create today user data db in
           snd r
           = with_appointments
               (mk_table (rows (appointments db) ++ [a])
                         (next_pk (appointments db) + 1))
               db
           /\ (fst r = mk_response 201 (appointment_body a) \/ fst r = server_error)
           /\ (fst r = server_error
               <-> DecimalField_to_representation
                     (ConsultationCategory.price_per_15min c) = None
                   \/ DecimalField_to_representation (Appointment.total_price a) = None)
           /\ (forall p,
                 ConsultationCategory.price_per_15min c = Dec.cents p ->
                 0 < p -> p * (Data.duration data / 15) < 10 ^ 10 ->
                 Appointment.total_price a = Dec.cents (p * (Data.duration data / 15))
                 /\ fst r = mk_response 201 (appointment_body a))).
Proof.
  destruct (CreateAppointmentSerializer.is_valid today db data) as [errs|d] eqn:Ev.
  { left. exists errs. split; [reflexivity|].
    split; [unfold AppointmentCreateView_create; rewrite Ev; reflexivity|].
    revert Ev.
    unfold CreateAppointmentSerializer.is_valid, run_validation,
      CreateAppointmentSerializer.validators, CreateAppointmentSerializer.validate.
    destruct (CreateAppointmentSerializer.field_errors today db data) as [|e es];
      [|intros [= <-]; reflexivity].
    cbv zeta.
    destruct (exists_ (appointments_at (Data.slot_of data) db)) eqn:Ex;
      [intros [= <-]; reflexivity|].
    destruct (negb _ && _); [intros [= <-]; reflexivity|discriminate]. }
  right. pose proof (direct_is_valid_same _ _ _ _ Ev) as ->.
  pose proof Ev as Hfields.
  apply direct_is_valid_iff in Hfields as ([c Hc] & _ & _ & Hdur & _).
  exists c. split; [exact Hc|]. cbv zeta.
  rewrite (book_free_slot today user data db c Ev Hc). cbv zeta. simpl fst. simpl snd.
  set (a := Appointment.mk _ _ _ _ _ _ _ _).
  set (db' := with_appointments _ db).
  assert (Hst : AppointmentSerializer_data db' a
                = match DecimalField_to_representation
                          (ConsultationCategory.price_per_15min c),
                        DecimalField_to_representation (Appointment.total_price a) with
                  | Some _, Some _ => Some a
                  | _, _ => None
                  end).
  { apply AppointmentSerializer_data_stored; [exact Hc|apply decimal_column_exp]. }
  rewrite Hst. split; [reflexivity|]. split; [|split].
  - destruct (DecimalField_to_representation _); [|right; reflexivity].
    destruct (DecimalField_to_representation _); [left|right]; reflexivity.
  - destruct (DecimalField_to_representation (ConsultationCategory.price_per_15min c));
      [|split; auto].
    destruct (DecimalField_to_representation (Appointment.total_price a));
      [|split; auto].
    split; [discriminate|]. intros [H|H]; discriminate.
  - intros p Hp Hp0 Hfit.
    assert (Hk : 1 <= Data.duration data / 15).
    { set_unfold in Hdur. destruct Hdur as [->|[->|[->|[->|[]]]]]; vm_compute; discriminate. }
    assert (Hp10 : 0 < p < 10 ^ 10) by nia.
    assert (Hprice : Appointment.total_price a = Dec.cents (p * (Data.duration data / 15))).
    { unfold a. simpl. rewrite Hp. apply decimal_column_price; assumption. }
    split; [exact Hprice|].
    rewrite Hp, (to_representation_cents p Hp10), Hprice.
    rewrite to_representation_cents by nia. reflexivity.
Qed.

(** ** Cancelling *)

(** In a table with unique keys the rows with the key of a row are that row. *)
Lemma filter_key_unique {A : Type} (pk : A -> Z) (l : list A) (a : A) :
  NoDup (pk <$> l) -> a ∈ l -> filter (fun x => pk x = pk a) l = [a].
Proof.
  induction l as [|x l IH]; intros Hnd Ha.
  { apply elem_of_nil in Ha. contradiction. }
  rewrite fmap_cons, NoDup_cons in Hnd. destruct Hnd as [Hx Hnd].
  rewrite filter_cons. apply elem_of_cons in Ha as [->|Ha].
  - rewrite decide_True by reflexivity. f_equal.
    apply filter_nil_Forall, Forall_forall. intros y Hy Hpk.
    apply Hx. rewrite <- Hpk. apply list_elem_of_fmap_2, Hy.
  - destruct (decide (pk x = pk a)) as [Heq|Hne].
    + exfalso. apply Hx. rewrite Heq. apply list_elem_of_fmap_2, Ha.
    + apply IH; assumption.
Qed.

Lemma filter_and_key {A : Type} (pk : A -> Z) (P : A -> Prop)
    `{!forall x, Decision (P x)} (l : list A) (a : A) :
  NoDup (pk <$> l) -> a ∈ l ->
  filter (fun x => P x /\ pk x = pk a) l = if decide (P a) then [a] else [].
Proof.
  intros Hnd Ha.
  rewrite <- (list_filter_filter P (fun x => pk x = pk a)).
  rewrite (filter_key_unique pk l a Hnd Ha).
  rewrite filter_cons, filter_nil. destruct (decide (P a)); reflexivity.
Qed.

(** What the owner's cancellation of an unpaid appointment writes. *)
Lemma destroy_unpaid (user : Z) (a : Appointment.t) (db : DB) :
  keyed Appointment.pk (appointments db) ->
  a ∈ rows (appointments db) ->
  Appointment.user a = user ->
  Appointment.is_paid a = false ->
  AppointmentDetailView_destroy user (Appointment.pk a) db
  = (mk_response 204 (message "Appointment cancelled successfully."),
     with_order_items
       (mk_table (map (fun oi => if bool_decide (OrderItem.appointment oi
                                                 = Some (Appointment.pk a))
                                 then OrderItem.set_appointment None oi else oi)
                      (rows (order_items db)))
                 (next_pk (order_items db)))
       (with_appointments
          (mk_table (filter (fun b => Appointment.pk b <> Appointment.pk a)
                            (rows (appointments db)))
                    (next_pk (appointments db)))
          db)).
Proof.
  intros [_ Hnd] Ha Hu Hunpaid.
  pose proof (filter_and_key Appointment.pk (fun x => Appointment.user x = user)
                (rows (appointments db)) a Hnd Ha) as Hf.
  unfold AppointmentDetailView_destroy.
  rewrite Hf, decide_True by exact Hu. rewrite Hunpaid. reflexivity.
Qed.

(** X4.  Cancelling an appointment whose key is in the ledger (keys being
    unique): someone who is not its owner gets 404 and a paid appointment is
    refused with 400, nothing being written in either case; the owner of an
    unpaid appointment gets 204, exactly that appointment leaves the ledger,
    no order item points at it any more, and carts, cart items, orders and
    catalog are untouched.  A key that matches no appointment of the user
    gives 404. *)
Theorem X4_cancel_outcomes (user p : Z) (a : Appointment.t) (db : DB) :
  keyed Appointment.pk (appointments db) ->
  a ∈ rows (appointments db) ->
  (Appointment.user a <> user ->
   AppointmentDetailView_destroy user (Appointment.pk a) db
   = (mk_response 404 (error "Not found."), db))
  /\ (Appointment.user a = user -> Appointment.is_paid a = true ->
      AppointmentDetailView_destroy user (Appointment.pk a) db
      = (mk_response 400
           (error "Paid appointments cannot be cancelled directly. Please contact support."),
         db))
  /\ (Appointment.user a = user -> Appointment.is_paid a = false ->
      let r := AppointmentDetailView_destroy user (Appointment.pk a) db in
      status_code (fst r) = 204
      /\ (forall b, b ∈ rows (appointments (snd r))
                    <-> b ∈ rows (appointments db) /\ b <> a)
      /\ (forall oi, oi ∈ rows (order_items (snd r)) ->
                     OrderItem.appointment oi <> Some (Appointment.pk a))
      /\ carts (snd r) = carts db
      /\ cart_items (snd r) = cart_items db
      /\ orders (snd r) = orders db
      /\ categories (snd r) = categories db)
  /\ ((forall b, b ∈ rows (appointments db) ->
                 ~ (Appointment.user b = user /\ Appointment.pk b = p)) ->
      AppointmentDetailView_destroy user p db
      = (mk_response 404 (error "Not found."), db)).
Proof.
  intros [_ Hnd] Ha.
  pose proof (filter_and_key Appointment.pk (fun x => Appointment.user x = user)
                (rows (appointments db)) a Hnd Ha) as Hf.
  unfold AppointmentDetailView_destroy.
  split; [|split; [|split]].
  - intros Hne. rewrite Hf, decide_False by exact Hne. reflexivity.
  - intros Hu Hpaid. rewrite Hf, decide_True by exact Hu. rewrite Hpaid. reflexivity.
  - intros Hu Hunpaid. rewrite Hf, decide_True by exact Hu. rewrite Hunpaid. simpl.
    split; [reflexivity|]. split; [|split; [|repeat split]].
    + intros b. rewrite list_elem_of_filter. split.
      * intros [Hpk Hb]. split; [exact Hb|]. intros ->. apply Hpk. reflexivity.
      * intros [Hb Hba]. split; [|exact Hb]. intros Hpk. apply Hba.
        eapply (NoDup_fmap_unique Appointment.pk); eassumption.
    + intros oi Hoi Hlink.
      apply list_elem_of_In, in_map_iff in Hoi as (r0 & <- & _).
      case_bool_decide as Hr0; simpl in Hlink; [discriminate|contradiction].
  - intros Hnone.
    assert (Hnil : filter (fun a0 => Appointment.user a0 = user /\ Appointment.pk a0 = p)
                          (rows (appointments db)) = []).
    { apply filter_nil_Forall, Forall_forall. exact Hnone. }
    rewrite Hnil. reflexivity.
Qed.

Lemma X4_cancel_outcomes_witness :
  let db := run [book 100 7 (Data.mk 1 110 (at_ 10 0) 60)] sample_db in
  let a := Appointment.mk 1 7 1 110 (at_ 10 0) 60 (Dec.cents 18000) false in
  AppointmentDetailView_destroy 8 1 db = (mk_response 404 (error "Not found."), db)
  /\ status_code (fst (AppointmentDetailView_destroy 7 1 db)) = 204
  /\ rows (appointments (snd (AppointmentDetailView_destroy 7 1 db))) = [].
Proof.
  cbv zeta.
  destruct (X4_cancel_outcomes 8 1
              (Appointment.mk 1 7 1 110 (at_ 10 0) 60 (Dec.cents 18000) false)
              (run [book 100 7 (Data.mk 1 110 (at_ 10 0) 60)] sample_db))
    as (H404 & _ & _ & _).
  - vm_compute. split; repeat constructor. intros H. inversion H.
  - vm_compute. left.
  - split; [apply H404; discriminate|]. vm_compute. split; reflexivity.
Defined.

(** X5.  Cancelling frees the slot: once the owner has cancelled an unpaid
    appointment (slots and keys being unique), no appointment holds its slot,
    so a booking of that slot that passes the other checks passes validation
    and is saved, whoever asks.  It is answered 201, unless its prices
    cannot be rendered in ten digits (the answer is then 500); they can for
    every positive two-place unit price whose session price has at most ten
    digits. *)
Theorem X5_cancel_frees_the_slot
    (user today u : Z) (a : Appointment.t) (data : Data.t) (db : DB) :
  keyed Appointment.pk (appointments db) ->
  unique_slots db ->
  a ∈ rows (appointments db) ->
  Appointment.user a = user ->
  Appointment.is_paid a = false ->
  let db' := snd (AppointmentDetailView_destroy user (Appointment.pk a) db) in
  appointments_at (appt_slot a) db' = []
  /\ (Data.slot_of data = appt_slot a ->
      CreateAppointmentSerializer.is_valid today (with_appointments empty_table db') data
      = inr data ->
      let r := AppointmentCreateView_create today u data db' in
      CreateAppointmentSerializer.is_valid today db' data = inr data
      /\ exists b,
           rows (appointments (snd r)) = rows (appointments db') ++ [b]
           /\ appt_slot b = appt_slot a
           /\ Appointment.user b = u
           /\ status_code (fst r)
              = match AppointmentSerializer_data (snd r) b with
                | Some _ => 201
                | None => 500
                end
           /\ (forall c p,
                 categories db' !! Data.category data = Some c ->
                 ConsultationCategory.price_per_15min c = Dec.cents p ->
                 0 < p -> p * (Data.duration data / 15) < 10 ^ 10 ->
                 status_code (fst r) = 201)).
Proof.
  intros Hk Hu Ha Huser Hunpaid db'. subst db'.
  rewrite (destroy_unpaid user a db Hk Ha Huser Hunpaid). simpl snd.
  set (db' := with_order_items _ _).
  assert (Hfree : appointments_at (appt_slot a) db' = []).
  { unfold appointments_at, db'. simpl.
    apply filter_nil_Forall, Forall_forall. intros b Hb Hs.
    apply list_elem_of_filter in Hb as [Hpk Hb]. apply Hpk. f_equal.
    eapply (NoDup_fmap_unique appt_slot); eassumption. }
  split; [exact Hfree|]. intros Hslot Hother. cbv zeta.
  pose proof (direct_is_valid_but_for_slot today db' data Hother) as Hv.
  rewrite Hslot, Hfree in Hv. simpl in Hv.
  split; [exact Hv|].
  destruct (book_saved today u data db' Hv) as (b & Hrows & Hs & Hub & _ & _ & Hr & Hfit).
  exists b. split; [exact Hrows|]. split; [congruence|]. split; [exact Hub|].
  split.
  - rewrite Hr. destruct (AppointmentSerializer_data _ b); reflexivity.
  - intros c p Hc Hp Hp0 Hlt. destruct (Hfit c p Hc Hp Hp0 Hlt) as [_ ->]. reflexivity.
Qed.

Lemma X5_cancel_frees_the_slot_witness :
  let db := run [book 100 7 (Data.mk 1 110 (at_ 10 0) 60)] sample_db in
  let db' := snd (AppointmentDetailView_destroy 7 1 db) in
  appointments_at (1, 110, at_ 10 0) db' = []
  /\ status_code
       (fst (AppointmentCreateView_create 100 8 (Data.mk 1 110 (at_ 10 0) 30) db'))
     = 201.
Proof.
  cbv zeta.
  destruct (X5_cancel_frees_the_slot 7 100 8
              (Appointment.mk 1 7 1 110 (at_ 10 0) 60 (Dec.cents 18000) false)
              (Data.mk 1 110 (at_ 10 0) 30)
              (run [book 100 7 (Data.mk 1 110 (at_ 10 0) 60)] sample_db))
    as (Hfree & Hbook).
  - vm_compute. split; repeat constructor. intros H. inversion H.
  - apply run_consistent, consistent_init.
  - vm_compute. left.
  - reflexivity.
  - reflexivity.
  - split; [exact Hfree|].
    destruct Hbook as (_ & b & _ & _ & _ & _ & Hfit);
      [vm_compute; reflexivity|vm_compute; reflexivity|].
    apply (Hfit immigration 4500); [reflexivity|reflexivity|lia|vm_compute; reflexivity].
Defined.

(** ** Keys, carts and what requests leave alone *)

Lemma with_appointments_id (db : DB) : with_appointments (appointments db) db = db.
Proof. destruct db. reflexivity. Qed.

(** Checkout writes orders and order items only. *)
Lemma checkout_frame (stripe : Provider) (user : Z) (db : DB) :
  appointments (snd (CreateCheckoutSessionView_post stripe user db)) = appointments db
  /\ carts (snd (CreateCheckoutSessionView_post stripe user db)) = carts db
  /\ cart_items (snd (CreateCheckoutSessionView_post stripe user db)) = cart_items db
  /\ categories (snd (CreateCheckoutSessionView_post stripe user db)) = categories db.
Proof.
  unfold CreateCheckoutSessionView_post.
  destruct (user_cart db user) as [cart|]; [|auto].
  destruct (negb _); [auto|].
  destruct (Cart_total db (Cart.pk cart)) as [total|]; [|auto].
  destruct (Dec.le0 total); [auto|].
  simpl Order.pk.
  match goal with |- context [create_order_items ?k ?i ?d] =>
    destruct (create_order_items_rows k i d) as (new & Hdb2 & _);
    destruct (create_order_items k i d) as [[|] db2]
  end; simpl in Hdb2; subst db2; [|auto].
  destruct (stripe _ _ _); auto.
Qed.

(** The webhook leaves carts and catalog alone, and removes cart items by
    whole carts only. *)
Lemma webhook_frame (event : option Event) (db : DB) :
  carts (snd (StripeWebhookView_post event db)) = carts db
  /\ categories (snd (StripeWebhookView_post event db)) = categories db
  /\ (cart_items (snd (StripeWebhookView_post event db)) = cart_items db
      \/ exists order cart,
           order ∈ rows (orders db)
           /\ user_cart db (Order.user order) = Some cart
           /\ cart_items (snd (StripeWebhookView_post event db))
              = mk_table (filter (fun i => CartItem.cart i <> Cart.pk cart)
                                 (rows (cart_items db)))
                         (next_pk (cart_items db))).
Proof.
  unfold StripeWebhookView_post.
  destruct event as [ev|]; [|auto].
  destruct (event_type ev); [|auto|auto].
  destruct (pending_orders (order_id ev) db) as [|order l] eqn:Hp; [auto|].
  set (db1 := save_order (Order.set_status paid order) db).
  destruct (create_appointments_rows (Order.user order)
              (items_of_order db1 (Order.pk order)) db1)
    as (new & _ & _ & Hcat & _ & Hcarts & Hci).
  assert (Hsame : forall db2, cart_items db2 = cart_items db -> carts db2 = carts db ->
                    user_cart db2 (Order.user order) = user_cart db (Order.user order)).
  { intros db2 _ Hc. unfold user_cart. rewrite Hc. reflexivity. }
  destruct (create_appointments _ _ db1) as [[|] db2]; simpl in *; [|auto].
  rewrite (Hsame db2 Hci Hcarts).
  destruct (user_cart db (Order.user order)) as [cart|] eqn:Hcart; simpl; [|auto].
  split; [exact Hcarts|]. split; [exact Hcat|]. right. exists order, cart.
  split; [|split; [first [exact Hcart|reflexivity]|]].
  - assert (Hin : order ∈ pending_orders (order_id ev) db) by (rewrite Hp; left).
    apply list_elem_of_filter in Hin as [_ Hin]. exact Hin.
  - unfold delete_cart_items. simpl. rewrite Hci. reflexivity.
Qed.

Lemma well_keyed_init (catalog : gmap Z ConsultationCategory.t) :
  well_keyed (init_db catalog).
Proof.
  constructor; simpl; try apply keyed_empty; try apply NoDup_nil_2; constructor.
Qed.

(** The keys depend on three tables only. *)
Lemma well_keyed_same (db db' : DB) :
  appointments db' = appointments db -> carts db' = carts db ->
  cart_items db' = cart_items db -> well_keyed db -> well_keyed db'.
Proof.
  intros Ha Hc Hi [H1 H2 H3 H4 H5]. constructor; rewrite ?Ha, ?Hc, ?Hi; assumption.
Qed.

Lemma well_keyed_with_appointments (t : Table Appointment.t) (db : DB) :
  keyed Appointment.pk t -> well_keyed db -> well_keyed (with_appointments t db).
Proof. intros Ht [H1 H2 H3 H4 H5]. constructor; assumption. Qed.

Lemma well_keyed_with_cart_items (t : Table CartItem.t) (db : DB) :
  keyed CartItem.pk t ->
  Forall (fun i => CartItem.cart i ∈ Cart.pk <$> rows (carts db)) (rows t) ->
  well_keyed db -> well_keyed (with_cart_items t db).
Proof. intros Ht Hr [H1 H2 H3 H4 H5]. constructor; assumption. Qed.

Lemma Forall_filter_keep {A : Type} (P Q : A -> Prop) `{!forall x, Decision (Q x)}
    (l : list A) :
  Forall P l -> Forall P (filter Q l).
Proof.
  intros Hall. apply Forall_forall. intros x Hx.
  apply list_elem_of_filter in Hx as [_ Hx].
  rewrite Forall_forall in Hall. auto.
Qed.

Lemma create_appointment_well_keyed
    (user category date : Z) (time : dt_time) (duration : Z) (is_paid : bool)
    (db : DB) (a : Appointment.t) (db' : DB) :
  create_appointment user category date time duration is_paid db = Some (a, db') ->
  well_keyed db -> well_keyed db'.
Proof.
  intros H Hw. apply create_appointment_Some in H as (c & _ & _ & -> & ->).
  apply well_keyed_with_appointments; [|exact Hw].
  apply (keyed_insert Appointment.pk
           (fun pk => Appointment.mk pk user category date time duration
                        (decimal_column
                           (price_formula (ConsultationCategory.price_per_15min c)
                                          duration))
                        is_paid));
    [reflexivity|apply Hw].
Qed.

Lemma create_appointments_well_keyed (user : Z) (items : list OrderItem.t) (db : DB) :
  well_keyed db -> well_keyed (snd (create_appointments user items db)).
Proof.
  revert db. induction items as [|oi rest IH]; intros db Hw; [exact Hw|].
  simpl. destruct (appointments_at (item_slot oi) db) as [|a0 [|a1 l]]; [| |exact Hw].
  - destruct (create_appointment _ _ _ _ _ _ _) as [[appt db1]|] eqn:E; [|exact Hw].
    apply IH. eapply (well_keyed_same db1); try reflexivity.
    eapply create_appointment_well_keyed; eassumption.
  - apply IH, Hw.
Qed.

(** The cart the view works on: the user's stored cart, created if absent. *)
Lemma get_or_create_cart_spec (user : Z) (db : DB) :
  well_keyed db ->
  let r := get_or_create_cart user db in
  well_keyed (snd r)
  /\ fst r ∈ rows (carts (snd r))
  /\ Cart.user (fst r) = user
  /\ user_cart (snd r) user = Some (fst r)
  /\ appointments (snd r) = appointments db
  /\ cart_items (snd r) = cart_items db
  /\ (forall c, c ∈ rows (carts db) -> c ∈ rows (carts (snd r))).
Proof.
  intros Hw. unfold get_or_create_cart, user_cart.
  destruct (filter (fun c => Cart.user c = user) (rows (carts db))) as [|c l] eqn:Hf;
    simpl.
  - destruct Hw as [H1 H2 H3 H4 H5].
    assert (Hnew : user ∉ Cart.user <$> rows (carts db)).
    { intros Hin. apply list_elem_of_fmap in Hin as (c & Hc & Hin).
      exact (filter_nil_not_elem_of _ _ c Hf (eq_sym Hc) Hin). }
    split.
    { constructor; simpl.
      - exact H1.
      - apply (keyed_insert Cart.pk (fun pk => Cart.mk pk user)); [reflexivity|exact H2].
      - rewrite fmap_app. apply NoDup_app. split; [exact H3|].
        split; [|apply NoDup_singleton].
        intros u Hu Hu'. apply list_elem_of_singleton in Hu'. subst u. contradiction.
      - exact H4.
      - eapply Forall_impl; [exact H5|]. simpl. intros i Hi.
        rewrite fmap_app. apply elem_of_app. left. exact Hi. }
    split; [apply elem_of_app; right; left|].
    split; [reflexivity|].
    split.
    { rewrite filter_app, Hf. simpl. rewrite filter_cons, decide_True by reflexivity.
      reflexivity. }
    split; [reflexivity|]. split; [reflexivity|].
    intros c Hc. apply elem_of_app. left. exact Hc.
  - assert (Hin : c ∈ filter (fun c => Cart.user c = user) (rows (carts db)))
      by (rewrite Hf; left).
    apply list_elem_of_filter in Hin as [Hu Hin].
    split; [exact Hw|]. split; [exact Hin|]. split; [exact Hu|].
    split; [rewrite Hf; reflexivity|]. auto.
Qed.

(** An item found for a user is stored under the key asked for, in the cart
    of that user. *)
Lemma get_item_Some (pk user : Z) (db : DB) (item : CartItem.t) :
  get_item pk user db = Some item ->
  item ∈ rows (cart_items db)
  /\ CartItem.pk item = pk
  /\ exists cart, user_cart db user = Some cart /\ Cart.pk cart = CartItem.cart item.
Proof.
  unfold get_item.
  destruct (filter _ (rows (cart_items db))) as [|i l] eqn:Hf; [discriminate|].
  simpl. intros [= <-].
  assert (Hin : i ∈ filter
                  (fun i => CartItem.pk i = pk
                            /\ (Cart.pk <$> user_cart db user) = Some (CartItem.cart i))
                  (rows (cart_items db))) by (rewrite Hf; left).
  apply list_elem_of_filter in Hin as [[Hpk Hc] Hin].
  split; [exact Hin|]. split; [exact Hpk|].
  destruct (user_cart db user) as [cart|]; [|discriminate].
  exists cart. split; [reflexivity|]. simpl in Hc. congruence.
Qed.

Lemma handle_well_keyed (r : Request) (db : DB) :
  well_keyed db -> well_keyed (snd (handle r db)).
Proof.
  intros Hw. destruct r; simpl.
  - rewrite book_writes.
    destruct (CreateAppointmentSerializer.is_valid today db data); [exact Hw|].
    destruct (create_appointment _ _ _ _ _ _ _) as [[a db']|] eqn:E; [|exact Hw].
    eapply create_appointment_well_keyed; eassumption.
  - unfold AppointmentDetailView_destroy.
    destruct (filter _ _) as [|a l]; [exact Hw|].
    destruct (Appointment.is_paid a); [exact Hw|]. simpl.
    eapply (well_keyed_same (with_appointments _ db)); try reflexivity.
    apply well_keyed_with_appointments; [|exact Hw]. apply keyed_filter, Hw.
  - unfold CartView_get.
    pose proof (get_or_create_cart_spec user db Hw) as (H1 & _).
    destruct (get_or_create_cart user db) as [cart db1]. exact H1.
  - unfold CartView_post.
    destruct (AddToCartSerializer.is_valid today db data); [exact Hw|].
    pose proof (get_or_create_cart_spec user db Hw) as (H1 & Hin & _).
    destruct (get_or_create_cart user db) as [cart db1]. simpl in *.
    apply well_keyed_with_cart_items; [| |exact H1].
    + apply (keyed_insert CartItem.pk
               (fun pk => CartItem.mk pk (Cart.pk cart) (Data.category t)
                            (Data.date t) (Data.time t) (Data.duration t)));
        [reflexivity|apply H1].
    + simpl. apply Forall_app. split; [apply H1|].
      constructor; [|constructor]. simpl. apply list_elem_of_fmap_2, Hin.
  - unfold CartItemView_patch.
    destruct (get_item pk user db) as [item|] eqn:Hitem; [|exact Hw].
    destruct (UpdateCartItemSerializer.is_valid item db data); [exact Hw|]. simpl.
    apply get_item_Some in Hitem as (Hin & Hpk & _).
    pose proof (wk_cart_refs _ Hw) as Hrefs.
    apply well_keyed_with_cart_items; [| |exact Hw].
    + apply keyed_map; [|apply Hw]. intros r. case_bool_decide; [|reflexivity].
      simpl. congruence.
    + simpl. apply Forall_forall. intros x Hx.
      apply list_elem_of_In, in_map_iff in Hx as (r & <- & Hr).
      apply list_elem_of_In in Hr. rewrite Forall_forall in Hrefs.
      case_bool_decide; [|apply Hrefs, Hr]. simpl. apply Hrefs, Hin.
  - unfold CartItemView_delete.
    destruct (get_item pk user db) as [item|]; [|exact Hw]. simpl.
    apply well_keyed_with_cart_items; [| |exact Hw].
    + apply keyed_filter, Hw.
    + simpl. apply Forall_filter_keep, Hw.
  - unfold ClearCartView_delete.
    destruct (user_cart db user) as [cart|]; [|exact Hw]. simpl.
    apply well_keyed_with_cart_items; [| |exact Hw].
    + apply keyed_filter, Hw.
    + simpl. apply Forall_filter_keep, Hw.
  - destruct (checkout_frame stripe user db) as (Ha & Hc & Hi & _).
    apply (well_keyed_same db); assumption.
  - destruct (webhook_frame event db) as (Hc & _ & Hi).
    assert (Ha : keyed Appointment.pk
                   (appointments (snd (StripeWebhookView_post event db)))).
    { unfold StripeWebhookView_post.
      destruct event as [ev|]; [|apply Hw].
      destruct (event_type ev); [|apply Hw|apply Hw].
      destruct (pending_orders (order_id ev) db) as [|order l]; [apply Hw|].
      set (db1 := save_order (Order.set_status paid order) db).
      assert (H1 : well_keyed db1) by (apply (well_keyed_same db); auto).
      pose proof (create_appointments_well_keyed (Order.user order)
                    (items_of_order db1 (Order.pk order)) db1 H1) as H2.
      destruct (create_appointments _ _ db1) as [[|] db2]; simpl in *; [|apply H2].
      destruct (user_cart db2 (Order.user order)); apply H2. }
    destruct Hw as [H1 H2 H3 H4 H5].
    constructor; rewrite ?Hc; try assumption.
    + destruct Hi as [->|(order & cart & _ & _ & ->)]; [exact H4|].
      apply keyed_filter, H4.
    + destruct Hi as [->|(order & cart & _ & _ & ->)]; [exact H5|].
      simpl. apply Forall_filter_keep, H5.
  - apply (well_keyed_same db); auto.
Qed.

Lemma run_well_keyed (rs : list Request) (db : DB) :
  well_keyed db -> well_keyed (run rs db).
Proof.
  revert db. induction rs as [|r rs IH]; intros db Hw; [exact Hw|].
  simpl. apply IH, handle_well_keyed, Hw.
Qed.

Lemma run_app (rs rs' : list Request) (db : DB) :
  run (rs ++ rs') db = run rs' (run rs db).
Proof. unfold run. apply foldl_app. Qed.


(** No request removes or alters a paid appointment. *)
Lemma handle_keeps_paid (r : Request) (db : DB) (a : Appointment.t) :
  well_keyed db ->
  a ∈ rows (appointments db) -> Appointment.is_paid a = true ->
  a ∈ rows (appointments (snd (handle r db))).
Proof.
  intros Hw Ha Hpaid.
  destruct r;
    try (match goal with |- context [handle ?r db] =>
           destruct (catalog_or_cart_frame r db eq_refl) as (_ & _ & Hx)
         end; rewrite Hx; exact Ha).
  - simpl. rewrite book_writes.
    destruct (CreateAppointmentSerializer.is_valid today db data); [exact Ha|].
    destruct (create_appointment _ _ _ _ _ _ _) as [[b db']|] eqn:E; [|exact Ha].
    apply create_appointment_Some in E as (c & _ & _ & _ & ->). simpl.
    apply elem_of_app. left. exact Ha.
  - simpl. unfold AppointmentDetailView_destroy.
    destruct (filter _ _) as [|a0 l] eqn:Hf; [exact Ha|].
    destruct (Appointment.is_paid a0) eqn:Hp0; [exact Ha|]. simpl.
    assert (Hin : a0 ∈ filter (fun b => Appointment.user b = user /\ Appointment.pk b = pk)
                         (rows (appointments db))) by (rewrite Hf; left).
    apply list_elem_of_filter in Hin as [[_ Hpk] Hin].
    apply list_elem_of_filter. split; [|exact Ha].
    intros Heq. assert (a = a0); [|congruence].
    destruct (wk_appointments _ Hw) as [_ Hnd].
    eapply (NoDup_fmap_unique Appointment.pk); try eassumption. congruence.
  - simpl. destruct (checkout_frame stripe user db) as (-> & _). exact Ha.
  - simpl. destruct (webhook_appointments event db) as (u & items & new & -> & _).
    apply elem_of_app. left. exact Ha.
Qed.

(** X7.  A paid appointment stays: once a paid appointment is in the ledger
    of a reachable state, it is still there, unchanged, after any further
    sequence of requests (bookings, cancellations by anybody, cart requests,
    checkouts, webhook events, price changes). *)
Theorem X7_paid_appointments_stay
    (catalog : gmap Z ConsultationCategory.t) (rs rs' : list Request)
    (a : Appointment.t) :
  a ∈ rows (appointments (run rs (init_db catalog))) ->
  Appointment.is_paid a = true ->
  a ∈ rows (appointments (run (rs ++ rs') (init_db catalog))).
Proof.
  intros Ha Hpaid. rewrite run_app.
  assert (Hw : well_keyed (run rs (init_db catalog)))
    by apply run_well_keyed, well_keyed_init.
  revert Ha Hw. generalize (run rs (init_db catalog)) as db.
  induction rs' as [|r rs' IH]; intros db Ha Hw; [exact Ha|].
  simpl. apply IH.
  - apply handle_keeps_paid; assumption.
  - apply handle_well_keyed, Hw.
Qed.

Lemma X7_paid_appointments_stay_witness :
  let a := Appointment.mk 1 7 1 110 (at_ 10 0) 60 (Dec.cents 18000) true in
  a ∈ rows (appointments
              (run ([cart_add 100 7 (Data.mk 1 110 (at_ 10 0) 60);
                     checkout provider_up 7;
                     webhook (Some (mk_event payment_intent_succeeded (Some 1)))]
                    ++ [cancel 7 1; cancel 8 1;
                        book 100 8 (Data.mk 1 110 (at_ 10 0) 30)])
                   (init_db sample_catalog))).
Proof.
  cbv zeta.
  apply (X7_paid_appointments_stay sample_catalog
           [cart_add 100 7 (Data.mk 1 110 (at_ 10 0) 60);
            checkout provider_up 7;
            webhook (Some (mk_event payment_intent_succeeded (Some 1)))]
           [cancel 7 1; cancel 8 1; book 100 8 (Data.mk 1 110 (at_ 10 0) 30)]).
  - vm_compute. left.
  - reflexivity.
Defined.

(** ** Availability and history *)

Lemma appointments_at_nonempty (k : slot) (db : DB) :
  appointments_at k db <> [] <->
  exists a, a ∈ rows (appointments db) /\ appt_slot a = k.
Proof.
  unfold appointments_at. split.
  - destruct (filter _ _) as [|a l] eqn:Hf; [contradiction|]. intros _.
    assert (Hin : a ∈ filter (fun a => appt_slot a = k) (rows (appointments db)))
      by (rewrite Hf; left).
    apply list_elem_of_filter in Hin as [Hs Hin]. eauto.
  - intros (a & Ha & Hs) Hnil.
    exact (filter_nil_not_elem_of _ _ a Hnil Hs Ha).
Qed.

(** On one date the default ordering lists later times first. *)
Lemma sorted_times_on_one_date (d : Z) (l : list Appointment.t) :
  Forall (fun a => Appointment.date a = d) l ->
  Sorted newer_first l ->
  Sorted (fun t1 t2 => time_us t2 <= time_us t1) (Appointment.time <$> l).
Proof.
  intros Hd Hs. induction Hs as [|a l Hs IH Hhd]; [constructor|].
  inversion Hd as [|? ? Ha Hl]; subst. rewrite fmap_cons. constructor; [auto|].
  destruct Hhd as [|b l' Hab]; [constructor|].
  rewrite fmap_cons. constructor.
  inversion Hl as [|? ? Hb _]; subst.
  destruct Hab as [Hlt|[_ Hle]]; [lia|exact Hle].
Qed.

(** X8.  The availability view answers 400 when a parameter is missing.
    Otherwise it lists the booked start times of the category on the date: a
    time is listed exactly when an appointment holds that (category, date,
    time); later times come first; with unique slots no time is listed
    twice.  The list agrees with booking: a request for that category and
    date that passes the other checks is refused (400) exactly when its
    start time is listed; when it is not listed the request passes
    validation and the appointment is saved, with the answer 201 for every
    positive two-place unit price whose session price has at most ten
    digits. *)
Theorem X8_availability_lists_the_booked_times (c d : Z) (db : DB) :
  (forall p, SlotAvailabilityView_get None p db
             = availability_error 400 "Both category and date query params are required."
             /\ SlotAvailabilityView_get p None db
                = availability_error 400
                    "Both category and date query params are required.")
  /\ exists ts,
       SlotAvailabilityView_get (Some c) (Some d) db = booked_times ts
       /\ (forall t, t ∈ ts <-> appointments_at (c, d, t) db <> [])
       /\ Sorted (fun t1 t2 => time_us t2 <= time_us t1) ts
       /\ (unique_slots db -> NoDup ts)
       /\ (forall today user data,
             Data.category data = c -> Data.date data = d ->
             CreateAppointmentSerializer.is_valid today
               (with_appointments empty_table db) data = inr data ->
             let r := AppointmentCreateView_create today user data db in
             (CreateAppointmentSerializer.is_valid today db data = inr data
              <-> Data.time data ∉ ts)
             /\ (status_code (fst r) = 400 <-> Data.time data ∈ ts)
             /\ (Data.time data ∉ ts ->
                 (exists b,
                    rows (appointments (snd r)) = rows (appointments db) ++ [b]
                    /\ appt_slot b = Data.slot_of data)
                 /\ (forall cat p,
                       categories db !! Data.category data = Some cat ->
                       ConsultationCategory.price_per_15min cat = Dec.cents p ->
                       0 < p -> p * (Data.duration data / 15) < 10 ^ 10 ->
                       status_code (fst r) = 201))).
Proof.
  split.
  { intros p. split; [reflexivity|]. destruct p; reflexivity. }
  set (qs := filter (fun a => Appointment.category a = c /\ Appointment.date a = d)
                    (rows (appointments db))).
  exists (Appointment.time <$> merge_sort newer_first qs).
  assert (Hmem : forall t, t ∈ Appointment.time <$> merge_sort newer_first qs
                           <-> appointments_at (c, d, t) db <> []).
  { intros t. rewrite appointments_at_nonempty, list_elem_of_fmap. split.
    - intros (a & -> & Ha). rewrite merge_sort_Permutation in Ha.
      apply list_elem_of_filter in Ha as [[Hc Hd] Ha].
      exists a. split; [exact Ha|]. unfold appt_slot. congruence.
    - intros (a & Ha & Hs). unfold appt_slot in Hs. inversion Hs; subst.
      exists a. split; [reflexivity|]. rewrite merge_sort_Permutation.
      apply list_elem_of_filter. auto. }
  split; [reflexivity|]. split; [exact Hmem|]. split; [|split].
  - apply (sorted_times_on_one_date d); [|apply Sorted_merge_sort; apply _].
    apply Forall_forall. intros a Ha. rewrite merge_sort_Permutation in Ha.
    apply list_elem_of_filter in Ha as [[_ Hd] _]. exact Hd.
  - intros Hu. unfold unique_slots in Hu.
    apply NoDup_fmap_2_strong.
    + intros x y Hx Hy Ht. rewrite merge_sort_Permutation in Hx, Hy.
      apply list_elem_of_filter in Hx as [[Hcx Hdx] Hx].
      apply list_elem_of_filter in Hy as [[Hcy Hdy] Hy].
      apply (NoDup_fmap_unique appt_slot (rows (appointments db))); auto.
      unfold appt_slot. congruence.
    + rewrite merge_sort_Permutation. apply NoDup_filter.
      eapply NoDup_fmap_1, Hu.
  - intros today user data Hc Hd Hother. cbv zeta.
    rewrite Hmem. rewrite <- Hc, <- Hd.
    change (Data.category data, Data.date data, Data.time data) with (Data.slot_of data).
    pose proof (direct_is_valid_but_for_slot today db data Hother) as Hv.
    destruct (appointments_at (Data.slot_of data) db) as [|a l] eqn:Hat; simpl in Hv.
    + destruct (book_saved today user data db Hv)
        as (b & Hrows & Hs & _ & _ & _ & Hr & Hfit).
      split; [split; [intros _ Hne; apply Hne; reflexivity|intros _; exact Hv]|].
      split.
      * rewrite Hr. split; [|intros Hne; exfalso; apply Hne; reflexivity].
        destruct (AppointmentSerializer_data _ b); discriminate.
      * intros _. split; [exists b; auto|].
        intros cat p Hcat Hp Hp0 Hlt.
        destruct (Hfit cat p Hcat Hp Hp0 Hlt) as [_ ->]. reflexivity.
    + unfold AppointmentCreateView_create. rewrite Hv. simpl.
      split; [split; [discriminate|intros Hne; exfalso; apply Hne; discriminate]|].
      split; [split; [discriminate|reflexivity]|].
      intros Hne. exfalso. apply Hne. discriminate.
Qed.

(** X9.  The history of a user lists exactly the appointments of that user,
    each as often as it is stored, later dates first and on one date later
    times first. *)
Theorem X9_history_is_the_users_appointments_newest_first (user : Z) (db : DB) :
  (forall a, a ∈ AppointmentHistoryView_get_queryset user db
             <-> a ∈ rows (appointments db) /\ Appointment.user a = user)
  /\ AppointmentHistoryView_get_queryset user db
     ≡ₚ filter (fun a => Appointment.user a = user) (rows (appointments db))
  /\ Sorted newer_first (AppointmentHistoryView_get_queryset user db).
Proof.
  unfold AppointmentHistoryView_get_queryset. split; [|split].
  - intros a. rewrite merge_sort_Permutation, list_elem_of_filter. tauto.
  - apply merge_sort_Permutation.
  - apply Sorted_merge_sort. apply _.
Qed.

(** ** The cart can always be rendered *)

Lemma in_catalog_same (db db' : DB) :
  categories db' = categories db -> cart_items db' = cart_items db ->
  cart_items_in_catalog db -> cart_items_in_catalog db'.
Proof. unfold cart_items_in_catalog. intros -> ->. auto. Qed.

Lemma in_catalog_with_cart_items (t : Table CartItem.t) (db : DB) :
  Forall (fun i => is_Some (categories db !! CartItem.category i)) (rows t) ->
  cart_items_in_catalog (with_cart_items t db).
Proof. intros H. exact H. Qed.

Lemma get_or_create_cart_catalog (user : Z) (db : DB) :
  categories (snd (get_or_create_cart user db)) = categories db
  /\ cart_items (snd (get_or_create_cart user db)) = cart_items db.
Proof. unfold get_or_create_cart. destruct (user_cart db user); simpl; auto. Qed.

(** What the update serializer lets through is the body itself, and a
    category it names is in the catalog. *)
Lemma update_is_valid_inr (item : CartItem.t) (db : DB) (data vd : Patch.t) :
  UpdateCartItemSerializer.is_valid item db data = inr vd ->
  vd = data
  /\ (forall c, Patch.category data = Some c -> is_Some (categories db !! c))
  /\ (forall d, Patch.duration data = Some d -> d ∈ [15; 30; 60; 120])
  /\ paid_appointments_at
       (default (CartItem.category item) (Patch.category data),
        default (CartItem.date item) (Patch.date data),
        default (CartItem.time item) (Patch.time data)) db = [].
Proof.
  unfold UpdateCartItemSerializer.is_valid.
  destruct (UpdateCartItemSerializer.field_errors db data) eqn:Hfe; [|discriminate].
  unfold UpdateCartItemSerializer.validate.
  destruct (exists_ _) eqn:Hex; [discriminate|]. intros [= <-].
  apply exists_false in Hex.
  unfold UpdateCartItemSerializer.field_errors in Hfe.
  apply app_nil in Hfe as [Hd Hc].
  split; [reflexivity|]. split; [|split; [|exact Hex]].
  - intros c Hcat. rewrite Hcat in Hc. simpl in Hc.
    apply field_error_nil in Hc as [v Hv].
    apply validate_category_inr in Hv as [_ Hv]. exact Hv.
  - intros d Hdur. rewrite Hdur in Hd. simpl in Hd.
    apply field_error_nil in Hd as [v Hv].
    unfold UpdateCartItemSerializer.validate_duration in Hv.
    case_bool_decide; [assumption|discriminate].
Qed.

(** What the cart serializer lets through is the body itself. *)
Lemma cart_is_valid_inr (today : Z) (db : DB) (data vd : Data.t) :
  AddToCartSerializer.is_valid today db data = inr vd ->
  vd = data /\ is_Some (categories db !! Data.category data).
Proof.
  intros H. pose proof (cart_is_valid_same _ _ _ _ H) as ->.
  split; [reflexivity|]. apply cart_is_valid_iff in H. apply H.
Qed.

Lemma handle_in_catalog (r : Request) (db : DB) :
  cart_items_in_catalog db -> cart_items_in_catalog (snd (handle r db)).
Proof.
  intros Hi. destruct r; simpl.
  - rewrite book_writes.
    destruct (CreateAppointmentSerializer.is_valid today db data); [exact Hi|].
    destruct (create_appointment _ _ _ _ _ _ _) as [[a db']|] eqn:E; [|exact Hi].
    apply create_appointment_Some in E as (c & _ & _ & _ & ->). exact Hi.
  - unfold AppointmentDetailView_destroy.
    destruct (filter _ _) as [|a l]; [exact Hi|].
    destruct (Appointment.is_paid a); exact Hi.
  - unfold CartView_get.
    destruct (get_or_create_cart_catalog user db) as [Hc Hci].
    destruct (get_or_create_cart user db) as [cart db1]. simpl in *.
    apply (in_catalog_same db); assumption.
  - unfold CartView_post.
    destruct (AddToCartSerializer.is_valid today db data) as [errs|vd] eqn:Ev;
      [exact Hi|].
    apply cart_is_valid_inr in Ev as [-> Hcat].
    destruct (get_or_create_cart_catalog user db) as [Hc Hci].
    destruct (get_or_create_cart user db) as [cart db1]. simpl in *.
    apply in_catalog_with_cart_items. simpl. rewrite Hc, Hci.
    apply Forall_app. split; [exact Hi|]. constructor; [exact Hcat|constructor].
  - unfold CartItemView_patch.
    destruct (get_item pk user db) as [item|] eqn:Hitem; [|exact Hi].
    destruct (UpdateCartItemSerializer.is_valid item db data) as [errs|vd] eqn:Ev;
      [exact Hi|].
    apply update_is_valid_inr in Ev as (-> & Hcat & _).
    apply get_item_Some in Hitem as (Hin & _). simpl.
    apply in_catalog_with_cart_items. simpl.
    unfold cart_items_in_catalog in Hi. rewrite Forall_forall in Hi.
    apply Forall_forall. intros x Hx.
    apply list_elem_of_In, in_map_iff in Hx as (r & <- & Hr).
    apply list_elem_of_In in Hr.
    case_bool_decide; [|apply Hi, Hr]. simpl.
    destruct (Patch.category data) as [c|]; simpl; [apply Hcat; reflexivity|].
    apply Hi, Hin.
  - unfold CartItemView_delete.
    destruct (get_item pk user db) as [item|]; [|exact Hi]. simpl.
    apply in_catalog_with_cart_items. simpl. apply Forall_filter_keep, Hi.
  - unfold ClearCartView_delete.
    destruct (user_cart db user) as [cart|]; [|exact Hi]. simpl.
    apply in_catalog_with_cart_items. simpl. apply Forall_filter_keep, Hi.
  - destruct (checkout_frame stripe user db) as (_ & _ & Hci & Hc).
    apply (in_catalog_same db); assumption.
  - destruct (webhook_frame event db) as (_ & Hc & Hci).
    unfold cart_items_in_catalog. rewrite Hc.
    destruct Hci as [->|(order & cart & _ & _ & ->)]; [exact Hi|].
    simpl. apply Forall_filter_keep, Hi.
  - unfold cart_items_in_catalog. simpl.
    eapply Forall_impl; [exact Hi|]. intros i [c Hk]. simpl.
    rewrite lookup_alter. case_decide; subst; rewrite Hk; simpl; eauto.
Qed.

Lemma run_in_catalog (rs : list Request) (db : DB) :
  cart_items_in_catalog db -> cart_items_in_catalog (run rs db).
Proof.
  revert db. induction rs as [|r rs IH]; intros db Hi; [exact Hi|].
  simpl. apply IH, handle_in_catalog, Hi.
Qed.

(** The cart can be rendered, prices included, when its items' categories are
    in the catalog. *)
Lemma cart_data_is_Some (db : DB) (cart_pk : Z) :
  cart_items_in_catalog db -> is_Some (cart_data db cart_pk).
Proof.
  intros Hi. unfold cart_data, Cart_total.
  assert (Hitems : Forall (fun i => is_Some (categories db !! CartItem.category i))
                          (items_of_cart db cart_pk))
    by (apply Forall_filter_keep, Hi).
  assert (H1 : is_Some (mapM (fun i => p ← computed_price db i; Some (i, p))
                             (items_of_cart db cart_pk))).
  { apply mapM_is_Some. eapply Forall_impl; [exact Hitems|].
    intros i [c Hc]. simpl. unfold computed_price, category_price.
    rewrite Hc. simpl. eauto. }
  assert (H2 : is_Some (mapM (computed_price db) (items_of_cart db cart_pk))).
  { apply mapM_is_Some. eapply Forall_impl; [exact Hitems|].
    intros i [c Hc]. simpl. unfold computed_price, category_price.
    rewrite Hc. simpl. eauto. }
  destruct H1 as [lines ->]. destruct H2 as [prices ->]. simpl. eauto.
Qed.

Lemma cart_response_status (code : Z) (wrap : CartData -> Body) (cart_pk : Z) (db : DB) :
  cart_items_in_catalog db ->
  status_code (cart_response code wrap cart_pk db) = code.
Proof.
  intros Hi. unfold cart_response.
  destruct (cart_data_is_Some db cart_pk Hi) as [d ->]. reflexivity.
Qed.

(** The answers of the cart views when every cart item is in the catalog. *)
Lemma cart_views_status (today user pk : Z) (data : Data.t) (patch : Patch.t) (db : DB) :
  cart_items_in_catalog db ->
  status_code (fst (CartView_get user db)) = 200
  /\ status_code (fst (CartView_post today user data db)) ∈ [201; 400]
  /\ status_code (fst (CartItemView_patch user pk patch db)) ∈ [200; 400; 404]
  /\ status_code (fst (CartItemView_delete user pk db)) ∈ [200; 404]
  /\ status_code (fst (ClearCartView_delete user db)) = 200.
Proof.
  intros Hi.
  pose proof (handle_in_catalog (cart_get user) db Hi) as Hget.
  pose proof (handle_in_catalog (cart_add today user data) db Hi) as Hadd.
  pose proof (handle_in_catalog (cart_patch user pk patch) db Hi) as Hpatch.
  pose proof (handle_in_catalog (cart_remove user pk) db Hi) as Hdel.
  simpl in Hget, Hadd, Hpatch, Hdel.
  split; [|split; [|split; [|split]]].
  - unfold CartView_get in *.
    destruct (get_or_create_cart user db) as [cart db1]. simpl in *.
    apply cart_response_status, Hget.
  - unfold CartView_post in *.
    destruct (AddToCartSerializer.is_valid today db data) as [errs|vd];
      [simpl; rewrite !elem_of_cons; lia|].
    destruct (get_or_create_cart user db) as [cart db1]. simpl in *.
    rewrite cart_response_status by exact Hadd. rewrite !elem_of_cons; lia.
  - unfold CartItemView_patch in *.
    destruct (get_item pk user db) as [item|]; [|simpl; rewrite !elem_of_cons; lia].
    destruct (UpdateCartItemSerializer.is_valid item db patch) as [errs|vd];
      [simpl; rewrite !elem_of_cons; lia|].
    simpl in *. rewrite cart_response_status by exact Hpatch. rewrite !elem_of_cons; lia.
  - unfold CartItemView_delete in *.
    destruct (get_item pk user db) as [item|]; [|simpl; rewrite !elem_of_cons; lia].
    simpl in *. rewrite cart_response_status by exact Hdel. rewrite !elem_of_cons; lia.
  - unfold ClearCartView_delete. destruct (user_cart db user); reflexivity.
Qed.

(** X10.  In a state reached from a fresh installation by any sequence of
    bookings, cancellations, cart requests, checkouts, webhook events and
    price changes, every cart item names a category of the catalog, so the
    cart can always be rendered with its prices and its total: no cart
    request ends in the exception of a failed category lookup.  Reading the
    cart is answered 200, adding to it 201 or 400, changing an item 200, 400
    or 404, removing one 200 or 404, clearing it 200. *)
Theorem X10_cart_requests_are_never_answered_500
    (catalog : gmap Z ConsultationCategory.t) (rs : list Request)
    (today user pk : Z) (data : Data.t) (patch : Patch.t) :
  let db := run rs (init_db catalog) in
  (forall i, i ∈ rows (cart_items db) ->
             is_Some (categories db !! CartItem.category i))
  /\ (forall cart_pk, is_Some (cart_data db cart_pk))
  /\ status_code (fst (CartView_get user db)) = 200
  /\ status_code (fst (CartView_post today user data db)) ∈ [201; 400]
  /\ status_code (fst (CartItemView_patch user pk patch db)) ∈ [200; 400; 404]
  /\ status_code (fst (CartItemView_delete user pk db)) ∈ [200; 404]
  /\ status_code (fst (ClearCartView_delete user db)) = 200.
Proof.
  intros db.
  assert (Hi : cart_items_in_catalog db) by (apply run_in_catalog; constructor).
  split; [|split].
  - intros i Hin. unfold cart_items_in_catalog in Hi. rewrite Forall_forall in Hi.
    apply Hi, Hin.
  - intros cart_pk. apply cart_data_is_Some, Hi.
  - apply cart_views_status, Hi.
Qed.

(** ** The cart *)

Lemma mapM_snoc {A B : Type} (f : A -> option B) (l : list A) (x : A)
    (ys : list B) (y : B) :
  mapM f l = Some ys -> f x = Some y -> mapM f (l ++ [x]) = Some (ys ++ [y]).
Proof.
  revert ys. induction l as [|a l IH]; intros ys Hl Hx; simpl in *.
  - inversion Hl; subst. rewrite Hx. reflexivity.
  - destruct (f a) as [b|]; [|discriminate]. simpl in *.
    destruct (mapM f l) as [bs|]; [|discriminate]. simpl in *.
    inversion Hl; subst. rewrite (IH bs eq_refl Hx). reflexivity.
Qed.

Lemma sum_prices_snoc (ps : list Decimal) (p : Decimal) :
  sum_prices (ps ++ [p]) = Dec.add (sum_prices ps) p.
Proof. unfold sum_prices. rewrite foldl_app. reflexivity. Qed.

(** The cart the view works on belongs to the user. *)
Lemma get_or_create_cart_user (user : Z) (db : DB) :
  Cart.user (fst (get_or_create_cart user db)) = user.
Proof.
  unfold get_or_create_cart, user_cart.
  destruct (filter (fun c => Cart.user c = user) (rows (carts db))) as [|c l] eqn:Hf;
    [reflexivity|].
  simpl. assert (Hin : c ∈ filter (fun c => Cart.user c = user) (rows (carts db)))
    by (rewrite Hf; left).
  apply list_elem_of_filter in Hin as [Hu _]. exact Hu.
Qed.

(** X11.  Adding to the cart has two outcomes.  Either validation fails: the
    answer is 400 with the errors and nothing is written, not even the cart.
    Or one item with the requested fields is appended, under the next key,
    to the cart of the user (created if absent): the items of that cart are
    the former ones followed by the new one, the items of every other cart
    are as before, and when the cart had a total, the answer is 201 with the
    cart whose total is the former total plus the price of the new item at
    the catalog's current unit price. *)
Theorem X11_cart_add_outcomes (today user : Z) (data : Data.t) (db : DB) :
  (exists errs,
     AddToCartSerializer.is_valid today db data = inl errs
     /\ CartView_post today user data db
        = (mk_response 400 (validation_errors errs), db))
  \/ (exists c,
        categories db !! Data.category data = Some c
        /\ let cart := fst (get_or_create_cart user db) in
           let r := CartView_post today user data db in
           let item := CartItem.mk (next_pk (cart_items db)) (Cart.pk cart)
                         (Data.category data) (Data.date data) (Data.time data)
                         (Data.duration data) in
           Cart.user cart = user
           /\ user_cart (snd r) user = Some cart
           /\ rows (cart_items (snd r)) = rows (cart_items db) ++ [item]
           /\ items_of_cart (snd r) (Cart.pk cart)
              = items_of_cart db (Cart.pk cart) ++ [item]
           /\ (forall k, k <> Cart.pk cart ->
                         items_of_cart (snd r) k = items_of_cart db k)
           /\ (forall total,
                 Cart_total db (Cart.pk cart) = Some total ->
                 exists d,
                   fst r = mk_response 201 (cart_message "Item added to cart." d)
                   /\ cart_total d
                      = Dec.add total
                          (price_formula (ConsultationCategory.price_per_15min c)
                                         (Data.duration data))
                   /\ Cart_total (snd r) (Cart.pk cart) = Some (cart_total d))).
Proof.
  destruct (AddToCartSerializer.is_valid today db data) as [errs|vd] eqn:Ev.
  { left. exists errs. split; [reflexivity|]. unfold CartView_post. rewrite Ev.
    reflexivity. }
  right. apply cart_is_valid_inr in Ev as Hvd. destruct Hvd as [-> [c Hc]].
  exists c. split; [exact Hc|]. cbv zeta.
  pose proof (get_or_create_cart_user user db) as Huser.
  assert (Hcart : user_cart (snd (get_or_create_cart user db)) user
                  = Some (fst (get_or_create_cart user db))).
  { unfold get_or_create_cart. destruct (user_cart db user) as [c0|] eqn:Hu;
      [exact Hu|].
    simpl. unfold user_cart in *. simpl. rewrite filter_app.
    destruct (filter _ (rows (carts db))); [|discriminate]. simpl.
    rewrite filter_cons, decide_True by reflexivity. reflexivity. }
  destruct (get_or_create_cart_catalog user db) as [Hcat Hci].
  unfold CartView_post. rewrite Ev.
  destruct (get_or_create_cart user db) as [cart db1]. simpl in Huser, Hcart, Hcat, Hci.
  simpl fst. simpl snd.
  set (item := CartItem.mk (next_pk (cart_items db)) (Cart.pk cart)
                 (Data.category data) (Data.date data) (Data.time data)
                 (Data.duration data)).
  set (db2 := with_cart_items _ db1).
  assert (Hrows : rows (cart_items db2) = rows (cart_items db) ++ [item]).
  { unfold db2. simpl. rewrite Hci. reflexivity. }
  assert (Hitems : items_of_cart db2 (Cart.pk cart)
                   = items_of_cart db (Cart.pk cart) ++ [item]).
  { unfold items_of_cart. rewrite Hrows, filter_app. f_equal.
    rewrite filter_cons, decide_True by reflexivity. reflexivity. }
  split; [exact Huser|]. split; [exact Hcart|]. split; [exact Hrows|].
  split; [exact Hitems|]. split.
  { intros k Hk. unfold items_of_cart. rewrite Hrows, filter_app.
    rewrite filter_cons, decide_False by (simpl; congruence).
    rewrite filter_nil. apply app_nil_r. }
  intros total Htotal.
  assert (Hprice : forall i, computed_price db2 i = computed_price db i).
  { intros i. unfold computed_price, category_price, db2. simpl. rewrite Hcat.
    reflexivity. }
  assert (Hnew : Cart_total db2 (Cart.pk cart)
                 = Some (Dec.add total
                           (price_formula (ConsultationCategory.price_per_15min c)
                                          (Data.duration data)))).
  { unfold Cart_total in *. rewrite Hitems.
    destruct (mapM (computed_price db) (items_of_cart db (Cart.pk cart)))
      as [prices|] eqn:Hm; [|discriminate].
    simpl in Htotal. inversion Htotal; subst total.
    rewrite (mapM_ext _ (computed_price db)) by exact Hprice.
    rewrite (mapM_snoc _ _ _ prices
               (price_formula (ConsultationCategory.price_per_15min c)
                              (Data.duration data)) Hm).
    - simpl. rewrite sum_prices_snoc. reflexivity.
    - unfold computed_price, category_price. simpl. rewrite Hc. reflexivity. }
  unfold cart_response, cart_data. rewrite Hnew.
  assert (Hlines : is_Some (mapM (fun i => p ← computed_price db2 i; Some (i, p))
                                 (items_of_cart db2 (Cart.pk cart)))).
  { apply mapM_is_Some.
    eapply Forall_impl; [exact (Cart_total_Some_categories _ _ _ Hnew)|].
    intros i [ci Hi]. simpl. unfold computed_price, category_price. rewrite Hi.
    simpl. eauto. }
  destruct Hlines as [lines ->]. simpl.
  eexists. split; [reflexivity|]. split; reflexivity.
Qed.

(** Whom a cart item is found for: the owner of its cart and nobody else. *)
Lemma get_item_owner (user : Z) (i : CartItem.t) (c : Cart.t) (db : DB) :
  well_keyed db ->
  i ∈ rows (cart_items db) -> c ∈ rows (carts db) -> Cart.pk c = CartItem.cart i ->
  get_item (CartItem.pk i) user db
  = if decide (Cart.user c = user) then Some i else None.
Proof.
  intros [_ [_ Hcpk] Hcu [_ Hipk] _] Hi Hc Hlink.
  unfold get_item.
  assert (Hu : (Cart.pk <$> user_cart db user) = Some (CartItem.cart i)
               <-> Cart.user c = user).
  { unfold user_cart. split.
    - destruct (filter _ (rows (carts db))) as [|c' l] eqn:Hf; [discriminate|].
      simpl. intros [= Hpk].
      assert (Hin : c' ∈ filter (fun c => Cart.user c = user) (rows (carts db)))
        by (rewrite Hf; left).
      apply list_elem_of_filter in Hin as [Hu' Hin].
      assert (c' = c); [|congruence].
      eapply (NoDup_fmap_unique Cart.pk); try eassumption. congruence.
    - intros <-. rewrite (filter_key_unique Cart.user _ c Hcu Hc). simpl.
      congruence. }
  pose proof (filter_and_key CartItem.pk
                (fun x => (Cart.pk <$> user_cart db user) = Some (CartItem.cart x))
                (rows (cart_items db)) i Hipk Hi) as Hf.
  assert (Hsw : filter (fun x => CartItem.pk x = CartItem.pk i
                                /\ (Cart.pk <$> user_cart db user)
                                   = Some (CartItem.cart x))
                       (rows (cart_items db))
                = filter (fun x => (Cart.pk <$> user_cart db user)
                                   = Some (CartItem.cart x)
                                   /\ CartItem.pk x = CartItem.pk i)
                         (rows (cart_items db)))
    by (apply list_filter_iff; intros x; tauto).
  rewrite Hsw, Hf.
  destruct (decide (Cart.user c = user)) as [Hyes|Hno].
  - rewrite decide_True by (apply Hu, Hyes). reflexivity.
  - rewrite decide_False by (rewrite Hu; exact Hno). reflexivity.
Qed.

(** X12.  Cart items are private.  For an item stored in a cart (keys being
    unique and every user having one cart at most): a user who does not own
    that cart gets 404 on PATCH and on DELETE and nothing is written; for the
    owner DELETE removes exactly that item, leaving every other item, the
    carts and all other tables as they were.  A key under which no item is
    stored gives 404. *)
Theorem X12_cart_items_are_private
    (user p : Z) (data : Patch.t) (i : CartItem.t) (c : Cart.t) (db : DB) :
  well_keyed db ->
  i ∈ rows (cart_items db) -> c ∈ rows (carts db) -> Cart.pk c = CartItem.cart i ->
  (Cart.user c <> user ->
   CartItemView_patch user (CartItem.pk i) data db
   = (mk_response 404 (error "Item not found."), db)
   /\ CartItemView_delete user (CartItem.pk i) db
      = (mk_response 404 (error "Item not found."), db))
  /\ (Cart.user c = user ->
      let r := CartItemView_delete user (CartItem.pk i) db in
      status_code (fst r) <> 404
      /\ (forall j, j ∈ rows (cart_items (snd r))
                    <-> j ∈ rows (cart_items db) /\ j <> i)
      /\ carts (snd r) = carts db
      /\ appointments (snd r) = appointments db
      /\ orders (snd r) = orders db
      /\ order_items (snd r) = order_items db
      /\ categories (snd r) = categories db)
  /\ ((forall j, j ∈ rows (cart_items db) -> CartItem.pk j <> p) ->
      CartItemView_patch user p data db
      = (mk_response 404 (error "Item not found."), db)
      /\ CartItemView_delete user p db
         = (mk_response 404 (error "Item not found."), db)).
Proof.
  intros Hw Hi Hc Hlink.
  pose proof (get_item_owner user i c db Hw Hi Hc Hlink) as Hget.
  split; [|split].
  - intros Hno. rewrite decide_False in Hget by exact Hno.
    unfold CartItemView_patch, CartItemView_delete. rewrite Hget. auto.
  - intros Hyes. rewrite decide_True in Hget by exact Hyes.
    unfold CartItemView_delete. rewrite Hget. cbv zeta. simpl snd. simpl fst.
    split.
    { unfold cart_response. destruct (cart_data _ _); simpl; lia. }
    split; [|repeat split].
    intros j. simpl. rewrite list_elem_of_filter. split.
    + intros [Hpk Hj]. split; [exact Hj|]. intros ->. apply Hpk. reflexivity.
    + intros [Hj Hne]. split; [|exact Hj]. intros Hpk. apply Hne.
      destruct (wk_cart_items _ Hw) as [_ Hnd].
      eapply (NoDup_fmap_unique CartItem.pk); eassumption.
  - intros Hnone.
    assert (Hnil : get_item p user db = None).
    { unfold get_item.
      rewrite (proj2 (filter_nil_Forall _ _)); [reflexivity|].
      apply Forall_forall. intros j Hj [Hpk _]. exact (Hnone j Hj Hpk). }
    unfold CartItemView_patch, CartItemView_delete. rewrite Hnil. auto.
Qed.

Lemma X12_cart_items_are_private_witness :
  let db := run [cart_add 100 7 (Data.mk 1 110 (at_ 10 0) 60)] sample_db in
  CartItemView_delete 8 1 db = (mk_response 404 (error "Item not found."), db)
  /\ CartItemView_patch 8 1 (Patch.mk (Some 120) None None None) db
     = (mk_response 404 (error "Item not found."), db)
  /\ rows (cart_items (snd (CartItemView_delete 7 1 db))) = [].
Proof.
  cbv zeta.
  destruct (X12_cart_items_are_private 8 1 (Patch.mk (Some 120) None None None)
              (CartItem.mk 1 1 1 110 (at_ 10 0) 60) (Cart.mk 1 7)
              (run [cart_add 100 7 (Data.mk 1 110 (at_ 10 0) 60)] sample_db))
    as (H404 & _ & _).
  - apply run_well_keyed, well_keyed_init.
  - vm_compute. left.
  - vm_compute. left.
  - reflexivity.
  - destruct H404 as [Hp Hd]; [discriminate|].
    split; [exact Hd|]. split; [exact Hp|]. vm_compute. reflexivity.
Defined.

(** X13.  Clearing the cart removes the items of the user's cart and no
    others, keeps the cart itself, and writes nothing else; a checkout right
    after it is refused with 400 and writes nothing, whatever the
    provider. *)
Theorem X13_cleared_cart_cannot_be_checked_out
    (stripe : Provider) (user : Z) (db : DB) :
  let db' := snd (ClearCartView_delete user db) in
  status_code (fst (ClearCartView_delete user db)) = 200
  /\ (forall cart, user_cart db user = Some cart ->
                   items_of_cart db' (Cart.pk cart) = [])
  /\ (forall i, i ∈ rows (cart_items db') <->
                i ∈ rows (cart_items db)
                /\ (Cart.pk <$> user_cart db user) <> Some (CartItem.cart i))
  /\ carts db' = carts db
  /\ appointments db' = appointments db
  /\ orders db' = orders db
  /\ order_items db' = order_items db
  /\ CreateCheckoutSessionView_post stripe user db'
     = (mk_response 400 (error "Cart is empty."), db').
Proof.
  cbv zeta. unfold ClearCartView_delete.
  destruct (user_cart db user) as [cart|] eqn:Hcart; simpl.
  - assert (Hempty : items_of_cart (delete_cart_items (Cart.pk cart) db) (Cart.pk cart)
                     = []).
    { unfold items_of_cart, delete_cart_items. simpl.
      apply filter_nil_Forall, Forall_forall. intros i Hi Hin.
      apply list_elem_of_filter in Hi as [Hne _]. contradiction. }
    split; [reflexivity|]. split; [intros ? [= <-]; exact Hempty|].
    split; [|repeat split].
    + intros i. rewrite list_elem_of_filter. split.
      * intros [Hne Hi]. split; [exact Hi|]. intros [= Heq]. auto.
      * intros [Hi Hne]. split; [|exact Hi]. intros Heq. apply Hne. congruence.
    + unfold CreateCheckoutSessionView_post.
      change (user_cart (delete_cart_items (Cart.pk cart) db) user)
        with (user_cart db user).
      rewrite Hcart, Hempty. reflexivity.
  - split; [reflexivity|]. split; [discriminate|]. split; [|repeat split].
    + intros i. split; [intros Hi; split; [exact Hi|discriminate]|tauto].
    + unfold CreateCheckoutSessionView_post. rewrite Hcart. reflexivity.
Qed.

(** ** Checkout and the life of an order *)

(** The loop writes one snapshot per cart item, in order, whose totals are
    the prices the cart shows. *)
Lemma create_order_items_snapshot (order_pk : Z) (items : list CartItem.t) (db : DB) :
  Forall (fun i => is_Some (categories db !! CartItem.category i)) items ->
  exists new,
    create_order_items order_pk items db
    = (true,
       with_order_items
         (mk_table (rows (order_items db) ++ new)
                   (next_pk (order_items db) + Z.of_nat (length new)))
         db)
    /\ Forall2 (snapshot_of db order_pk) items new.
Proof.
  revert db. induction items as [|item rest IH]; intros db Hall.
  - exists []. simpl. split; [|constructor].
    rewrite app_nil_r, Z.add_0_r. destruct db as [c a ca ci o [r n]]. reflexivity.
  - inversion Hall as [|? ? [c Hc] Hrest]; subst. simpl. rewrite Hc.
    match goal with |- context [create_order_items _ _ ?d] =>
      destruct (IH d Hrest) as (new & Hrun & Hsnap); rewrite Hrun end.
    eexists (_ :: new). split.
    + f_equal. unfold with_order_items, insert_row; simpl. f_equal. f_equal.
      * rewrite <- app_assoc. reflexivity.
      * lia.
    + constructor; [|exact Hsnap].
      repeat (split; [reflexivity|]). exists c. repeat split. exact Hc.
Qed.

(** The snapshot of an item at a positive two-place unit price whose session
    price has at most ten digits: the unit price as it is and the exact
    price. *)
Lemma snapshot_of_cents (db : DB) (order_pk : Z) (i : CartItem.t) (oi : OrderItem.t)
    (c : ConsultationCategory.t) (p : Z) :
  snapshot_of db order_pk i oi ->
  categories db !! CartItem.category i = Some c ->
  ConsultationCategory.price_per_15min c = Dec.cents p ->
  0 < p -> CartItem.duration i ∈ [15; 30; 60; 120] ->
  p * (CartItem.duration i / 15) < 10 ^ 10 ->
  OrderItem.unit_price oi = Dec.cents p
  /\ OrderItem.total_price oi = Dec.cents (p * (CartItem.duration i / 15)).
Proof.
  intros (_ & _ & _ & _ & _ & _ & c' & Hc' & _ & Hu & Ht) Hc Hp Hp0 Hdur Hfit.
  rewrite Hc in Hc'. inversion Hc'; subst c'.
  assert (Hk : 1 <= CartItem.duration i / 15).
  { set_unfold in Hdur. destruct Hdur as [->|[->|[->|[->|[]]]]]; vm_compute; discriminate. }
  rewrite Hu, Ht, Hp. split; [apply decimal_column_cents|].
  apply decimal_column_price; [nia|exact Hdur].
Qed.

(** Rows below the next key are not touched by a write under the next key. *)
Lemma save_order_fresh (order : Order.t) (l : list Order.t) (n : Z) :
  Forall (fun o => Order.pk o < n) l -> Order.pk order = n ->
  map (fun o => if bool_decide (Order.pk o = Order.pk order) then order else o) l = l.
Proof.
  intros Hl Hpk. apply (map_if_no_match (fun o => Order.pk o = Order.pk order)).
  apply filter_nil_Forall. eapply Forall_impl; [exact Hl|]. simpl. lia.
Qed.

(** X14.  A checkout that goes through (a cart with items, a positive total,
    the provider returning an intent for the amount in cents) answers 200
    with the intent's client secret, the new order's key and the total as
    computed, and writes a snapshot: one pending order of the user under the
    next key holding the cart's total at two places and the intent's id, and
    one order item per cart item, in order, with the item's fields, the
    category's name and, at two places, its unit price and the computed
    price, and no appointment.  For an item at a positive two-place unit
    price whose session price has at most ten digits, the item holds the
    unit price and exactly [p * (D / 15)] cents.  Earlier orders and order
    items are untouched and the cart keeps its items. *)
Theorem X14_checkout_writes_the_snapshot
    (stripe : Provider) (user : Z) (db : DB) (cart : Cart.t) (total : Decimal)
    (intent : PaymentIntent) :
  consistent db ->
  user_cart db user = Some cart ->
  items_of_cart db (Cart.pk cart) <> [] ->
  Cart_total db (Cart.pk cart) = Some total ->
  Dec.le0 total = false ->
  stripe (Dec.to_int (Dec.mul total (Dec.of_int 100))) (next_pk (orders db)) user
    = inr intent ->
  exists new,
    fst (CreateCheckoutSessionView_post stripe user db)
    = mk_response 200
        (checkout_body (client_secret intent) (next_pk (orders db)) total)
    /\ rows (orders (snd (CreateCheckoutSessionView_post stripe user db)))
       = rows (orders db)
         ++ [Order.mk (next_pk (orders db)) user (decimal_column total) pending
               (intent_id intent)]
    /\ rows (order_items (snd (CreateCheckoutSessionView_post stripe user db)))
       = rows (order_items db) ++ new
    /\ Forall2 (snapshot_of db (next_pk (orders db)))
               (items_of_cart db (Cart.pk cart)) new
    /\ Forall2 (fun i oi =>
                  forall c p,
                    categories db !! CartItem.category i = Some c ->
                    ConsultationCategory.price_per_15min c = Dec.cents p ->
                    0 < p -> CartItem.duration i ∈ [15; 30; 60; 120] ->
                    p * (CartItem.duration i / 15) < 10 ^ 10 ->
                    OrderItem.unit_price oi = Dec.cents p
                    /\ OrderItem.total_price oi
                       = Dec.cents (p * (CartItem.duration i / 15)))
               (items_of_cart db (Cart.pk cart)) new
    /\ cart_items (snd (CreateCheckoutSessionView_post stripe user db)) = cart_items db
    /\ appointments (snd (CreateCheckoutSessionView_post stripe user db))
       = appointments db.
Proof.
  intros Hc Hcart Hne Htotal Hpos Hstripe.
  unfold CreateCheckoutSessionView_post. rewrite Hcart.
  destruct (items_of_cart db (Cart.pk cart)) as [|i0 tl] eqn:Eitems; [contradiction|].
  simpl negb. cbv iota. rewrite Htotal, Hpos. simpl Order.pk.
  set (db1 := with_orders _ db).
  pose proof (Cart_total_Some_categories _ _ _ Htotal) as Hcats.
  rewrite Eitems in Hcats.
  destruct (create_order_items_snapshot (next_pk (orders db)) (i0 :: tl) db1 Hcats)
    as (new & Hrun & Hsnap).
  rewrite Hrun, Hstripe. exists new. simpl.
  split; [reflexivity|]. split; [|split; [reflexivity|split; [exact Hsnap|]]].
  - rewrite map_app. simpl. rewrite bool_decide_eq_true_2 by reflexivity.
    f_equal.
    apply (save_order_fresh
             (Order.mk (next_pk (orders db)) user (decimal_column total) pending
                (intent_id intent))
             _ (next_pk (orders db))); [|reflexivity].
    apply (cons_orders _ Hc).
  - split; [|split; reflexivity].
    eapply Forall2_impl; [exact Hsnap|].
    intros i oi Hs c p. apply (snapshot_of_cents db1 _ i oi c p Hs).
Qed.

Lemma X14_checkout_writes_the_snapshot_witness :
  let db := run [cart_add 100 7 (Data.mk 1 110 (at_ 10 0) 60);
                 cart_add 100 7 (Data.mk 3 111 (at_ 9 0) 30)] sample_db in
  let r := CreateCheckoutSessionView_post provider_up 7 db in
  fst r = mk_response 200
            (checkout_body "pi_1_secret" 1 (Dec.mk 2200000000000000000000000000 (-25)))
  /\ rows (orders (snd r)) = [Order.mk 1 7 (Dec.cents 22000) pending "pi_1"]
  /\ OrderItem.total_price <$> rows (order_items (snd r))
     = [Dec.cents 18000; Dec.cents 4000].
Proof.
  cbv zeta.
  destruct (X14_checkout_writes_the_snapshot provider_up 7
              (run [cart_add 100 7 (Data.mk 1 110 (at_ 10 0) 60);
                    cart_add 100 7 (Data.mk 3 111 (at_ 9 0) 30)] sample_db)
              (Cart.mk 1 7) (Dec.mk 2200000000000000000000000000 (-25))
              (mk_intent "pi_1" "pi_1_secret"))
    as (new & Hresp & Horders & _).
  - apply run_consistent, consistent_init.
  - reflexivity.
  - vm_compute. discriminate.
  - vm_compute. reflexivity.
  - reflexivity.
  - reflexivity.
  - split; [exact Hresp|]. split; [rewrite Horders|]; vm_compute; reflexivity.
Defined.

(** ** Changing a cart item *)

(** What the update serializer accepts: a duration, if given, among the four;
    a category, if given, of the catalog; and no paid appointment on the slot
    the item would have.  Date and time are not checked. *)
Lemma update_is_valid_iff (item : CartItem.t) (db : DB) (data : Patch.t) :
  UpdateCartItemSerializer.is_valid item db data = inr data <->
    (forall d, Patch.duration data = Some d -> d ∈ [15; 30; 60; 120])
    /\ (forall c, Patch.category data = Some c -> is_Some (categories db !! c))
    /\ paid_appointments_at
         (default (CartItem.category item) (Patch.category data),
          default (CartItem.date item) (Patch.date data),
          default (CartItem.time item) (Patch.time data)) db = [].
Proof.
  split.
  - intros H. apply update_is_valid_inr in H as (_ & Hc & Hd & Hs). auto.
  - intros (Hd & Hc & Hs). unfold UpdateCartItemSerializer.is_valid.
    assert (Hfe : UpdateCartItemSerializer.field_errors db data = []).
    { unfold UpdateCartItemSerializer.field_errors. apply app_nil. split.
      - destruct (Patch.duration data) as [d|]; [|reflexivity]. simpl.
        unfold UpdateCartItemSerializer.validate_duration.
        rewrite bool_decide_eq_true_2 by (apply Hd; reflexivity). reflexivity.
      - destruct (Patch.category data) as [c|]; [|reflexivity]. simpl.
        destruct (Hc c eq_refl) as [x Hx]. unfold validate_category. rewrite Hx.
        reflexivity. }
    rewrite Hfe. unfold UpdateCartItemSerializer.validate. rewrite Hs. reflexivity.
Qed.

(** X15.  For the owner of a cart item (keys being unique and every user
    having one cart at most), PATCH is accepted exactly when the duration, if
    given, is one of 15, 30, 60, 120, the category, if given, is in the
    catalog, and no paid appointment is on the slot the item would have; the
    date and the time given are not checked otherwise.  A refused PATCH is
    answered 400 and writes nothing.  An accepted one replaces the item by
    the item with the given fields overwritten, under the same key and in the
    same cart, and leaves every other item and table as it was. *)
Theorem X15_cart_patch_outcomes
    (user : Z) (data : Patch.t) (i : CartItem.t) (c : Cart.t) (db : DB) :
  well_keyed db ->
  i ∈ rows (cart_items db) -> c ∈ rows (carts db) -> Cart.pk c = CartItem.cart i ->
  Cart.user c = user ->
  let r := CartItemView_patch user (CartItem.pk i) data db in
  let i' := UpdateCartItemSerializer.update i data in
  (status_code (fst r) <> 400 <->
     (forall d, Patch.duration data = Some d -> d ∈ [15; 30; 60; 120])
     /\ (forall k, Patch.category data = Some k -> is_Some (categories db !! k))
     /\ paid_appointments_at
          (default (CartItem.category i) (Patch.category data),
           default (CartItem.date i) (Patch.date data),
           default (CartItem.time i) (Patch.time data)) db = [])
  /\ (status_code (fst r) = 400 -> snd r = db)
  /\ (status_code (fst r) <> 400 ->
      (forall j, j ∈ rows (cart_items (snd r))
                 <-> (j ∈ rows (cart_items db) /\ j <> i) \/ j = i')
      /\ CartItem.pk i' = CartItem.pk i
      /\ CartItem.cart i' = CartItem.cart i
      /\ carts (snd r) = carts db
      /\ appointments (snd r) = appointments db
      /\ orders (snd r) = orders db
      /\ order_items (snd r) = order_items db
      /\ categories (snd r) = categories db).
Proof.
  intros Hw Hi Hc Hlink Hu. cbv zeta.
  pose proof (get_item_owner user i c db Hw Hi Hc Hlink) as Hget.
  rewrite decide_True in Hget by exact Hu.
  unfold CartItemView_patch. rewrite Hget.
  rewrite <- update_is_valid_iff.
  destruct (UpdateCartItemSerializer.is_valid i db data) as [errs|vd] eqn:Ev.
  { simpl. split; [|split; [reflexivity|intros H; contradiction]].
    split; [intros H; contradiction|discriminate]. }
  apply update_is_valid_inr in Ev as Hvd. destruct Hvd as (-> & _).
  assert (H200 : status_code
                   (cart_response 200 (cart_message "Cart item updated.")
                      (CartItem.cart i)
                      (with_cart_items
                         (mk_table
                            (map (fun i0 => if bool_decide (CartItem.pk i0 = CartItem.pk i)
                                            then UpdateCartItemSerializer.update i data
                                            else i0)
                                 (rows (cart_items db)))
                            (next_pk (cart_items db)))
                         db)) <> 400).
  { unfold cart_response. destruct (cart_data _ _); simpl; lia. }
  cbv zeta. simpl fst. simpl snd.
  split; [split; [reflexivity|intros _; exact H200]|].
  split; [intros H; contradiction|]. intros _.
  split; [|repeat split].
  intros j. simpl. destruct (wk_cart_items _ Hw) as [_ Hnd]. split.
  - intros Hj. apply list_elem_of_In, in_map_iff in Hj as (j0 & <- & Hj0).
    apply list_elem_of_In in Hj0. case_bool_decide as Hpk; [right; reflexivity|].
    left. split; [exact Hj0|]. intros ->. apply Hpk. reflexivity.
  - intros [[Hj Hne]| ->]; apply list_elem_of_In, in_map_iff.
    + exists j. split; [|apply list_elem_of_In, Hj].
      rewrite bool_decide_eq_false_2; [reflexivity|].
      intros Hpk. apply Hne. eapply (NoDup_fmap_unique CartItem.pk); eassumption.
    + exists i. split; [|apply list_elem_of_In, Hi].
      rewrite bool_decide_eq_true_2 by reflexivity. reflexivity.
Qed.

Lemma X15_cart_patch_outcomes_witness :
  let db := run [cart_add 100 7 (Data.mk 1 110 (at_ 10 0) 60)] sample_db in
  let r := CartItemView_patch 7 1 (Patch.mk (Some 30) None (Some 1) (Some (at_ 3 0))) db in
  status_code (fst r) <> 400
  /\ rows (cart_items (snd r)) = [CartItem.mk 1 1 1 1 (at_ 3 0) 30].
Proof.
  cbv zeta.
  destruct (X15_cart_patch_outcomes 7 (Patch.mk (Some 30) None (Some 1) (Some (at_ 3 0)))
              (CartItem.mk 1 1 1 110 (at_ 10 0) 60) (Cart.mk 1 7)
              (run [cart_add 100 7 (Data.mk 1 110 (at_ 10 0) 60)] sample_db))
    as (Hiff & _ & _).
  - apply run_well_keyed, well_keyed_init.
  - vm_compute. left.
  - vm_compute. left.
  - reflexivity.
  - reflexivity.
  - split; [|vm_compute; reflexivity].
    apply Hiff. split; [|split].
    + intros d [= <-]. rewrite !elem_of_cons. lia.
    + intros k Hk. discriminate.
    + vm_compute. reflexivity.
Defined.

(** ** The life of an order *)




(** X17.  A failed payment closes the order.  The event is acknowledged
    with 200; the pending order with the key it names, if any, becomes
    failed and every other order stays as it is; appointments, carts, cart
    items and order items are untouched.  No pending order is left under
    that key, so a later succeeded event for it is answered 404 and writes
    nothing. *)
Theorem X17_failed_payment_closes_the_order (oid : Z) (db : DB) :
  let r := StripeWebhookView_post
             (Some (mk_event payment_intent_payment_failed (Some oid))) db in
  fst r = mk_response 200 status_ok
  /\ (forall o, o ∈ rows (orders db) -> Order.pk o = oid -> Order.status o = pending ->
                Order.set_status failed o ∈ rows (orders (snd r)))
  /\ (forall o, o ∈ rows (orders db) -> Order.pk o <> oid \/ Order.status o <> pending ->
                o ∈ rows (orders (snd r)))
  /\ length (rows (orders (snd r))) = length (rows (orders db))
  /\ appointments (snd r) = appointments db
  /\ carts (snd r) = carts db
  /\ cart_items (snd r) = cart_items db
  /\ order_items (snd r) = order_items db
  /\ pending_orders (Some oid) (snd r) = []
  /\ StripeWebhookView_post
       (Some (mk_event payment_intent_succeeded (Some oid))) (snd r)
     = (mk_response 404 (error "Order not found."), snd r).
Proof.
  cbv zeta. simpl.
  set (f := fun o => if bool_decide (Some (Order.pk o) = Some oid
                                     /\ Order.status o = pending)
                     then Order.set_status failed o else o).
  assert (Hnone : pending_orders (Some oid)
                    (with_orders (mk_table (map f (rows (orders db)))
                                           (next_pk (orders db))) db) = []).
  { unfold pending_orders. simpl.
    apply filter_nil_Forall, Forall_forall. intros o Ho [Hpk Hst].
    apply list_elem_of_In, in_map_iff in Ho as (o0 & <- & _).
    unfold f in Hpk, Hst. case_bool_decide as Hcond.
    - simpl in Hst. discriminate.
    - apply Hcond. auto. }
  split; [reflexivity|]. split; [|split; [|split; [|repeat split]]].
  - intros o Ho Hpk Hst. apply list_elem_of_In, in_map_iff. exists o.
    split; [|apply list_elem_of_In, Ho].
    unfold f. rewrite bool_decide_eq_true_2; [reflexivity|]. split; congruence.
  - intros o Ho Hor. apply list_elem_of_In, in_map_iff. exists o.
    split; [|apply list_elem_of_In, Ho].
    unfold f. rewrite bool_decide_eq_false_2; [reflexivity|].
    intros [[= Hpk] Hst]. destruct Hor; contradiction.
  - apply length_map.
  - exact Hnone.
  - unfold StripeWebhookView_post. simpl. rewrite Hnone. reflexivity.
Qed.

(** At most one pending order is found under a key. *)
Lemma pending_orders_unique (order : Order.t) (db : DB) :
  NoDup (Order.pk <$> rows (orders db)) ->
  order ∈ rows (orders db) -> Order.status order = pending ->
  pending_orders (Some (Order.pk order)) db = [order].
Proof.
  intros Hnd Ho Hst. unfold pending_orders.
  assert (Hsw : filter (fun o => Some (Order.pk o) = Some (Order.pk order)
                                 /\ Order.status o = pending) (rows (orders db))
                = filter (fun o => Order.status o = pending
                                   /\ Order.pk o = Order.pk order) (rows (orders db))).
  { apply list_filter_iff. intros o. split.
    - intros [[= Hpk] Hs]. auto.
    - intros [Hs Hpk]. split; congruence. }
  rewrite Hsw, (filter_and_key Order.pk (fun o => Order.status o = pending) _ order Hnd Ho).
  rewrite decide_True by exact Hst. reflexivity.
Qed.

(** X18.  Settlement of a pending order on consistent data.  The succeeded
    event naming the order is answered 200; exactly that order changes, to
    paid; afterwards every slot of the order's items holds an appointment;
    the cart of the order's user is emptied while the carts themselves and
    the items of every other cart stay; and no pending order is left under
    the key. *)
Theorem X18_settlement_of_a_pending_order (order : Order.t) (db : DB) :
  consistent db ->
  order ∈ rows (orders db) ->
  Order.status order = pending ->
  let r := StripeWebhookView_post
             (Some (mk_event payment_intent_succeeded (Some (Order.pk order)))) db in
  fst r = mk_response 200 status_ok
  /\ (forall o, o ∈ rows (orders (snd r))
                <-> (o ∈ rows (orders db) /\ o <> order)
                    \/ o = Order.set_status paid order)
  /\ (forall oi, oi ∈ items_of_order db (Order.pk order) ->
                 appointments_at (item_slot oi) (snd r) <> [])
  /\ carts (snd r) = carts db
  /\ (forall cart, user_cart db (Order.user order) = Some cart ->
                   items_of_cart (snd r) (Cart.pk cart) = []
                   /\ forall k, k <> Cart.pk cart ->
                                items_of_cart (snd r) k = items_of_cart db k)
  /\ (user_cart db (Order.user order) = None -> cart_items (snd r) = cart_items db)
  /\ pending_orders (Some (Order.pk order)) (snd r) = [].
Proof.
  intros Hc Ho Hst. cbv zeta.
  destruct (cons_orders _ Hc) as [_ Hnd].
  pose proof (pending_orders_unique order db Hnd Ho Hst) as Hp.
  destruct (settlement_run (Order.pk order) db order [] Hc Hp)
    as (db2 & _ & Hrun & _ & Hresp & Happts & _ & Hord).
  cbv zeta in Hrun, Hord.
  set (db1 := save_order (Order.set_status paid order) db) in *.
  destruct (create_appointments_rows (Order.user order)
              (items_of_order db (Order.pk order)) db1)
    as (new & _ & _ & _ & _ & Hcarts & Hci).
  pose proof (create_appointments_covers (Order.user order)
                (items_of_order db (Order.pk order)) db1) as Hcov.
  rewrite Hrun in Hcarts, Hci, Hcov. simpl in Hcarts, Hci, Hcov.
  destruct (webhook_succeeded_unfold (Order.pk order) db order [] Hp) as [_ Hunf].
  cbv zeta in Hunf. fold db1 in Hunf. rewrite Hrun in Hunf. cbn [fst snd] in Hunf.
  assert (Hucart : user_cart db2 (Order.user order) = user_cart db (Order.user order)).
  { unfold user_cart. rewrite Hcarts. reflexivity. }
  rewrite Hucart in Hunf.
  split; [exact Hresp|]. split; [|split; [|split; [|split; [|split]]]].
  - intros o. rewrite Hord. simpl. split.
    + intros Hin. apply list_elem_of_In, in_map_iff in Hin as (o0 & <- & Ho0).
      apply list_elem_of_In in Ho0. case_bool_decide as Hpk; [right; reflexivity|].
      left. split; [exact Ho0|]. intros ->. apply Hpk. reflexivity.
    + intros [[Hin Hne]| ->]; apply list_elem_of_In, in_map_iff.
      * exists o. split; [|apply list_elem_of_In, Hin].
        rewrite bool_decide_eq_false_2; [reflexivity|]. simpl. intros Hpk.
        apply Hne. eapply (NoDup_fmap_unique Order.pk); eassumption.
      * exists order. split; [|apply list_elem_of_In, Ho].
        rewrite bool_decide_eq_true_2 by reflexivity. reflexivity.
  - intros oi Hoi.
    rewrite (appointments_at_same _ _ db2 Happts). apply Hcov; [reflexivity|exact Hoi].
  - rewrite Hunf. simpl.
    destruct (user_cart db (Order.user order)); simpl; exact Hcarts.
  - intros cart Hcart. rewrite Hunf, Hcart. simpl. split.
    + unfold items_of_cart. simpl.
      apply filter_nil_Forall, Forall_forall. intros i Hi Hin.
      apply list_elem_of_filter in Hi as [Hne _]. contradiction.
    + intros k Hk. unfold items_of_cart. simpl. rewrite Hci.
      rewrite list_filter_filter. apply list_filter_iff. intros i. split.
      * intros [H _]. exact H.
      * intros H. split; [exact H|]. congruence.
  - intros Hnone. rewrite Hunf, Hnone. exact Hci.
  - unfold pending_orders. rewrite Hord. apply no_pending_after_paid.
Qed.

Lemma X18_settlement_of_a_pending_order_witness :
  let db := run [cart_add 100 7 (Data.mk 1 110 (at_ 10 0) 60);
                 cart_add 100 8 (Data.mk 2 110 (at_ 10 0) 30);
                 checkout provider_up 7] sample_db in
  let r := StripeWebhookView_post
             (Some (mk_event payment_intent_succeeded (Some 1))) db in
  fst r = mk_response 200 status_ok
  /\ items_of_cart (snd r) 1 = []
  /\ items_of_cart (snd r) 2 = items_of_cart db 2.
Proof.
  cbv zeta.
  destruct (X18_settlement_of_a_pending_order
              (Order.mk 1 7 (Dec.cents 18000) pending "pi_1")
              (run [cart_add 100 7 (Data.mk 1 110 (at_ 10 0) 60);
                    cart_add 100 8 (Data.mk 2 110 (at_ 10 0) 30);
                    checkout provider_up 7] sample_db))
    as (Hresp & _ & _ & _ & Hcart & _).
  - apply run_consistent, consistent_init.
  - vm_compute. left.
  - reflexivity.
  - destruct (Hcart (Cart.mk 1 7) eq_refl) as [Hempty Hothers].
    split; [exact Hresp|]. split; [exact Hempty|].
    apply Hothers. discriminate.
Defined.

(** ** When the price is exact *)

(** Within the precision [_fix] changes nothing. *)
Lemma fix_small (m e : Z) :
  0 < m < 10 ^ 28 -> Dec.fix_ (Dec.mk m e) = Dec.mk m e.
Proof.
  intros [Hm0 Hm1]. unfold Dec.fix_. simpl Dec.coeff.
  rewrite (Z.abs_eq m) by lia.
  pose proof (ndigits_le m 28 Hm0 Hm1) as Hn. unfold Dec.prec.
  destruct (Z.leb_spec (Dec.ndigits m) 28); [reflexivity|lia].
Qed.

(** Stripping never enlarges the coefficient. *)
Lemma strip_zeros_le (fuel : nat) (c e ideal : Z) :
  0 < c -> Dec.coeff (Dec.strip_zeros fuel c e ideal) <= c.
Proof.
  revert c e. induction fuel as [|f IH]; intros c e Hc; simpl; [lia|].
  destruct ((e <? ideal) && (c mod 10 =? 0)) eqn:E; simpl; [|lia].
  apply andb_true_iff in E as [_ Hmod]. apply Z.eqb_eq in Hmod.
  pose proof (Z.div_mod c 10 ltac:(lia)) as Hdm.
  assert (Hc10 : 0 < c / 10) by lia.
  pose proof (IH (c / 10) (e + 1) Hc10). lia.
Qed.

(** The loop strips the zeros that are there, as far as the ideal exponent
    and its budget allow. *)
Lemma strip_zeros_power (j : nat) (fuel : nat) (m e ideal : Z) :
  0 < m -> (j <= fuel)%nat -> e + Z.of_nat j <= ideal ->
  Dec.coeff (Dec.strip_zeros fuel (m * 10 ^ Z.of_nat j) e ideal) <= m.
Proof.
  revert fuel e. induction j as [|j IH]; intros fuel e Hm Hf He.
  { change (10 ^ Z.of_nat 0) with 1. rewrite Z.mul_1_r. apply strip_zeros_le, Hm. }
  destruct fuel as [|f]; [lia|]. simpl Dec.strip_zeros.
  rewrite Nat2Z.inj_succ, Z.pow_succ_r by lia.
  replace (m * (10 * 10 ^ Z.of_nat j)) with (m * 10 ^ Z.of_nat j * 10) by ring.
  rewrite Z.mod_mul by lia. rewrite Z.div_mul by lia.
  destruct (Z.ltb_spec e ideal); [|lia]. simpl.
  apply IH; [exact Hm|lia|lia].
Qed.

(** The quotient by 15 of a price whose cents are a multiple of 3 is exact
    and short. *)
Lemma div15_exact (k : Z) :
  0 < 3 * k < 10 ^ 10 ->
  0 < Dec.coeff (Dec.div (Dec.cents (3 * k)) (Dec.of_int 15)) <= 2 * k
  /\ (Dec.to_Q (Dec.div (Dec.cents (3 * k)) (Dec.of_int 15))
      == inject_Z (3 * k) * (1 # 1500))%Q.
Proof.
  intros [Hc0 Hc1]. set (c := 3 * k) in *.
  destruct (ndigits_spec c Hc0) as (Hn1 & Hlo & Hhi).
  pose proof (ndigits_le c 10 Hc0 Hc1) as Hn10.
  unfold Dec.div, Dec.cents, Dec.of_int. simpl Dec.coeff. simpl Dec.exp.
  rewrite (Z.abs_eq c) by lia. rewrite (Z.sgn_pos c) by lia.
  change (Z.abs 15) with 15. change (Z.sgn 15) with 1.
  change (15 =? 0) with false. cbv iota.
  destruct (Z.eqb_spec c 0) as [|_]; [lia|].
  change (Dec.ndigits 15) with 2. unfold Dec.prec.
  set (n := Dec.ndigits c) in *.
  set (shift := 2 - n + 28 + 1).
  assert (Hshift : 21 <= shift) by (unfold shift; lia).
  destruct (Z.leb_spec 0 shift) as [_|]; [|lia].
  set (j := Z.to_nat (shift - 1)).
  assert (Hj : Z.of_nat j = shift - 1) by (unfold j; lia).
  assert (HS : 10 ^ shift = 10 ^ Z.of_nat j * 10).
  { rewrite Hj. replace shift with (Z.succ (shift - 1)) at 1 by lia.
    rewrite Z.pow_succ_r by lia. ring. }
  assert (Hnum : c * 10 ^ shift = (2 * k * 10 ^ Z.of_nat j) * 15).
  { rewrite HS. unfold c. ring. }
  rewrite Hnum, Z.mod_mul, Z.div_mul by lia. simpl (0 =? 0). cbv iota.
  set (e := -2 - 0 - shift).
  replace (-2 - 0 - e) with shift by (unfold e; lia).
  assert (Hk : 0 < 2 * k) by lia.
  assert (Hq : 0 < 2 * k * 10 ^ Z.of_nat j).
  { apply Z.mul_pos_pos; [exact Hk|]. apply Z.pow_pos_nonneg; lia. }
  destruct (strip_zeros_value (Z.to_nat shift) (2 * k * 10 ^ Z.of_nat j) e (-2 - 0) Hq)
    as [Hpos Hval].
  pose proof (strip_zeros_power j (Z.to_nat shift) (2 * k) e (-2 - 0) Hk
                ltac:(lia) ltac:(unfold e; lia)) as Hle.
  set (d0 := Dec.strip_zeros (Z.to_nat shift) (2 * k * 10 ^ Z.of_nat j) e (-2 - 0)) in *.
  rewrite Z.mul_1_l.
  rewrite fix_small by (change (10 ^ 10) with 10000000000 in Hc1;
                        change (10 ^ 28) with 10000000000000000000000000000; lia).
  simpl Dec.coeff. split; [lia|].
  transitivity (Dec.to_Q d0); [destruct d0; reflexivity|]. rewrite Hval.
  unfold Dec.to_Q. simpl Dec.coeff. simpl Dec.exp.
  rewrite !inject_Z_mult, (Zpower_Qpower 10 (Z.of_nat j)) by lia.
  rewrite <- !Qmult_assoc, <- Qpower_plus by discriminate.
  replace (Z.of_nat j + e) with (-3) by (unfold e; lia).
  change (Qpower (inject_Z 10) (-3)) with (1 # 1000)%Q.
  unfold c. rewrite inject_Z_mult.
  change (inject_Z 2) with (2 # 1)%Q. change (inject_Z 3) with (3 # 1)%Q.
  set (x := inject_Z k). lra.
Qed.

(** X19.  When the cents of the unit price are a multiple of 3 (a positive
    two-place price of at most ten digits), the computed price is exactly
    u / 15 * D for every duration up to 120 minutes: the quotient by 15 then
    has few digits and nothing is rounded. *)
Theorem X19_price_is_exact_on_multiples_of_three (k d : Z) :
  0 < 3 * k < 10 ^ 10 -> 0 < d <= 120 ->
  (Dec.to_Q (price_formula (Dec.cents (3 * k)) d)
   == exact_price (Dec.cents (3 * k)) d)%Q.
Proof.
  intros Hk Hd. destruct (div15_exact k Hk) as ([Hpos Hle] & Hval).
  unfold price_formula, Dec.mul.
  set (r := Dec.div (Dec.cents (3 * k)) (Dec.of_int 15)) in *.
  simpl Dec.coeff. simpl Dec.exp. rewrite Z.add_0_r.
  rewrite fix_small.
  2:{ change (10 ^ 10) with 10000000000 in Hk.
      change (10 ^ 28) with 10000000000000000000000000000. nia. }
  assert (Hv : (Dec.to_Q (Dec.mk (Dec.coeff r * d) (Dec.exp r))
                == Dec.to_Q r * inject_Z d)%Q).
  { unfold Dec.to_Q. simpl. rewrite inject_Z_mult. ring. }
  rewrite Hv, Hval. unfold exact_price, Dec.to_Q, Dec.cents.
  simpl Dec.coeff. simpl Dec.exp.
  change (Qpower (inject_Z 10) (-2)) with (1 # 100)%Q.
  unfold Qdiv. change (/ inject_Z 15)%Q with (1 # 15)%Q.
  set (x := inject_Z (3 * k)). set (y := inject_Z d).
  assert (E : ((1 # 1500) == (1 # 100) * (1 # 15))%Q) by reflexivity.
  rewrite E. ring.
Qed.

Lemma X19_price_is_exact_on_multiples_of_three_witness :
  (Dec.to_Q (price_formula (Dec.cents 7500) 60) == exact_price (Dec.cents 7500) 60)%Q.
Proof.
  apply (X19_price_is_exact_on_multiples_of_three 2500 60); lia.
Defined.

(** ** The amount handed to the provider *)

(** [int(d)] of a positive decimal is the integer part of its value. *)
Lemma to_int_floor (m e : Z) :
  0 < m ->
  (inject_Z (Dec.to_int (Dec.mk m e)) <= Dec.to_Q (Dec.mk m e))%Q
  /\ (Dec.to_Q (Dec.mk m e) < inject_Z (Dec.to_int (Dec.mk m e)) + 1)%Q.
Proof.
  intros Hm. unfold Dec.to_int, Dec.to_Q. simpl Dec.coeff. simpl Dec.exp.
  destruct (Z.leb_spec 0 e) as [He|He].
  - rewrite inject_Z_mult, (Zpower_Qpower 10 e He).
    set (v := (inject_Z m * Qpower (inject_Z 10) e)%Q). lra.
  - set (P := 10 ^ (- e)).
    assert (HP : 0 < P) by (apply Z.pow_pos_nonneg; lia).
    rewrite Z.quot_div_nonneg by lia.
    pose proof (Z.div_mod m P ltac:(lia)) as Hdm.
    pose proof (Z.mod_pos_bound m P HP) as Hmod.
    set (q := m / P) in *.
    assert (Hlo : q * P <= m) by lia.
    assert (Hhi : m < (q + 1) * P) by lia.
    rewrite Zle_Qle in Hlo. rewrite Zlt_Qlt in Hhi.
    rewrite inject_Z_mult in Hlo. rewrite inject_Z_mult, inject_Z_plus in Hhi.
    pose proof (ten_pos e) as Ht. set (t := Qpower (inject_Z 10) e) in *.
    assert (HPt : (inject_Z P * t == 1)%Q).
    { unfold P, t. rewrite Zpower_Qpower by lia.
      rewrite <- Qpower_plus by discriminate.
      replace (- e + e) with 0 by lia. reflexivity. }
    apply (Qmult_le_compat_r _ _ t) in Hlo; [|lra].
    apply (Qmult_lt_compat_r _ _ t) in Hhi; [|exact Ht].
    rewrite <- Qmult_assoc, HPt in Hlo. rewrite <- Qmult_assoc, HPt in Hhi.
    change (inject_Z 1) with 1%Q in Hhi.
    set (mq := inject_Z m) in *. set (qq := inject_Z q) in *.
    split; lra.
Qed.

(** The sum over one price, and its hundredfold, stay within two roundings
    of the price. *)
Lemma single_amount_rel (p : Decimal) :
  0 < Dec.coeff p ->
  let total := sum_prices [p] in
  let a := Dec.mul total (Dec.of_int 100) in
  0 < Dec.coeff total /\ 0 < Dec.coeff a
  /\ (Dec.to_Q p * (100 # 1) * (1 - eps) * (1 - eps) <= Dec.to_Q a)%Q
  /\ (Dec.to_Q a <= Dec.to_Q p * (100 # 1) * (1 + eps) * (1 + eps))%Q.
Proof.
  intros Hp. cbv zeta. unfold sum_prices. simpl foldl.
  unfold Dec.add, Dec.of_int. simpl Dec.coeff. simpl Dec.exp.
  set (e := Z.min 0 (Dec.exp p)).
  assert (Hk : 0 <= Dec.exp p - e) by (unfold e; lia).
  rewrite Z.mul_0_l, Z.add_0_l.
  set (M := Dec.coeff p * 10 ^ (Dec.exp p - e)).
  assert (HM : 0 < M).
  { apply Z.mul_pos_pos; [exact Hp|]. apply Z.pow_pos_nonneg; lia. }
  assert (Hval : (Dec.to_Q (Dec.mk M e) == Dec.to_Q p)%Q).
  { unfold M. rewrite <- (to_Q_shift (Dec.coeff p) e (Dec.exp p - e) Hk).
    replace (e + (Dec.exp p - e)) with (Dec.exp p) by lia.
    destruct p; reflexivity. }
  destruct (fix_rel M e HM) as (Hpos & Hl & Hu).
  set (total := Dec.fix_ (Dec.mk M e)) in *.
  unfold Dec.mul. simpl Dec.coeff. simpl Dec.exp. rewrite Z.add_0_r.
  assert (Hm : 0 < Dec.coeff total * 100) by lia.
  destruct (fix_rel (Dec.coeff total * 100) (Dec.exp total) Hm) as (Hpos' & Hl' & Hu').
  assert (Hv : (Dec.to_Q (Dec.mk (Dec.coeff total * 100) (Dec.exp total))
                == Dec.to_Q total * (100 # 1))%Q).
  { unfold Dec.to_Q. simpl. rewrite inject_Z_mult.
    change (inject_Z 100) with (100 # 1)%Q. ring. }
  rewrite Hv in Hl', Hu'. rewrite Hval in Hl, Hu.
  split; [exact Hpos|]. split; [exact Hpos'|].
  set (a := Dec.to_Q (Dec.fix_ (Dec.mk (Dec.coeff total * 100) (Dec.exp total)))) in *.
  set (t := Dec.to_Q total) in *. set (v := Dec.to_Q p) in *.
  unfold eps in *. split; lra.
Qed.

(** X20.  The amount of a cart of one item.  For a positive two-place unit
    price of [c] cents, at most ten digits, and a duration of 15, 30, 60 or
    120 minutes, the exact price is [c * (D / 15)] cents.  The cart total is
    positive, so checkout goes on, and the amount in cents it hands to the
    provider, [int(total * 100)], is that number or one less: the customer
    is never charged more than the exact price, and at most one cent
    less. *)
Theorem X20_amount_of_a_single_item_cart
    (db : DB) (cart_pk : Z) (i : CartItem.t) (cat : ConsultationCategory.t) (c : Z) :
  items_of_cart db cart_pk = [i] ->
  categories db !! CartItem.category i = Some cat ->
  ConsultationCategory.price_per_15min cat = Dec.cents c ->
  0 < c < 10 ^ 10 ->
  CartItem.duration i ∈ [15; 30; 60; 120] ->
  exists total,
    Cart_total db cart_pk = Some total
    /\ Dec.le0 total = false
    /\ (Dec.to_int (Dec.mul total (Dec.of_int 100)) = c * (CartItem.duration i / 15)
        \/ Dec.to_int (Dec.mul total (Dec.of_int 100))
           = c * (CartItem.duration i / 15) - 1).
Proof.
  intros Hitems Hcat Hprice Hc Hd.
  set (d := CartItem.duration i) in *.
  set (p := price_formula (Dec.cents c) d).
  exists (sum_prices [p]).
  assert (Hd0 : 0 < d) by (set_unfold in Hd; lia).
  pose proof (price_formula_pos c d Hc Hd0) as Hp. fold p in Hp.
  destruct (single_amount_rel p Hp) as (Htot & Ha & Hl & Hu).
  destruct (price_formula_accuracy c d Hc Hd) as [Hlo Hhi]. fold p in Hlo, Hhi.
  split; [|split].
  - unfold Cart_total. rewrite Hitems. simpl.
    unfold computed_price, category_price. rewrite Hcat. simpl. rewrite Hprice.
    reflexivity.
  - unfold Dec.le0. apply Z.leb_gt. exact Htot.
  - set (a := Dec.mul (sum_prices [p]) (Dec.of_int 100)) in *.
    destruct (to_int_floor (Dec.coeff a) (Dec.exp a) Ha) as [Hfl Hce].
    replace (Dec.mk (Dec.coeff a) (Dec.exp a)) with a in Hfl, Hce by (destruct a; reflexivity).
    set (n := Dec.to_int a) in *.
    assert (Hc0 : (0 < inject_Z c)%Q).
    { change 0%Q with (inject_Z 0). rewrite <- Zlt_Qlt. lia. }
    assert (Hc1 : (inject_Z c < 10000000000 # 1)%Q).
    { change (10000000000 # 1)%Q with (inject_Z (10 ^ 10)). rewrite <- Zlt_Qlt. lia. }
    set (v := Dec.to_Q p) in *. set (w := Dec.to_Q a) in *.
    clearbody v w n. clear Hp Ha Htot a p.
    revert Hlo Hhi.
    unfold exact_price, Dec.to_Q, Dec.cents. simpl Dec.coeff. simpl Dec.exp.
    change (Qpower (inject_Z 10) (-2)) with (1 # 100)%Q.
    unfold Qdiv. change (/ inject_Z 15)%Q with (1 # 15)%Q.
    assert (Hcases : forall k,
              (inject_Z c * inject_Z k - (1 # 2) < w)%Q ->
              (w < inject_Z c * inject_Z k + (1 # 2))%Q ->
              n = c * k \/ n = c * k - 1).
    { intros k Hwl Hwu.
      assert (H1 : (inject_Z n < inject_Z (c * k + 1))%Q).
      { rewrite inject_Z_plus, inject_Z_mult. change (inject_Z 1) with 1%Q. lra. }
      assert (H2 : (inject_Z (c * k - 2) < inject_Z n)%Q).
      { replace (c * k - 2) with (c * k + (-2)) by lia.
        rewrite inject_Z_plus, inject_Z_mult.
        change (inject_Z (-2)) with (-2 # 1)%Q. lra. }
      rewrite <- Zlt_Qlt in H1, H2. lia. }
    unfold eps in *. clearbody d. set_unfold in Hd.
    destruct Hd as [->|[->|[->|[->|[]]]]]; intros Hlo Hhi.
    + apply (Hcases 1);
        change (inject_Z 1) with (1 # 1)%Q; change (inject_Z 15) with (15 # 1)%Q in *; lra.
    + apply (Hcases 2);
        change (inject_Z 2) with (2 # 1)%Q; change (inject_Z 30) with (30 # 1)%Q in *; lra.
    + apply (Hcases 4);
        change (inject_Z 4) with (4 # 1)%Q; change (inject_Z 60) with (60 # 1)%Q in *; lra.
    + apply (Hcases 8);
        change (inject_Z 8) with (8 # 1)%Q; change (inject_Z 120) with (120 # 1)%Q in *; lra.
Qed.

Lemma X20_amount_of_a_single_item_cart_witness :
  let db := run [cart_add 100 7 (Data.mk 3 110 (at_ 10 0) 30)] sample_db in
  exists total,
    Cart_total db 1 = Some total
    /\ Dec.le0 total = false
    /\ (Dec.to_int (Dec.mul total (Dec.of_int 100)) = 2000 * (30 / 15)
        \/ Dec.to_int (Dec.mul total (Dec.of_int 100)) = 2000 * (30 / 15) - 1).
Proof.
  cbv zeta.
  apply (X20_amount_of_a_single_item_cart
           (run [cart_add 100 7 (Data.mk 3 110 (at_ 10 0) 30)] sample_db) 1
           (CartItem.mk 1 1 3 110 (at_ 10 0) 30) tax_consulting 2000).
  - reflexivity.
  - reflexivity.
  - reflexivity.
  - lia.
  - vm_compute. right. left.
Defined.
